(** * The presentation-surface lifecycle of [Window_vulkan]

    A shallow embedding of [src/ttauri/GUI/Window_vulkan.cpp]: the
    lifecycle state machine ([build], [teardown]) and the per-tick
    frame-submission protocol ([render]).

    The window object is a record; every call that leaves the class (on
    the Vulkan device, the queues, the command buffer, the pipelines, the
    widget tree, the operating-system window and the delegate) is
    appended, in program order, to a trace of [Event]s.  The answers the
    outside world gives during one call of [build] or [render] are
    collected in an [Env].  C++ exceptions and failed assertions are
    outcomes of the computation; the mutations done before them stay
    visible, as they do in C++. *)

From Stdlib Require Import ZArith List Bool String Lia.
From Stdlib Require SpecFloat.
Import ListNotations.
Open Scope Z_scope.

Set Implicit Arguments.

(** ** Lifecycle state *)

(** Modelled from the spec: the declaration of [Window_base::State] is not
    part of the sources at hand.  Section 3 of the specification gives the
    order [NoDevice < NoSurface < NoSwapchain < ReadyToRender], then the
    four loss markers [SwapchainLost], [SurfaceLost], [DeviceLost],
    [WindowLost] above [ReadyToRender], and a terminal [NoWindow]; the
    terminal state is placed below [NoDevice], so that no cascade of
    [teardown] applies to it. *)
Inductive State : Type :=
| NoWindow
| NoDevice
| NoSurface
| NoSwapchain
| ReadyToRender
| SwapchainLost
| SurfaceLost
| DeviceLost
| WindowLost.

Definition State_ordinal (s : State) : Z :=
  match s with
  | NoWindow => 0
  | NoDevice => 1
  | NoSurface => 2
  | NoSwapchain => 3
  | ReadyToRender => 4
  | SwapchainLost => 5
  | SurfaceLost => 6
  | DeviceLost => 7
  | WindowLost => 8
  end.

(** [a >= b] on the enumeration's underlying value. *)
Definition State_ge (a b : State) : bool := State_ordinal b <=? State_ordinal a.

Definition State_eqb (a b : State) : bool := State_ordinal a =? State_ordinal b.

(** ** Vulkan vocabulary *)

Module vk.

(** [vk::Result], by its numeric value in the Vulkan headers. *)
Definition Result := Z.
Definition eSuccess : Result := 0.
Definition eNotReady : Result := 1.
Definition eTimeout : Result := 2.
Definition eSuboptimalKHR : Result := 1000001003.
Definition eErrorOutOfHostMemory : Result := -1.
Definition eErrorOutOfDeviceMemory : Result := -2.
Definition eErrorDeviceLost : Result := -4.
Definition eErrorSurfaceLostKHR : Result := -1000000000.
Definition eErrorOutOfDateKHR : Result := -1000001004.

Record Extent2D : Type := { width : Z; height : Z }.

Definition Extent2D_eqb (a b : Extent2D) : bool :=
  (width a =? width b) && (height a =? height b).

Record SurfaceCapabilitiesKHR : Type :=
  { minImageCount : Z;
    maxImageCount : Z;
    currentExtent : Extent2D }.

Inductive PipelineStageFlagBits : Type :=
| eTopOfPipe
| eFragmentShader
| eColorAttachmentOutput
| eBottomOfPipe.

End vk.

Definition uint32_max : Z := 4294967295.
Definition uint64_max : Z := 18446744073709551615.
Definition int_max : Z := 2147483647.

(** Handles handed out by the driver are opaque numbers. *)
Definition Handle := nat.

(** The two semaphores and the fence owned by the window. *)
Inductive Semaphore : Type := imageAvailableSemaphore | renderFinishedSemaphore.
Inductive Fence : Type := renderFinishedFence_h.
Inductive CommandBuffer : Type := commandBuffer.

(** The five render stages, in subpass order. *)
Inductive Pipeline : Type :=
| flatPipeline
| boxPipeline
| imagePipeline
| SDFPipeline
| toneMapperPipeline.

Inductive PipelineMethod : Type :=
| buildForNewDevice
| buildForNewSurface
| buildForNewSwapchain (subpass : Z) (extent : vk.Extent2D)
| teardownForSwapchainLost
| teardownForSurfaceLost
| teardownForDeviceLost
| teardownForWindowLost
| drawInCommandBuffer.

(** The GPU objects the window destroys through [device.destroy(...)]. *)
Inductive Object : Type :=
| ObjSwapchain
| ObjDepthImageView
| ObjColorImageView
| ObjSwapchainImageView (image : Handle)
| ObjFramebuffer (fb : Handle)
| ObjRenderPass
| ObjSemaphore (s : Semaphore)
| ObjFence (f : Fence).

Inductive Attachment : Type := depthImage | colorImage.

(** The minimum and maximum size the widget tree asks for.  Sizes are
    kept in whole pixels. *)
Record interval_vec2 : Type :=
  { minimum : vk.Extent2D;
    maximum : vk.Extent2D }.

(** ** Single-precision floats

    The sizes of the widget tree are [float]s in the code, and a
    comparison of an [int] with a [float] converts the [int] to [float]
    first.  [float] is IEEE 754 binary32 as [SpecFloat] of the Standard
    Library defines it: 24 bits of precision, exponents up to 128, and a
    conversion that rounds to the nearest value, ties to even. *)
Definition float : Type := SpecFloat.spec_float.

Definition float_of_int (x : Z) : float :=
  SpecFloat.binary_normalize 24 128 x 0 false.

(** [a < b] on floats *)
Definition float_ltb (a b : float) : bool := SpecFloat.SFltb a b.

(** [width()] and [height()] of a size of the widget tree: the float of
    the size that the model keeps in whole pixels. *)
Definition vec_width (e : vk.Extent2D) : float := float_of_int (vk.width e).

Definition vec_height (e : vk.Extent2D) : float := float_of_int (vk.height e).

Arguments float_of_int x : simpl never.
Arguments float_ltb a b : simpl never.

(** ** Calls that leave the window object *)

Inductive Event : Type :=
(* device *)
| EvWaitForFences (f : Fence) (timeout : Z)
| EvResetFences (f : Fence)
| EvDeviceWaitIdle
| EvAcquireNextImageKHR (timeout : Z) (signal : Semaphore)
| EvGetSurfaceCapabilitiesKHR
| EvScore
| EvCreateSwapchainKHR (minImageCount : Z) (extent : vk.Extent2D)
| EvCreateImage (a : Attachment) (extent : vk.Extent2D)
| EvDestroyImage (a : Attachment)
| EvGetSwapchainImagesKHR
| EvCreateImageView (o : Object)
| EvCreateFramebuffer (image : Handle) (extent : vk.Extent2D)
| EvCreateRenderPass
| EvCreateSemaphore (s : Semaphore)
| EvCreateFence (f : Fence) (signaled : bool)
| EvAllocateCommandBuffers
| EvFreeCommandBuffers
| EvDestroy (o : Object)
(* queues *)
| EvQueueSubmit (waits : list (Semaphore * vk.PipelineStageFlagBits))
                (commandBuffers : list CommandBuffer)
                (signals : list Semaphore)
                (fence : option Fence)
| EvQueuePresent (imageIndex : Z) (waits : list Semaphore)
(* the window's command buffer *)
| EvCmdReset
| EvCmdBegin
| EvCmdBeginRenderPass (framebuffer : Handle)
| EvCmdNextSubpass
| EvCmdEndRenderPass
| EvCmdEnd
(* render stages *)
| EvPipeline (p : Pipeline) (m : PipelineMethod)
(* widget tree *)
| EvWidgetUpdateConstraints (need_reconstrain : bool)
| EvWidgetPreferredSize
| EvWidgetSetLayoutParameters (extent : vk.Extent2D)
| EvWidgetUpdateLayout (need_layout : bool)
| EvWidgetDraw
| EvWidgetBackgroundColor
(* operating-system window, gui system and delegate *)
| EvGetSurface
| EvDestroySurfaceKHR
| EvSetWindowSize (extent : vk.Extent2D)
| EvWindowChangedSize (extent : vk.Extent2D)
| EvClosingWindow.

(** ** The window object *)

Record Window : Type := mkWindow
  { state : State;
    _device : option Handle;
    intrinsic : option Handle;
    (** the class constant [defaultNumberOfSwapchainImages]; its
        declaration is in the header, which is not at hand *)
    defaultNumberOfSwapchainImages : Z;
    nrSwapchainImages : Z;
    swapchainImageExtent : vk.Extent2D;
    swapchainImages : list Handle;
    swapchainImageViews : list Handle;
    swapchainFramebuffers : list Handle;
    (** [true] when the handle [renderFinishedFence] is not null *)
    renderFinishedFence : bool;
    currentWindowExtent : vk.Extent2D;
    _request_setting_change : bool;
    requestResize : bool;
    requestLayout : bool;
    requestRedraw : bool }.

(** Assignment to one member. *)
Definition set_state (v : State) (w : Window) : Window :=
  mkWindow v (_device w) (intrinsic w) (defaultNumberOfSwapchainImages w)
    (nrSwapchainImages w) (swapchainImageExtent w) (swapchainImages w)
    (swapchainImageViews w) (swapchainFramebuffers w) (renderFinishedFence w)
    (currentWindowExtent w) (_request_setting_change w) (requestResize w)
    (requestLayout w) (requestRedraw w).
Definition set__device (v : option Handle) (w : Window) : Window :=
  mkWindow (state w) v (intrinsic w) (defaultNumberOfSwapchainImages w)
    (nrSwapchainImages w) (swapchainImageExtent w) (swapchainImages w)
    (swapchainImageViews w) (swapchainFramebuffers w) (renderFinishedFence w)
    (currentWindowExtent w) (_request_setting_change w) (requestResize w)
    (requestLayout w) (requestRedraw w).
Definition set_intrinsic (v : option Handle) (w : Window) : Window :=
  mkWindow (state w) (_device w) v (defaultNumberOfSwapchainImages w)
    (nrSwapchainImages w) (swapchainImageExtent w) (swapchainImages w)
    (swapchainImageViews w) (swapchainFramebuffers w) (renderFinishedFence w)
    (currentWindowExtent w) (_request_setting_change w) (requestResize w)
    (requestLayout w) (requestRedraw w).
Definition set_nrSwapchainImages (v : Z) (w : Window) : Window :=
  mkWindow (state w) (_device w) (intrinsic w)
    (defaultNumberOfSwapchainImages w) v (swapchainImageExtent w)
    (swapchainImages w) (swapchainImageViews w) (swapchainFramebuffers w)
    (renderFinishedFence w) (currentWindowExtent w)
    (_request_setting_change w) (requestResize w) (requestLayout w)
    (requestRedraw w).
Definition set_swapchainImageExtent (v : vk.Extent2D) (w : Window) : Window :=
  mkWindow (state w) (_device w) (intrinsic w)
    (defaultNumberOfSwapchainImages w) (nrSwapchainImages w) v
    (swapchainImages w) (swapchainImageViews w) (swapchainFramebuffers w)
    (renderFinishedFence w) (currentWindowExtent w)
    (_request_setting_change w) (requestResize w) (requestLayout w)
    (requestRedraw w).
Definition set_swapchainImages (v : list Handle) (w : Window) : Window :=
  mkWindow (state w) (_device w) (intrinsic w)
    (defaultNumberOfSwapchainImages w) (nrSwapchainImages w)
    (swapchainImageExtent w) v (swapchainImageViews w)
    (swapchainFramebuffers w) (renderFinishedFence w) (currentWindowExtent w)
    (_request_setting_change w) (requestResize w) (requestLayout w)
    (requestRedraw w).
Definition set_swapchainImageViews (v : list Handle) (w : Window) : Window :=
  mkWindow (state w) (_device w) (intrinsic w)
    (defaultNumberOfSwapchainImages w) (nrSwapchainImages w)
    (swapchainImageExtent w) (swapchainImages w) v (swapchainFramebuffers w)
    (renderFinishedFence w) (currentWindowExtent w)
    (_request_setting_change w) (requestResize w) (requestLayout w)
    (requestRedraw w).
Definition set_swapchainFramebuffers (v : list Handle) (w : Window) : Window :=
  mkWindow (state w) (_device w) (intrinsic w)
    (defaultNumberOfSwapchainImages w) (nrSwapchainImages w)
    (swapchainImageExtent w) (swapchainImages w) (swapchainImageViews w) v
    (renderFinishedFence w) (currentWindowExtent w)
    (_request_setting_change w) (requestResize w) (requestLayout w)
    (requestRedraw w).
Definition set_renderFinishedFence (v : bool) (w : Window) : Window :=
  mkWindow (state w) (_device w) (intrinsic w)
    (defaultNumberOfSwapchainImages w) (nrSwapchainImages w)
    (swapchainImageExtent w) (swapchainImages w) (swapchainImageViews w)
    (swapchainFramebuffers w) v (currentWindowExtent w)
    (_request_setting_change w) (requestResize w) (requestLayout w)
    (requestRedraw w).
Definition set_currentWindowExtent (v : vk.Extent2D) (w : Window) : Window :=
  mkWindow (state w) (_device w) (intrinsic w)
    (defaultNumberOfSwapchainImages w) (nrSwapchainImages w)
    (swapchainImageExtent w) (swapchainImages w) (swapchainImageViews w)
    (swapchainFramebuffers w) (renderFinishedFence w) v
    (_request_setting_change w) (requestResize w) (requestLayout w)
    (requestRedraw w).
Definition set__request_setting_change (v : bool) (w : Window) : Window :=
  mkWindow (state w) (_device w) (intrinsic w)
    (defaultNumberOfSwapchainImages w) (nrSwapchainImages w)
    (swapchainImageExtent w) (swapchainImages w) (swapchainImageViews w)
    (swapchainFramebuffers w) (renderFinishedFence w) (currentWindowExtent w)
    v (requestResize w) (requestLayout w) (requestRedraw w).
Definition set_requestResize (v : bool) (w : Window) : Window :=
  mkWindow (state w) (_device w) (intrinsic w)
    (defaultNumberOfSwapchainImages w) (nrSwapchainImages w)
    (swapchainImageExtent w) (swapchainImages w) (swapchainImageViews w)
    (swapchainFramebuffers w) (renderFinishedFence w) (currentWindowExtent w)
    (_request_setting_change w) v (requestLayout w) (requestRedraw w).
Definition set_requestLayout (v : bool) (w : Window) : Window :=
  mkWindow (state w) (_device w) (intrinsic w)
    (defaultNumberOfSwapchainImages w) (nrSwapchainImages w)
    (swapchainImageExtent w) (swapchainImages w) (swapchainImageViews w)
    (swapchainFramebuffers w) (renderFinishedFence w) (currentWindowExtent w)
    (_request_setting_change w) (requestResize w) v (requestRedraw w).
Definition set_requestRedraw (v : bool) (w : Window) : Window :=
  mkWindow (state w) (_device w) (intrinsic w)
    (defaultNumberOfSwapchainImages w) (nrSwapchainImages w)
    (swapchainImageExtent w) (swapchainImages w) (swapchainImageViews w)
    (swapchainFramebuffers w) (renderFinishedFence w) (currentWindowExtent w)
    (_request_setting_change w) (requestResize w) (requestLayout w) v.

(** ** Computations: state, trace and abnormal termination *)

(** What C++ can throw on the paths modelled here. *)
Inductive Exception : Type :=
| gui_error (what : string) (vk_result : vk.Result)
(** the exception class [vulkan.hpp] throws for an error code *)
| vk_SystemError (code : vk.Result)
| std_out_of_range.

(** How a call ends when it does not return. *)
Inductive Failure : Type :=
| Thrown (e : Exception)
(** [tt_assert], [tt_assume]: a broken call-order contract *)
| AssertionFailed (what : string)
(** [LOG_FATAL] *)
| Fatal (what : string).

Inductive Outcome (A : Type) : Type :=
| Returned (a : A)
| Raised (f : Failure).
Arguments Raised {A} f.

(** How one call ends: the window it leaves behind, the calls it made on
    the outside, in order, and its result. *)
Record Run (A : Type) : Type := mkRun
  { window : Window;
    trace : list Event;
    outcome : Outcome A }.

Definition M (A : Type) : Type := Window -> Run A.

Definition ret {A} (a : A) : M A := fun w => mkRun w [] (Returned a).

Definition bind {A B} (m : M A) (k : A -> M B) : M B :=
  fun w =>
    match m w with
    | mkRun w1 t1 (Returned a) =>
        match k a w1 with
        | mkRun w2 t2 o => mkRun w2 (t1 ++ t2) o
        end
    | mkRun w1 t1 (Raised f) => mkRun w1 t1 (Raised f)
    end.

Definition raise {A} (f : Failure) : M A := fun w => mkRun w [] (Raised f).

(** [try { m } catch (...) { h }]: the handler sees the failure and either
    handles it or lets it go on. *)
Definition try_catch {A} (m : M A) (h : Failure -> option (M A)) : M A :=
  fun w =>
    match m w with
    | mkRun w1 t1 (Returned a) => mkRun w1 t1 (Returned a)
    | mkRun w1 t1 (Raised f) =>
        match h f with
        | Some k =>
            match k w1 with
            | mkRun w2 t2 o => mkRun w2 (t1 ++ t2) o
            end
        | None => mkRun w1 t1 (Raised f)
        end
    end.

Declare Scope cpp_scope.
Delimit Scope cpp_scope with cpp.
Notation "x <- m ;; k" := (bind m (fun x => k))
  (at level 61, m at next level, right associativity) : cpp_scope.
Notation "m ;; k" := (bind m (fun _ => k))
  (at level 61, right associativity) : cpp_scope.
Local Open Scope cpp_scope.

(** Reading and writing members of [*this]. *)
Definition get {A} (f : Window -> A) : M A :=
  fun w => mkRun w [] (Returned (f w)).

Definition modify (f : Window -> Window) : M unit :=
  fun w => mkRun (f w) [] (Returned tt).

(** [std::exchange] and [std::atomic::exchange]. *)
Definition exchange {A} (f : Window -> A) (set : A -> Window -> Window) (v : A) : M A :=
  old <- get f ;;
  modify (set v) ;;
  ret old.

(** A call that leaves the window object. *)
Definition call (e : Event) : M unit :=
  fun w => mkRun w [e] (Returned tt).

Definition tt_assert (what : string) (b : bool) : M unit :=
  if b then ret tt else raise (AssertionFailed what).

Definition tt_assume (what : string) (b : bool) : M unit :=
  if b then ret tt else raise (AssertionFailed what).

Definition TTAURI_THROW {A} (e : Exception) : M A := raise (Thrown e).

Definition LOG_FATAL {A} (what : string) : M A := raise (Fatal what).

Definition is_some {A} (o : option A) : bool :=
  match o with Some _ => true | None => false end.

(** [vulkan_device()]: the device the window lives on. *)
Definition vulkan_device : M Handle :=
  d <- get _device ;;
  match d with
  | Some h => ret h
  | None => raise (AssertionFailed "_device != nullptr")
  end.

(** A call on [vulkan_device()]. *)
Definition device_call (e : Event) : M unit :=
  vulkan_device ;; call e.

(** Range-[for] over a vector. *)
Fixpoint for_each {A} (l : list A) (body : A -> M unit) : M unit :=
  match l with
  | [] => ret tt
  | x :: l' => body x ;; for_each l' body
  end.

(** [narrow_cast<int>] of an unsigned 32-bit value.  The cast is defined
    in a header that is not at hand; its contract is that the value fits
    the target type, and a value that does not fit is a failed assertion.
    The statements below use it on values that fit. *)
Definition narrow_cast_int (x : Z) : M Z :=
  tt_assume "narrow_cast" ((0 <=? x) && (x <=? int_max)) ;;
  ret x.

(** ** Teardown of the members, leaf first *)

Definition waitIdle : M unit :=
  d <- get _device ;;
  tt_assert "_device" (is_some d) ;;
  f <- get renderFinishedFence ;;
  (if f then device_call (EvWaitForFences renderFinishedFence_h uint64_max) else ret tt) ;;
  device_call EvDeviceWaitIdle.

Definition teardownSemaphores : M unit :=
  device_call (EvDestroy (ObjSemaphore renderFinishedSemaphore)) ;;
  device_call (EvDestroy (ObjSemaphore imageAvailableSemaphore)) ;;
  device_call (EvDestroy (ObjFence renderFinishedFence_h)).

Definition teardownCommandBuffers : M unit :=
  device_call EvFreeCommandBuffers.

Definition teardownFramebuffers : M unit :=
  fbs <- get swapchainFramebuffers ;;
  for_each fbs (fun frameBuffer => device_call (EvDestroy (ObjFramebuffer frameBuffer))) ;;
  modify (set_swapchainFramebuffers []) ;;
  views <- get swapchainImageViews ;;
  for_each views (fun imageView => device_call (EvDestroy (ObjSwapchainImageView imageView))) ;;
  modify (set_swapchainImageViews []) ;;
  device_call (EvDestroy ObjDepthImageView) ;;
  device_call (EvDestroy ObjColorImageView).

Definition teardownRenderPasses : M unit :=
  device_call (EvDestroy ObjRenderPass).

Definition teardownSwapchain : M unit :=
  device_call (EvDestroy ObjSwapchain) ;;
  device_call (EvDestroyImage depthImage) ;;
  device_call (EvDestroyImage colorImage).

Definition teardownSurface : M unit :=
  call EvDestroySurfaceKHR.

Definition teardownDevice : M unit :=
  modify (set__device None).

(** The five stages are told in reverse subpass order. *)
Definition pipelines_teardown (m : PipelineMethod) : M unit :=
  call (EvPipeline toneMapperPipeline m) ;;
  call (EvPipeline SDFPipeline m) ;;
  call (EvPipeline imagePipeline m) ;;
  call (EvPipeline boxPipeline m) ;;
  call (EvPipeline flatPipeline m).

(** [Window_vulkan::teardown] *)
Definition teardown : M unit :=
  state0 <- get state ;;
  nextState <-
    (if State_ge state0 SwapchainLost then
       waitIdle ;;
       pipelines_teardown teardownForSwapchainLost ;;
       teardownSemaphores ;;
       teardownCommandBuffers ;;
       teardownFramebuffers ;;
       teardownRenderPasses ;;
       teardownSwapchain ;;
       state1 <- get state ;;
       if State_ge state1 SurfaceLost then
         pipelines_teardown teardownForSurfaceLost ;;
         teardownSurface ;;
         state2 <- get state ;;
         if State_ge state2 DeviceLost then
           pipelines_teardown teardownForDeviceLost ;;
           teardownDevice ;;
           state3 <- get state ;;
           if State_ge state3 WindowLost then
             pipelines_teardown teardownForWindowLost ;;
             call EvClosingWindow ;;
             ret NoWindow
           else ret NoDevice
         else ret NoSurface
       else ret NoSwapchain
     else ret state0) ;;
  modify (set_state nextState).

(** ** What the outside world answers during one call *)

(** Every call site whose answer the code looks at is executed at most
    once per call of [build] or [render]; an [Env] holds one answer per
    such site. *)
Record Env : Type := mkEnv
  { (** [getSurface()] *)
    env_getSurface : Handle;
    (** [vulkan_device().score(intrinsic)] *)
    env_score : Z;
    (** [vkGetPhysicalDeviceSurfaceCapabilitiesKHR], as asked by
        [readSurfaceExtent] *)
    env_capabilities_read : vk.Result * vk.SurfaceCapabilitiesKHR;
    (** the same query, as asked again by [checkSurfaceExtent] *)
    env_capabilities_check : vk.Result * vk.SurfaceCapabilitiesKHR;
    (** [widget->preferred_size()] inside [readSurfaceExtent] *)
    env_preferred_size_build : interval_vec2;
    (** [vkCreateSwapchainKHR] *)
    env_createSwapchainKHR : vk.Result;
    (** [getSwapchainImagesKHR(swapchain)] *)
    env_getSwapchainImagesKHR : list Handle;
    (** [widget->update_constraints(t, need_reconstrain)] *)
    env_update_constraints : bool -> bool;
    (** [widget->preferred_size()] inside [render] *)
    env_preferred_size : interval_vec2;
    (** [widget->update_layout(t, need_layout)] *)
    env_update_layout : bool -> bool;
    (** [vkAcquireNextImageKHR]: result and image index *)
    env_acquireNextImageKHR : vk.Result * Z;
    (** [vkQueuePresentKHR] *)
    env_presentKHR : vk.Result }.

(** ** Building the members *)

(** The value-returning calls of [vulkan.hpp] throw the exception of an
    error code; [success] lists the codes that are returned instead. *)
Definition resultCheck (success : list vk.Result) (r : vk.Result) : M vk.Result :=
  if existsb (Z.eqb r) success then ret r
  else raise (Thrown (vk_SystemError r)).

(** [catch (const vk::SurfaceLostKHRError&)] *)
Definition catch_SurfaceLostKHRError {A} (h : M A) (f : Failure) : option (M A) :=
  match f with
  | Thrown (vk_SystemError c) =>
      if c =? vk.eErrorSurfaceLostKHR then Some h else None
  | _ => None
  end.

(** [catch (const vk::OutOfDateKHRError&)] *)
Definition catch_OutOfDateKHRError {A} (h : M A) (f : Failure) : option (M A) :=
  match f with
  | Thrown (vk_SystemError c) =>
      if c =? vk.eErrorOutOfDateKHR then Some h else None
  | _ => None
  end.

(** [std::clamp] *)
Definition clamp (v lo hi : Z) : Z :=
  if v <? lo then lo else if hi <? v then hi else v.

Definition getImageCountAndExtent
    (answer : vk.Result * vk.SurfaceCapabilitiesKHR) : M (Z * vk.Extent2D) :=
  vulkan_device ;;
  call EvGetSurfaceCapabilitiesKHR ;;
  resultCheck [vk.eSuccess] (fst answer) ;;
  let surfaceCapabilities := snd answer in
  let currentExtentSet :=
    negb (vk.width (vk.currentExtent surfaceCapabilities) =? uint32_max) &&
    negb (vk.height (vk.currentExtent surfaceCapabilities) =? uint32_max) in
  (if negb currentExtentSet
   then LOG_FATAL "getSurfaceCapabilitiesKHR() does not supply currentExtent"
   else ret tt) ;;
  default <- get defaultNumberOfSwapchainImages ;;
  let minImageCount := vk.minImageCount surfaceCapabilities in
  let maxImageCount :=
    if vk.maxImageCount surfaceCapabilities =? 0 then 10
    else vk.maxImageCount surfaceCapabilities in
  let imageCount := clamp default minImageCount maxImageCount in
  ret (imageCount, vk.currentExtent surfaceCapabilities).

Definition readSurfaceExtent (env : Env) : M bool :=
  got <-
    try_catch
      (r <- getImageCountAndExtent (env_capabilities_read env) ;;
       modify (set_nrSwapchainImages (fst r)) ;;
       modify (set_swapchainImageExtent (snd r)) ;;
       ret true)
      (catch_SurfaceLostKHRError (modify (set_state SurfaceLost) ;; ret false)) ;;
  if negb got then ret false else
  call EvWidgetPreferredSize ;;
  let widget_size := env_preferred_size_build env in
  let minimum_widget_size := minimum widget_size in
  let maximum_widget_size := maximum widget_size in
  extent <- get swapchainImageExtent ;;
  w1 <- narrow_cast_int (vk.width extent) ;;
  too_narrow <-
    (if float_ltb (float_of_int w1) (vec_width minimum_widget_size) then ret true
     else h1 <- narrow_cast_int (vk.height extent) ;;
          ret (float_ltb (float_of_int h1) (vec_height minimum_widget_size))) ;;
  if too_narrow : bool then ret false else
  w2 <- narrow_cast_int (vk.width extent) ;;
  too_wide <-
    (if float_ltb (vec_width maximum_widget_size) (float_of_int w2) then ret true
     else h2 <- narrow_cast_int (vk.height extent) ;;
          ret (float_ltb (vec_height maximum_widget_size) (float_of_int h2))) ;;
  if too_wide : bool then ret false else
  ret true.

Definition checkSurfaceExtent (env : Env) : M bool :=
  try_catch
    (r <- getImageCountAndExtent (env_capabilities_check env) ;;
     nr <- get nrSwapchainImages ;;
     extent <- get swapchainImageExtent ;;
     ret ((fst r =? nr) && vk.Extent2D_eqb (snd r) extent))
    (catch_SurfaceLostKHRError (modify (set_state SurfaceLost) ;; ret false)).

Definition buildSurface (env : Env) : M bool :=
  call EvGetSurface ;;
  modify (set_intrinsic (Some (env_getSurface env))) ;;
  device_call EvScore ;;
  ret (0 <? env_score env).

Definition buildSwapchain (env : Env) : M State :=
  vulkan_device ;;
  nr <- get nrSwapchainImages ;;
  extent <- get swapchainImageExtent ;;
  device_call (EvCreateSwapchainKHR nr extent) ;;
  let result := env_createSwapchainKHR env in
  if result =? vk.eSuccess then
    device_call (EvCreateImage depthImage extent) ;;
    device_call (EvCreateImage colorImage extent) ;;
    ret ReadyToRender
  else if result =? vk.eErrorSurfaceLostKHR then
    ret SurfaceLost
  else
    TTAURI_THROW (gui_error "Unknown result from createSwapchainKHR()" result).

Definition buildRenderPasses : M unit :=
  device_call EvCreateRenderPass.

Definition buildFramebuffers (env : Env) : M unit :=
  device_call (EvCreateImageView ObjDepthImageView) ;;
  device_call (EvCreateImageView ObjColorImageView) ;;
  device_call EvGetSwapchainImagesKHR ;;
  modify (set_swapchainImages (env_getSwapchainImagesKHR env)) ;;
  images <- get swapchainImages ;;
  extent <- get swapchainImageExtent ;;
  for_each images (fun image =>
    device_call (EvCreateImageView (ObjSwapchainImageView image)) ;;
    views <- get swapchainImageViews ;;
    modify (set_swapchainImageViews (views ++ [image])) ;;
    device_call (EvCreateFramebuffer image extent) ;;
    fbs <- get swapchainFramebuffers ;;
    modify (set_swapchainFramebuffers (fbs ++ [image]))) ;;
  views <- get swapchainImageViews ;;
  fbs <- get swapchainFramebuffers ;;
  tt_assume "swapchainImageViews.size() == swapchainImages.size()"
            (Nat.eqb (List.length views) (List.length images)) ;;
  tt_assume "swapchainFramebuffers.size() == swapchainImages.size()"
            (Nat.eqb (List.length fbs) (List.length images)).

Definition buildCommandBuffers : M unit :=
  device_call EvAllocateCommandBuffers.

Definition buildSemaphores : M unit :=
  device_call (EvCreateSemaphore imageAvailableSemaphore) ;;
  device_call (EvCreateSemaphore renderFinishedSemaphore) ;;
  device_call (EvCreateFence renderFinishedFence_h true) ;;
  modify (set_renderFinishedFence true).

(** The five stages are built in subpass order. *)
Definition pipelines_build (m : PipelineMethod) : M unit :=
  call (EvPipeline flatPipeline m) ;;
  call (EvPipeline boxPipeline m) ;;
  call (EvPipeline imagePipeline m) ;;
  call (EvPipeline SDFPipeline m) ;;
  call (EvPipeline toneMapperPipeline m).

(** The body of the third block of [build], entered in state
    [NoSwapchain]. *)
Definition build_swapchain_part (env : Env) : M unit :=
  ok <- readSurfaceExtent env ;;
  if negb ok then
    (* Minimized window, can not build a new swap chain. *)
    modify (set_state NoSwapchain)
  else
    s <- buildSwapchain env ;;
    if negb (State_eqb s ReadyToRender) then
      modify (set_state s)
    else
      ok <- checkSurfaceExtent env ;;
      if negb ok then
        (* Window has changed during swap chain creation, it is in a
           inconsistent bad state. *)
        teardownSwapchain
      else
        buildRenderPasses ;;
        buildFramebuffers env ;;
        buildCommandBuffers ;;
        buildSemaphores ;;
        extent <- get swapchainImageExtent ;;
        call (EvPipeline flatPipeline (buildForNewSwapchain 0 extent)) ;;
        call (EvPipeline boxPipeline (buildForNewSwapchain 1 extent)) ;;
        call (EvPipeline imagePipeline (buildForNewSwapchain 2 extent)) ;;
        call (EvPipeline SDFPipeline (buildForNewSwapchain 3 extent)) ;;
        call (EvPipeline toneMapperPipeline (buildForNewSwapchain 4 extent)) ;;
        call (EvWindowChangedSize extent) ;;
        modify (set_state ReadyToRender).

(** [Window_vulkan::build].  The Boolean result of the second block says
    whether control goes on to the next statement ([true]) or the
    function has returned ([false]). *)
Definition build (env : Env) : M unit :=
  state0 <- get state ;;
  (if State_eqb state0 NoDevice then
     d <- get _device ;;
     if is_some d then
       pipelines_build buildForNewDevice ;;
       modify (set_state NoSurface)
     else ret tt
   else ret tt) ;;
  state1 <- get state ;;
  go_on <-
    (if State_eqb state1 NoSurface then
       ok <- buildSurface env ;;
       if negb ok then
         modify (set_state DeviceLost) ;;
         ret false
       else
         pipelines_build buildForNewSurface ;;
         modify (set_state NoSwapchain) ;;
         ret true
     else ret true) ;;
  if negb go_on then ret tt else
  state2 <- get state ;;
  if State_eqb state2 NoSwapchain then build_swapchain_part env
  else ret tt.

(** ** The frame-submission protocol *)

Definition acquireNextImageFromSwapchain (env : Env) : M (option Z) :=
  device_call (EvAcquireNextImageKHR 0 imageAvailableSemaphore) ;;
  let result := fst (env_acquireNextImageKHR env) in
  let frameBufferIndex := snd (env_acquireNextImageKHR env) in
  if result =? vk.eSuccess then
    ret (Some frameBufferIndex)
  else if result =? vk.eSuboptimalKHR then
    modify (set_state SwapchainLost) ;;
    ret None
  else if result =? vk.eErrorOutOfDateKHR then
    modify (set_state SwapchainLost) ;;
    ret None
  else if result =? vk.eErrorSurfaceLostKHR then
    modify (set_state SurfaceLost) ;;
    ret None
  else if result =? vk.eTimeout then
    (* Don't render, we didn't receive an image. *)
    ret None
  else
    TTAURI_THROW (gui_error "Unknown result from acquireNextImageKHR()" result).

(** Two [catch] clauses of one [try]: the first that matches. *)
Definition or_catch {A} (h1 h2 : Failure -> option (M A)) (f : Failure) : option (M A) :=
  match h1 f with
  | Some k => Some k
  | None => h2 f
  end.

Definition presentImageToQueue (env : Env) (frameBufferIndex : Z) (semaphore : Semaphore) : M unit :=
  d <- get _device ;;
  tt_assume "_device" (is_some d) ;;
  try_catch
    (device_call (EvQueuePresent frameBufferIndex [semaphore]) ;;
     result <- resultCheck [vk.eSuccess; vk.eSuboptimalKHR] (env_presentKHR env) ;;
     if result =? vk.eSuccess then
       ret tt
     else if result =? vk.eSuboptimalKHR then
       modify (set_state SwapchainLost)
     else
       TTAURI_THROW (gui_error "Unknown result from presentKHR()" result))
    (or_catch
       (catch_OutOfDateKHRError (modify (set_state SwapchainLost)))
       (catch_SurfaceLostKHRError (modify (set_state SurfaceLost)))).

Definition fillCommandBuffer (frameBuffer : Handle) : M unit :=
  call EvCmdReset ;;
  call EvCmdBegin ;;
  call EvWidgetBackgroundColor ;;
  call (EvCmdBeginRenderPass frameBuffer) ;;
  call (EvPipeline flatPipeline drawInCommandBuffer) ;;
  call EvCmdNextSubpass ;;
  call (EvPipeline boxPipeline drawInCommandBuffer) ;;
  call EvCmdNextSubpass ;;
  call (EvPipeline imagePipeline drawInCommandBuffer) ;;
  call EvCmdNextSubpass ;;
  call (EvPipeline SDFPipeline drawInCommandBuffer) ;;
  call EvCmdNextSubpass ;;
  call (EvPipeline toneMapperPipeline drawInCommandBuffer) ;;
  call EvCmdEndRenderPass ;;
  call EvCmdEnd.

Definition submitCommandBuffer : M unit :=
  let waitSemaphores := [imageAvailableSemaphore] in
  let waitStages := [vk.eColorAttachmentOutput] in
  tt_assume "waitSemaphores.size() == waitStages.size()"
            (Nat.eqb (List.length waitSemaphores) (List.length waitStages)) ;;
  let signalSemaphores := [renderFinishedSemaphore] in
  let commandBuffersToSubmit := [commandBuffer] in
  device_call
    (EvQueueSubmit (combine waitSemaphores waitStages)
                   commandBuffersToSubmit signalSemaphores None).

(** Modelled from the spec: the operators [<<] and [>>] of an extent
    against an [interval_vec2] are declared in a header that is not at
    hand.  Step 1 of section 4.5 asks whether the window's current extent
    satisfies the preferred size: [<<] holds when the extent is below the
    minimum in some direction, [>>] when it is above the maximum in some
    direction. *)
Definition extent_below (e : vk.Extent2D) (p : interval_vec2) : bool :=
  (vk.width e <? vk.width (minimum p)) || (vk.height e <? vk.height (minimum p)).

Definition extent_above (e : vk.Extent2D) (p : interval_vec2) : bool :=
  (vk.width (maximum p) <? vk.width e) || (vk.height (maximum p) <? vk.height e).

(** Everything [render] does after the swapchain image has been
    acquired. *)
Definition render_frame_body (env : Env) (frameBufferIndex : Z) : M unit :=
  fbs <- get swapchainFramebuffers ;;
  frameBuffer <-
    match nth_error fbs (Z.to_nat frameBufferIndex) with
    | Some fb => ret fb
    | None => TTAURI_THROW std_out_of_range
    end ;;
  (* Wait until previous rendering has finished, before the next rendering. *)
  device_call (EvWaitForFences renderFinishedFence_h uint64_max) ;;
  (* Unsignal the fence so we will not modify/destroy the command buffers
     during rendering. *)
  device_call (EvResetFences renderFinishedFence_h) ;;
  call EvWidgetDraw ;;
  fillCommandBuffer frameBuffer ;;
  submitCommandBuffer ;;
  (* Signal the fence when all rendering has finished on the graphics queue. *)
  device_call (EvQueueSubmit [] [] [] (Some renderFinishedFence_h)) ;;
  presentImageToQueue env frameBufferIndex renderFinishedSemaphore ;;
  (* Do an early tear down of invalid vulkan objects. *)
  teardown.

(** Steps 1 and 2 of the protocol, from the exchange of
    [_request_setting_change] to the computation of [need_redraw], which
    is the result. *)
Definition render_prologue (env : Env) : M bool :=
  need_reconstrain <- exchange _request_setting_change set__request_setting_change false ;;
  call (EvWidgetUpdateConstraints need_reconstrain) ;;
  let constraints_have_changed := env_update_constraints env need_reconstrain in
  call EvWidgetPreferredSize ;;
  let preferred_size := env_preferred_size env in
  resize_requested <- exchange requestResize set_requestResize false ;;
  current <- get currentWindowExtent ;;
  (if resize_requested || extent_below current preferred_size then
     modify (set_currentWindowExtent (minimum preferred_size)) ;;
     call (EvSetWindowSize (minimum preferred_size))
   else if extent_above current preferred_size then
     modify (set_currentWindowExtent (maximum preferred_size)) ;;
     call (EvSetWindowSize (maximum preferred_size))
   else ret tt) ;;
  current' <- get currentWindowExtent ;;
  call (EvWidgetSetLayoutParameters current') ;;
  layout_requested <- exchange requestLayout set_requestLayout false ;;
  let need_layout := layout_requested || constraints_have_changed in
  call (EvWidgetUpdateLayout need_layout) ;;
  redraw_requested <- exchange requestRedraw set_requestRedraw false ;;
  let need_redraw := env_update_layout env need_layout || redraw_requested in
  ret need_redraw.

(** Steps 3 to 9 of the protocol. *)
Definition render_frame (env : Env) : M unit :=
  optionalFrameBufferIndex <- acquireNextImageFromSwapchain env ;;
  match optionalFrameBufferIndex with
  | None =>
      (* No image is ready to be rendered, yet. *)
      ret tt
  | Some frameBufferIndex => render_frame_body env frameBufferIndex
  end.

(** What [render] does once [teardown] and [build] have run. *)
Definition render_when_built (env : Env) : M unit :=
  (* Bail out when the window is not yet ready to be rendered. *)
  state0 <- get state ;;
  if negb (State_eqb state0 ReadyToRender) then ret tt else
  need_redraw <- render_prologue env ;;
  if negb need_redraw then ret tt else
  render_frame env.

(** [Window_vulkan::render] *)
Definition render (env : Env) : M unit :=
  (* Tear down then buildup from the Vulkan objects that where invalid. *)
  teardown ;;
  build env ;;
  render_when_built env.

(** ** Concrete windows and environments used in the examples *)

Definition extent (w h : Z) : vk.Extent2D := {| vk.width := w; vk.height := h |}.

(** A freshly opened window on device [1]. *)
Definition fresh_window : Window :=
  {| state := NoDevice;
     _device := Some 1%nat;
     intrinsic := None;
     defaultNumberOfSwapchainImages := 3;
     nrSwapchainImages := 0;
     swapchainImageExtent := extent 0 0;
     swapchainImages := [];
     swapchainImageViews := [];
     swapchainFramebuffers := [];
     renderFinishedFence := false;
     currentWindowExtent := extent 800 600;
     _request_setting_change := false;
     requestResize := false;
     requestLayout := false;
     requestRedraw := true |}.

(** An 800x600 surface with an image-count range of 2..8, three swapchain
    images, a widget tree content with 100x100 up to 4000x4000, and every
    call succeeding. *)
Definition calm_env : Env :=
  {| env_getSurface := 7%nat;
     env_score := 10;
     env_capabilities_read :=
       (vk.eSuccess, {| vk.minImageCount := 2; vk.maxImageCount := 8;
                        vk.currentExtent := extent 800 600 |});
     env_capabilities_check :=
       (vk.eSuccess, {| vk.minImageCount := 2; vk.maxImageCount := 8;
                        vk.currentExtent := extent 800 600 |});
     env_preferred_size_build :=
       {| minimum := extent 100 100; maximum := extent 4000 4000 |};
     env_createSwapchainKHR := vk.eSuccess;
     env_getSwapchainImagesKHR := [10; 11; 12]%nat;
     env_update_constraints := fun _ => false;
     env_preferred_size :=
       {| minimum := extent 100 100; maximum := extent 4000 4000 |};
     env_update_layout := fun _ => false;
     env_acquireNextImageKHR := (vk.eSuccess, 1);
     env_presentKHR := vk.eSuccess |}.


(** * Vocabulary of the statements *)

(** ** The teardown cascade in closed form *)

Definition teardown_boundary (s : State) : State :=
  match s with
  | SwapchainLost => NoSwapchain
  | SurfaceLost => NoSurface
  | DeviceLost => NoDevice
  | WindowLost => NoWindow
  | s => s
  end.

(** The stages are told in the order of [pipelines_teardown]. *)
Definition notify (m : PipelineMethod) : list Event :=
  map (fun p => EvPipeline p m)
      [toneMapperPipeline; SDFPipeline; imagePipeline; boxPipeline; flatPipeline].

Definition wait_idle_calls (w : Window) : list Event :=
  (if renderFinishedFence w
   then [EvWaitForFences renderFinishedFence_h uint64_max] else []) ++
  [EvDeviceWaitIdle].

Definition release_sync : list Event :=
  [EvDestroy (ObjSemaphore renderFinishedSemaphore);
   EvDestroy (ObjSemaphore imageAvailableSemaphore);
   EvDestroy (ObjFence renderFinishedFence_h)].

Definition release_command_buffer : list Event := [EvFreeCommandBuffers].

Definition release_framebuffers (w : Window) : list Event :=
  map (fun fb => EvDestroy (ObjFramebuffer fb)) (swapchainFramebuffers w) ++
  map (fun v => EvDestroy (ObjSwapchainImageView v)) (swapchainImageViews w) ++
  [EvDestroy ObjDepthImageView; EvDestroy ObjColorImageView].

Definition release_render_pass : list Event := [EvDestroy ObjRenderPass].

Definition release_swapchain : list Event :=
  [EvDestroy ObjSwapchain; EvDestroyImage depthImage; EvDestroyImage colorImage].

(** What the cascade does past the swapchain boundary. *)
Definition deeper_calls (s : State) : list Event :=
  (if State_ge s SurfaceLost
   then notify teardownForSurfaceLost ++ [EvDestroySurfaceKHR] else []) ++
  (if State_ge s DeviceLost then notify teardownForDeviceLost else []) ++
  (if State_ge s WindowLost
   then notify teardownForWindowLost ++ [EvClosingWindow] else []).

Definition swapchain_level_calls (w : Window) : list Event :=
  wait_idle_calls w ++ notify teardownForSwapchainLost ++ release_sync ++
  release_command_buffer ++ release_framebuffers w ++ release_render_pass ++
  release_swapchain.

Definition torn_down (w : Window) : Window :=
  set_state (teardown_boundary (state w))
    ((if State_ge (state w) DeviceLost then set__device None else fun w => w)
       (set_swapchainImageViews [] (set_swapchainFramebuffers [] w))).


(** The boundary of the cascade a call made by [teardown] belongs to. *)
Definition teardown_level (e : Event) : option State :=
  match e with
  | EvWaitForFences _ _ | EvDeviceWaitIdle => Some SwapchainLost
  | EvDestroy _ | EvDestroyImage _ | EvFreeCommandBuffers => Some SwapchainLost
  | EvPipeline _ teardownForSwapchainLost => Some SwapchainLost
  | EvPipeline _ teardownForSurfaceLost => Some SurfaceLost
  | EvDestroySurfaceKHR => Some SurfaceLost
  | EvPipeline _ teardownForDeviceLost => Some DeviceLost
  | EvPipeline _ teardownForWindowLost => Some WindowLost
  | EvClosingWindow => Some WindowLost
  | _ => None
  end.

Definition is_closingWindow (e : Event) : bool :=
  match e with EvClosingWindow => true | _ => false end.

(** A call of [teardown] stays at or above the boundary [s] asks for. *)
Definition within_boundary (s : State) (e : Event) : Prop :=
  exists l, teardown_level e = Some l /\ State_ge s l = true.

(** A window in which the swapchain, three framebuffers and the
    synchronisation objects are live. *)
Definition ready_window : Window := window (build calm_env fresh_window).

(** The results [acquireNextImageFromSwapchain] has an answer to. *)
Definition acquire_handled (r : vk.Result) : Prop :=
  r = vk.eSuccess \/ r = vk.eSuboptimalKHR \/ r = vk.eErrorOutOfDateKHR \/
  r = vk.eErrorSurfaceLostKHR \/ r = vk.eTimeout.

(** The results [presentImageToQueue] has an answer to. *)
Definition present_handled (r : vk.Result) : Prop :=
  r = vk.eSuccess \/ r = vk.eSuboptimalKHR \/ r = vk.eErrorOutOfDateKHR \/
  r = vk.eErrorSurfaceLostKHR.

Definition is_thrown {A} (o : Outcome A) : Prop :=
  exists e, o = Raised (Thrown e).

(** ** Vocabulary for [build] *)

(** The extent is below the minimum, or above the maximum, in some
    direction: the two tests of [readSurfaceExtent], which compare the
    sides of the extent as floats. *)
Definition below_minimum (e : vk.Extent2D) (p : interval_vec2) : Prop :=
  float_ltb (float_of_int (vk.width e)) (vec_width (minimum p)) = true \/
  float_ltb (float_of_int (vk.height e)) (vec_height (minimum p)) = true.

Definition above_maximum (e : vk.Extent2D) (p : interval_vec2) : Prop :=
  float_ltb (vec_width (maximum p)) (float_of_int (vk.width e)) = true \/
  float_ltb (vec_height (maximum p)) (float_of_int (vk.height e)) = true.

(** An extent a surface can report as its current one: each side fits a
    signed [int] (which also rules out the marker [0xFFFFFFFF] of an
    extent that is not set). *)
Definition reportable (e : vk.Extent2D) : Prop :=
  0 <= vk.width e <= int_max /\ 0 <= vk.height e <= int_max.

(** [build] called on [w] gets as far as reading the surface extent. *)
Definition reaches_swapchain_step (env : Env) (w : Window) : Prop :=
  is_some (_device w) = true /\
  (state w = NoSwapchain \/
   ((state w = NoSurface \/ state w = NoDevice) /\ 0 < env_score env)).

(** Calls that create a swapchain, an attachment image, an image view, a
    framebuffer, a render pass, a command buffer, a semaphore or a
    fence. *)
Definition is_allocation (e : Event) : bool :=
  match e with
  | EvCreateSwapchainKHR _ _ | EvCreateImage _ _ | EvCreateImageView _
  | EvCreateFramebuffer _ _ | EvCreateRenderPass | EvCreateSemaphore _
  | EvCreateFence _ _ | EvAllocateCommandBuffers => true
  | _ => false
  end.

(** The image count [getImageCountAndExtent] derives from the surface
    capabilities. *)
Definition image_count (w : Window) (c : vk.SurfaceCapabilitiesKHR) : Z :=
  clamp (defaultNumberOfSwapchainImages w) (vk.minImageCount c)
        (if vk.maxImageCount c =? 0 then 10 else vk.maxImageCount c).

Definition is_lost_marker (s : State) : bool := State_ge s SwapchainLost.

(** What [buildFramebuffers] calls for the swapchain images. *)
Definition framebuffer_calls (images : list Handle) (e : vk.Extent2D) : list Event :=
  flat_map (fun image =>
              [EvCreateImageView (ObjSwapchainImageView image);
               EvCreateFramebuffer image e]) images.

(** ** The swapchain block of [build] as a function of its inputs *)

Definition extent_is_set (e : vk.Extent2D) : bool :=
  negb (vk.width e =? uint32_max) && negb (vk.height e =? uint32_max).

(** What [getImageCountAndExtent] returns for an answer of the driver,
    with [dflt] the default number of swapchain images. *)
Definition capabilities_outcome (dflt : Z)
    (answer : vk.Result * vk.SurfaceCapabilitiesKHR) : Outcome (Z * vk.Extent2D) :=
  if fst answer =? vk.eSuccess then
    if extent_is_set (vk.currentExtent (snd answer)) then
      Returned (clamp dflt (vk.minImageCount (snd answer))
                      (if vk.maxImageCount (snd answer) =? 0 then 10
                       else vk.maxImageCount (snd answer)),
                vk.currentExtent (snd answer))
    else Raised (Fatal "getSurfaceCapabilitiesKHR() does not supply currentExtent")
  else Raised (Thrown (vk_SystemError (fst answer))).

Definition fits_int (x : Z) : bool := (0 <=? x) && (x <=? int_max).

(** The verdict of [readSurfaceExtent] on an extent: [true] when it lies
    within the preferred size, a failed [narrow_cast] when a side it looks
    at does not fit an [int]. *)
Definition extent_verdict (e : vk.Extent2D) (p : interval_vec2) : Outcome bool :=
  if negb (fits_int (vk.width e)) then Raised (AssertionFailed "narrow_cast")
  else if float_ltb (float_of_int (vk.width e)) (vec_width (minimum p))
  then Returned false
  else if negb (fits_int (vk.height e)) then Raised (AssertionFailed "narrow_cast")
  else if float_ltb (float_of_int (vk.height e)) (vec_height (minimum p))
  then Returned false
  else if float_ltb (vec_width (maximum p)) (float_of_int (vk.width e))
  then Returned false
  else if float_ltb (vec_height (maximum p)) (float_of_int (vk.height e))
  then Returned false
  else Returned true.

Definition is_SurfaceLostKHRError (f : Failure) : bool :=
  match f with
  | Thrown (vk_SystemError c) => c =? vk.eErrorSurfaceLostKHR
  | _ => false
  end.

(** The calls of the swapchain block up to and including the creation of
    the swapchain and its two attachment images. *)
Definition swapchain_creation_calls (n : Z) (e : vk.Extent2D) : list Event :=
  [EvGetSurfaceCapabilitiesKHR; EvWidgetPreferredSize;
   EvCreateSwapchainKHR n e; EvCreateImage depthImage e; EvCreateImage colorImage e].

(** The calls of the swapchain block after the extent was found
    unchanged. *)
Definition finishing_calls (images : list Handle) (e : vk.Extent2D) : list Event :=
  [EvCreateRenderPass;
   EvCreateImageView ObjDepthImageView; EvCreateImageView ObjColorImageView;
   EvGetSwapchainImagesKHR] ++
  framebuffer_calls images e ++
  [EvAllocateCommandBuffers;
   EvCreateSemaphore imageAvailableSemaphore;
   EvCreateSemaphore renderFinishedSemaphore;
   EvCreateFence renderFinishedFence_h true;
   EvPipeline flatPipeline (buildForNewSwapchain 0 e);
   EvPipeline boxPipeline (buildForNewSwapchain 1 e);
   EvPipeline imagePipeline (buildForNewSwapchain 2 e);
   EvPipeline SDFPipeline (buildForNewSwapchain 3 e);
   EvPipeline toneMapperPipeline (buildForNewSwapchain 4 e);
   EvWindowChangedSize e].

(** The window once [buildFramebuffers] has run on [w] for the images
    [images]. *)
Definition with_framebuffers (images : list Handle) (w : Window) : Window :=
  set_swapchainFramebuffers (swapchainFramebuffers w ++ images)
    (set_swapchainImageViews (swapchainImageViews w ++ images)
       (set_swapchainImages images w)).

(** The calls of [buildRenderPasses] and [buildFramebuffers]. *)
Definition framebuffer_stage_calls (images : list Handle) (e : vk.Extent2D) : list Event :=
  [EvCreateRenderPass;
   EvCreateImageView ObjDepthImageView; EvCreateImageView ObjColorImageView;
   EvGetSwapchainImagesKHR] ++
  framebuffer_calls images e.

(** The swapchain block of [build] on a window with its device attached:
    which window it leaves, which calls it makes and how it ends, read
    off the answers in [env]. *)
Definition swapchain_part_result (env : Env) (w : Window) : Run unit :=
  let dflt := defaultNumberOfSwapchainImages w in
  match capabilities_outcome dflt (env_capabilities_read env) with
  | Raised f =>
      if is_SurfaceLostKHRError f
      then mkRun (set_state NoSwapchain w) [EvGetSurfaceCapabilitiesKHR] (Returned tt)
      else mkRun w [EvGetSurfaceCapabilitiesKHR] (Raised f)
  | Returned (n, e) =>
      let w1 := set_swapchainImageExtent e (set_nrSwapchainImages n w) in
      let read := [EvGetSurfaceCapabilitiesKHR; EvWidgetPreferredSize] in
      match extent_verdict e (env_preferred_size_build env) with
      | Raised f => mkRun w1 read (Raised f)
      | Returned false => mkRun (set_state NoSwapchain w1) read (Returned tt)
      | Returned true =>
          let cs := env_createSwapchainKHR env in
          if cs =? vk.eSuccess then
            let created := swapchain_creation_calls n e ++ [EvGetSurfaceCapabilitiesKHR] in
            match capabilities_outcome dflt (env_capabilities_check env) with
            | Raised f =>
                if is_SurfaceLostKHRError f
                then mkRun (set_state SurfaceLost w1) (created ++ release_swapchain)
                           (Returned tt)
                else mkRun w1 created (Raised f)
            | Returned (n', e') =>
                if (n' =? n) && vk.Extent2D_eqb e' e then
                  let images := env_getSwapchainImagesKHR env in
                  if Nat.eqb (List.length (swapchainImageViews w ++ images))
                             (List.length images) then
                    if Nat.eqb (List.length (swapchainFramebuffers w ++ images))
                               (List.length images) then
                      mkRun (set_state ReadyToRender
                               (set_renderFinishedFence true
                                  (with_framebuffers images w1)))
                            (created ++ finishing_calls images e) (Returned tt)
                    else
                      mkRun (with_framebuffers images w1)
                            (created ++ framebuffer_stage_calls images e)
                            (Raised (AssertionFailed
                               "swapchainFramebuffers.size() == swapchainImages.size()"))
                  else
                    mkRun (with_framebuffers images w1)
                          (created ++ framebuffer_stage_calls images e)
                          (Raised (AssertionFailed
                             "swapchainImageViews.size() == swapchainImages.size()"))
                else mkRun w1 (created ++ release_swapchain) (Returned tt)
            end
          else if cs =? vk.eErrorSurfaceLostKHR then
            mkRun (set_state SurfaceLost w1)
                  (read ++ [EvCreateSwapchainKHR n e]) (Returned tt)
          else
            mkRun w1 (read ++ [EvCreateSwapchainKHR n e])
                  (Raised (Thrown (gui_error "Unknown result from createSwapchainKHR()" cs)))
      end
  end.

(** The same run, with the calls [t] made before it. *)
Definition prepend {A} (t : list Event) (r : Run A) : Run A :=
  mkRun (window r) (t ++ trace r) (outcome r).

(** The stages are built in the order of [pipelines_build]. *)
Definition told (m : PipelineMethod) : list Event :=
  map (fun p => EvPipeline p m)
      [flatPipeline; boxPipeline; imagePipeline; SDFPipeline; toneMapperPipeline].

Definition no_device : Failure := AssertionFailed "_device != nullptr".

(** The swapchain block on any window. *)
Definition swapchain_block_result (env : Env) (w : Window) : Run unit :=
  match _device w with
  | Some _ => swapchain_part_result env w
  | None => mkRun w [] (Raised no_device)
  end.

(** The surface block of [build], entered in state [NoSurface], followed
    by the swapchain block. *)
Definition surface_block_result (env : Env) (w : Window) : Run unit :=
  let w1 := set_intrinsic (Some (env_getSurface env)) w in
  match _device w with
  | None => mkRun w1 [EvGetSurface] (Raised no_device)
  | Some _ =>
      if 0 <? env_score env then
        prepend ([EvGetSurface; EvScore] ++ told buildForNewSurface)
                (swapchain_part_result env (set_state NoSwapchain w1))
      else mkRun (set_state DeviceLost w1) [EvGetSurface; EvScore] (Returned tt)
  end.

(** [build] as a function of the window and of the answers in [env]. *)
Definition build_result (env : Env) (w : Window) : Run unit :=
  match state w with
  | NoDevice =>
      match _device w with
      | None => mkRun w [] (Returned tt)
      | Some _ =>
          prepend (told buildForNewDevice)
                  (surface_block_result env (set_state NoSurface w))
      end
  | NoSurface => surface_block_result env w
  | NoSwapchain => swapchain_block_result env w
  | _ => mkRun w [] (Returned tt)
  end.

(** ** More environments for the examples *)

Definition with_read (c : vk.Result * vk.SurfaceCapabilitiesKHR) (env : Env) : Env :=
  mkEnv (env_getSurface env) (env_score env) c (env_capabilities_check env)
        (env_preferred_size_build env) (env_createSwapchainKHR env)
        (env_getSwapchainImagesKHR env) (env_update_constraints env)
        (env_preferred_size env) (env_update_layout env)
        (env_acquireNextImageKHR env) (env_presentKHR env).

Definition with_check (c : vk.Result * vk.SurfaceCapabilitiesKHR) (env : Env) : Env :=
  mkEnv (env_getSurface env) (env_score env) (env_capabilities_read env) c
        (env_preferred_size_build env) (env_createSwapchainKHR env)
        (env_getSwapchainImagesKHR env) (env_update_constraints env)
        (env_preferred_size env) (env_update_layout env)
        (env_acquireNextImageKHR env) (env_presentKHR env).

Definition with_createSwapchainKHR (r : vk.Result) (env : Env) : Env :=
  mkEnv (env_getSurface env) (env_score env) (env_capabilities_read env)
        (env_capabilities_check env) (env_preferred_size_build env) r
        (env_getSwapchainImagesKHR env) (env_update_constraints env)
        (env_preferred_size env) (env_update_layout env)
        (env_acquireNextImageKHR env) (env_presentKHR env).

Definition with_score (s : Z) (env : Env) : Env :=
  mkEnv (env_getSurface env) s (env_capabilities_read env)
        (env_capabilities_check env) (env_preferred_size_build env)
        (env_createSwapchainKHR env)
        (env_getSwapchainImagesKHR env) (env_update_constraints env)
        (env_preferred_size env) (env_update_layout env)
        (env_acquireNextImageKHR env) (env_presentKHR env).

Definition with_acquire (a : vk.Result * Z) (env : Env) : Env :=
  mkEnv (env_getSurface env) (env_score env) (env_capabilities_read env)
        (env_capabilities_check env) (env_preferred_size_build env)
        (env_createSwapchainKHR env)
        (env_getSwapchainImagesKHR env) (env_update_constraints env)
        (env_preferred_size env) (env_update_layout env)
        a (env_presentKHR env).

Definition capabilities (w h : Z) : vk.Result * vk.SurfaceCapabilitiesKHR :=
  (vk.eSuccess, {| vk.minImageCount := 2; vk.maxImageCount := 8;
                   vk.currentExtent := extent w h |}).

Definition with_preferred_size_build (p : interval_vec2) (env : Env) : Env :=
  mkEnv (env_getSurface env) (env_score env) (env_capabilities_read env)
        (env_capabilities_check env) p (env_createSwapchainKHR env)
        (env_getSwapchainImagesKHR env) (env_update_constraints env)
        (env_preferred_size env) (env_update_layout env)
        (env_acquireNextImageKHR env) (env_presentKHR env).

(** The window is minimized: the surface reports a zero-area extent. *)
Definition minimized_env : Env := with_read (capabilities 0 0) calm_env.

(** The window is minimized, and the widget tree asks for no minimum
    size. *)
Definition no_minimum_env : Env :=
  with_preferred_size_build
    {| minimum := extent 0 0; maximum := extent 4000 4000 |}
    (with_read (capabilities 0 0) (with_check (capabilities 0 0) calm_env)).

(** The surface is one pixel wider than the largest size the widget tree
    accepts, at a width where [float] has no value between the two. *)
Definition beyond_float_env : Env :=
  with_preferred_size_build
    {| minimum := extent 100 100; maximum := extent 16777216 16777216 |}
    (with_read (capabilities 16777217 600)
       (with_check (capabilities 16777217 600) calm_env)).

(** The surface is lost when the swapchain is created. *)
Definition surface_lost_env : Env :=
  with_createSwapchainKHR vk.eErrorSurfaceLostKHR calm_env.

(** The window is resized while the swapchain is created. *)
Definition racing_env : Env := with_check (capabilities 640 480) calm_env.

(** The driver runs out of device memory when creating the swapchain. *)
Definition out_of_memory_env : Env :=
  with_createSwapchainKHR vk.eErrorOutOfDeviceMemory calm_env.

(** The swapchain is out of date when the next image is asked for. *)
Definition out_of_date_env : Env := with_acquire (vk.eErrorOutOfDateKHR, 0) calm_env.

(** The device cannot present to the surface. *)
Definition unsupported_env : Env := with_score 0 calm_env.

(** [build(); teardown(); build()] under the same external conditions. *)
Definition build_teardown_build (env : Env) : M unit :=
  (build env ;; teardown ;; build env)%cpp.

(** ** Vocabulary for [render] *)

(** The local variables of [render], read off the window it starts from
    and the answers of the widget tree. *)
Definition need_layout (env : Env) (w : Window) : bool :=
  requestLayout w || env_update_constraints env (_request_setting_change w).

Definition need_redraw (env : Env) (w : Window) : bool :=
  env_update_layout env (need_layout env w) || requestRedraw w.

(** The resize check of step 1: the size the window is asked to take, if
    any. *)
Definition resize_request (env : Env) (w : Window) : option vk.Extent2D :=
  if requestResize w || extent_below (currentWindowExtent w) (env_preferred_size env)
  then Some (minimum (env_preferred_size env))
  else if extent_above (currentWindowExtent w) (env_preferred_size env)
       then Some (maximum (env_preferred_size env))
       else None.

Definition resized_extent (env : Env) (w : Window) : vk.Extent2D :=
  match resize_request env w with
  | Some e => e
  | None => currentWindowExtent w
  end.

Definition prologue_calls (env : Env) (w : Window) : list Event :=
  [EvWidgetUpdateConstraints (_request_setting_change w); EvWidgetPreferredSize] ++
  match resize_request env w with
  | Some e => [EvSetWindowSize e]
  | None => []
  end ++
  [EvWidgetSetLayoutParameters (resized_extent env w);
   EvWidgetUpdateLayout (need_layout env w)].

Definition after_prologue (env : Env) (w : Window) : Window :=
  set_requestRedraw false
    (set_requestLayout false
       (set_currentWindowExtent (resized_extent env w)
          (set_requestResize false
             (set__request_setting_change false w)))).

(** The GPU work of a frame: acquiring an image, waiting on or resetting
    the fence, recording the command buffer, submitting, presenting. *)
Definition is_frame_work (e : Event) : bool :=
  match e with
  | EvAcquireNextImageKHR _ _ | EvWaitForFences _ _ | EvResetFences _
  | EvCmdReset | EvCmdBegin | EvCmdBeginRenderPass _ | EvCmdNextSubpass
  | EvCmdEndRenderPass | EvCmdEnd | EvQueueSubmit _ _ _ _ | EvQueuePresent _ _ => true
  | _ => false
  end.

(** The submission of the recorded command buffer, and the empty
    submission that carries the fence. *)
Definition submit_commands : Event :=
  EvQueueSubmit [(imageAvailableSemaphore, vk.eColorAttachmentOutput)]
                [commandBuffer] [renderFinishedSemaphore] None.

Definition submit_fence : Event :=
  EvQueueSubmit [] [] [] (Some renderFinishedFence_h).

(** The calls of a frame from the fence wait to the fence submission,
    for the framebuffer [fb]. *)
Definition recording_calls (fb : Handle) : list Event :=
  [EvWidgetDraw; EvCmdReset; EvCmdBegin; EvWidgetBackgroundColor;
   EvCmdBeginRenderPass fb;
   EvPipeline flatPipeline drawInCommandBuffer; EvCmdNextSubpass;
   EvPipeline boxPipeline drawInCommandBuffer; EvCmdNextSubpass;
   EvPipeline imagePipeline drawInCommandBuffer; EvCmdNextSubpass;
   EvPipeline SDFPipeline drawInCommandBuffer; EvCmdNextSubpass;
   EvPipeline toneMapperPipeline drawInCommandBuffer;
   EvCmdEndRenderPass; EvCmdEnd].

(** ** The state of the render-finished fence along a trace *)

(** [FenceSignaled] stands for a fence that is signaled or that a queue
    submission made earlier is going to signal. *)
Inductive FenceStatus : Type := FenceAbsent | FenceUnsignaled | FenceSignaled.

Definition fence_step (st : FenceStatus) (e : Event) : FenceStatus :=
  match e with
  | EvCreateFence _ signaled => if signaled then FenceSignaled else FenceUnsignaled
  | EvResetFences _ => FenceUnsignaled
  | EvQueueSubmit _ _ _ (Some _) => FenceSignaled
  | EvDestroy (ObjFence _) => FenceAbsent
  | _ => st
  end.

Definition fence_after (st : FenceStatus) (t : list Event) : FenceStatus :=
  fold_left fence_step t st.

Definition is_reset (e : Event) : bool :=
  match e with EvResetFences _ => true | _ => false end.

(** Calls that leave the fence as it is. *)
Definition fence_neutral (e : Event) : Prop :=
  forall st, fence_step st e = st.

Definition is_present (e : Event) : bool :=
  match e with EvQueuePresent _ _ => true | _ => false end.

Definition is_submit (e : Event) : bool :=
  match e with EvQueueSubmit _ _ _ _ => true | _ => false end.

(** Calls that neither reset the fence, nor submit to a queue, nor
    present. *)
Definition quiet (e : Event) : Prop :=
  is_reset e = false /\ is_submit e = false /\ is_present e = false.

(** The tick of [render] on [w] gets to draw a frame on the framebuffer
    [fb]: [teardown] and [build] return and leave the window in
    [ReadyToRender] with its device attached, a redraw is needed, and the
    acquire answers with an image whose framebuffer is [fb]. *)
Definition starts_frame (env : Env) (w : Window) (fb : Handle) : Prop :=
  let w1 := window (teardown w) in
  let w2 := window (build env w1) in
  outcome (teardown w) = Returned tt /\
  outcome (build env w1) = Returned tt /\
  state w2 = ReadyToRender /\
  is_some (_device w2) = true /\
  need_redraw env w2 = true /\
  fst (env_acquireNextImageKHR env) = vk.eSuccess /\
  nth_error (swapchainFramebuffers w2)
            (Z.to_nat (snd (env_acquireNextImageKHR env))) = Some fb.

(** The calls of a frame from the fence wait to the present, for the
    framebuffer [fb] of the image [idx]. *)
Definition frame_calls (fb : Handle) (idx : Z) : list Event :=
  [EvWaitForFences renderFinishedFence_h uint64_max;
   EvResetFences renderFinishedFence_h] ++
  recording_calls fb ++
  [submit_commands; submit_fence; EvQueuePresent idx [renderFinishedSemaphore]].

From Stdlib Require Import Permutation.

(** * Further vocabulary for the lifecycle *)

(** The objects of the swapchain level, as [build] creates them and
    [teardown] releases them. *)
Inductive Resource : Type :=
| ResObject (o : Object)
| ResImage (a : Attachment)
| ResCommandBuffer.

(** The object a call creates when it succeeds.  The framebuffer made for
    a swapchain image goes by the handle of that image, as in
    [buildFramebuffers]. *)
Definition creates (e : Event) : option Resource :=
  match e with
  | EvCreateSwapchainKHR _ _ => Some (ResObject ObjSwapchain)
  | EvCreateImage a _ => Some (ResImage a)
  | EvCreateImageView o => Some (ResObject o)
  | EvCreateFramebuffer image _ => Some (ResObject (ObjFramebuffer image))
  | EvCreateRenderPass => Some (ResObject ObjRenderPass)
  | EvCreateSemaphore s => Some (ResObject (ObjSemaphore s))
  | EvCreateFence f _ => Some (ResObject (ObjFence f))
  | EvAllocateCommandBuffers => Some ResCommandBuffer
  | _ => None
  end.

(** The object a call releases. *)
Definition releases (e : Event) : option Resource :=
  match e with
  | EvDestroy o => Some (ResObject o)
  | EvDestroyImage a => Some (ResImage a)
  | EvFreeCommandBuffers => Some ResCommandBuffer
  | _ => None
  end.

Fixpoint collect {A B} (f : A -> option B) (l : list A) : list B :=
  match l with
  | [] => []
  | x :: l' =>
      match f x with
      | Some y => y :: collect f l'
      | None => collect f l'
      end
  end.

Definition created (t : list Event) : list Resource := collect creates t.

Definition released (t : list Event) : list Resource := collect releases t.

(** Calls that neither create nor release an object of the swapchain
    level. *)
Definition keeps_objects (e : Event) : Prop :=
  creates e = None /\ releases e = None.

(** The upper limit [getImageCountAndExtent] clamps the image count to. *)
Definition image_count_limit (c : vk.SurfaceCapabilitiesKHR) : Z :=
  if vk.maxImageCount c =? 0 then 10 else vk.maxImageCount c.

(** The four requests a tick of [render] takes up: a change of settings,
    a resize, a layout and a redraw. *)
Definition requests (w : Window) : bool * bool * bool * bool :=
  (_request_setting_change w, requestResize w, requestLayout w, requestRedraw w).

(** * The operating-system side of the window

    The second part of [src/ttauri/GUI/Window_vulkan.cpp] is the Win32
    subclass of the Vulkan window, [gui_window_vulkan_win32]: the table
    that routes window handles to window objects, the message handler
    [windowProc] with its helpers, and the clipboard.  The members
    [state], [currentWindowExtent], [requestLayout] and
    [_request_setting_change] that the handler writes are those of the
    Vulkan window above, which is kept as the field [base].

    Calls that leave the class are collected in a trace of [Call]s, the
    answers of the operating system during one call are [Answers].  Widget
    sizes and window coordinates are whole pixels, as above, and the
    widget tree is taken to exist. *)

Module win32.

(** ** Win32 vocabulary *)

(** The message numbers of [winuser.h], by the names the code switches
    on.  [WM_other] stands for every number that has no case label. *)
Inductive Message : Type :=
| WM_NCCREATE
| WM_DESTROY
| WM_CREATE
| WM_ERASEBKGND
| WM_PAINT
| WM_NCPAINT
| WM_SIZE
| WM_SIZING
| WM_MOVING
| WM_WINDOWPOSCHANGED
| WM_ENTERSIZEMOVE
| WM_EXITSIZEMOVE
| WM_ACTIVATE
| WM_GETMINMAXINFO
| WM_UNICHAR
| WM_DEADCHAR
| WM_CHAR
| WM_SYSKEYDOWN
| WM_KEYDOWN
| WM_LBUTTONDOWN
| WM_MBUTTONDOWN
| WM_RBUTTONDOWN
| WM_XBUTTONDOWN
| WM_LBUTTONUP
| WM_MBUTTONUP
| WM_RBUTTONUP
| WM_XBUTTONUP
| WM_LBUTTONDBLCLK
| WM_MBUTTONDBLCLK
| WM_RBUTTONDBLCLK
| WM_XBUTTONDBLCLK
| WM_MOUSEWHEEL
| WM_MOUSEHWHEEL
| WM_MOUSEMOVE
| WM_MOUSELEAVE
| WM_NCCALCSIZE
| WM_NCHITTEST
| WM_SETTINGCHANGE
| WM_DPICHANGED
| WM_WIN_LANGUAGE_CHANGE
| WM_other.

(** Results of [WM_NCHITTEST]. *)
Definition HTCLIENT : Z := 1.
Definition HTCAPTION : Z := 2.
Definition HTSYSMENU : Z := 3.
Definition HTLEFT : Z := 10.
Definition HTRIGHT : Z := 11.
Definition HTTOP : Z := 12.
Definition HTTOPLEFT : Z := 13.
Definition HTTOPRIGHT : Z := 14.
Definition HTBOTTOM : Z := 15.
Definition HTBOTTOMLEFT : Z := 16.
Definition HTBOTTOMRIGHT : Z := 17.

Definition TRUE : Z := 1.
Definition SIZE_RESTORED : Z := 0.
Definition SIZE_MINIMIZED : Z := 1.
Definition SIZE_MAXIMIZED : Z := 2.
Definition UNICODE_NOCHAR : Z := 65535.

Definition MK_LBUTTON : Z := 1.
Definition MK_RBUTTON : Z := 2.
Definition MK_SHIFT : Z := 4.
Definition MK_CONTROL : Z := 8.
Definition MK_MBUTTON : Z := 16.
Definition MK_XBUTTON1 : Z := 32.
Definition MK_XBUTTON2 : Z := 64.
Definition XBUTTON1 : Z := 1.
Definition XBUTTON2 : Z := 2.

Definition CF_TEXT : Z := 1.
Definition CF_OEMTEXT : Z := 7.
Definition CF_UNICODETEXT : Z := 13.
Definition ERROR_SUCCESS : Z := 0.

(** [LOWORD], [HIWORD] and the macros of [windowsx.h] built on them. *)
Definition LOWORD (l : Z) : Z := Z.land l 65535.
Definition HIWORD (l : Z) : Z := Z.land (Z.shiftr l 16) 65535.

(** [(short)x] of a 16-bit word. *)
Definition to_short (x : Z) : Z := if x <? 32768 then x else x - 65536.

Definition GET_X_LPARAM (lp : Z) : Z := to_short (LOWORD lp).
Definition GET_Y_LPARAM (lp : Z) : Z := to_short (HIWORD lp).
Definition GET_WHEEL_DELTA_WPARAM (wParam : Z) : Z := to_short (HIWORD wParam).
Definition GET_KEYSTATE_WPARAM (wParam : Z) : Z := LOWORD wParam.
Definition GET_XBUTTON_WPARAM (wParam : Z) : Z := HIWORD wParam.

Record RECT : Type :=
  { left : Z; top : Z; right : Z; bottom : Z }.

(** The fields of [CREATESTRUCT] and [WINDOWPOS] that are read. *)
Record CREATESTRUCT : Type :=
  { cs_lpCreateParams : Z; cs_x : Z; cs_y : Z; cs_cx : Z; cs_cy : Z }.

Record WINDOWPOS : Type :=
  { wp_x : Z; wp_y : Z; wp_cx : Z; wp_cy : Z }.

(** The fields of [MINMAXINFO] that are written. *)
Record MINMAXINFO : Type :=
  { ptMaxSize : Z * Z; ptMinTrackSize : Z * Z; ptMaxTrackSize : Z * Z }.

Inductive VirtualKey : Type :=
| VK_SHIFT | VK_CONTROL | VK_MENU | VK_LWIN | VK_RWIN
| VK_CAPITAL | VK_NUMLOCK | VK_SCROLL.

Inductive CursorResource : Type :=
| IDC_APPSTARTING | IDC_ARROW | IDC_HAND | IDC_IBEAM | IDC_NO.

(** ** Vocabulary of the GUI library

    The enumerations below are declared in headers that are not at hand;
    they list the enumerators the code names, and one more for any other
    value. *)

Inductive Size : Type := Normal | Minimized | Maximized.

Inductive Cursor : Type :=
| Cursor_None | Cursor_Default | Cursor_Button | Cursor_TextEdit | Cursor_unnamed.

Definition Cursor_eqb (a b : Cursor) : bool :=
  match a, b with
  | Cursor_None, Cursor_None
  | Cursor_Default, Cursor_Default
  | Cursor_Button, Cursor_Button
  | Cursor_TextEdit, Cursor_TextEdit
  | Cursor_unnamed, Cursor_unnamed => true
  | _, _ => false
  end.

Inductive HitBoxType : Type :=
| BottomResizeBorder | TopResizeBorder | LeftResizeBorder | RightResizeBorder
| BottomLeftResizeCorner | BottomRightResizeCorner
| TopLeftResizeCorner | TopRightResizeCorner
| ApplicationIcon | MoveArea | HitBox_TextEdit | HitBox_Button | HitBox_Default
| Outside | HitBox_unnamed.

Inductive MouseEventType : Type :=
| ButtonDown | ButtonUp | Wheel | Drag | Move | Exited | MouseEventType_unnamed.

Definition MouseEventType_eqb (a b : MouseEventType) : bool :=
  match a, b with
  | ButtonDown, ButtonDown | ButtonUp, ButtonUp | Wheel, Wheel | Drag, Drag
  | Move, Move | Exited, Exited
  | MouseEventType_unnamed, MouseEventType_unnamed => true
  | _, _ => false
  end.

(** [MouseEvent::down] and [MouseEvent::cause]. *)
Record Buttons : Type := mkButtons
  { leftButton : bool;
    middleButton : bool;
    rightButton : bool;
    x1Button : bool;
    x2Button : bool;
    controlKey : bool;
    shiftKey : bool }.

Definition set_leftButton (v : bool) (b : Buttons) : Buttons :=
  mkButtons v (middleButton b) (rightButton b) (x1Button b) (x2Button b)
    (controlKey b) (shiftKey b).
Definition set_middleButton (v : bool) (b : Buttons) : Buttons :=
  mkButtons (leftButton b) v (rightButton b) (x1Button b) (x2Button b)
    (controlKey b) (shiftKey b).
Definition set_rightButton (v : bool) (b : Buttons) : Buttons :=
  mkButtons (leftButton b) (middleButton b) v (x1Button b) (x2Button b)
    (controlKey b) (shiftKey b).
Definition set_x1Button (v : bool) (b : Buttons) : Buttons :=
  mkButtons (leftButton b) (middleButton b) (rightButton b) v (x2Button b)
    (controlKey b) (shiftKey b).
Definition set_x2Button (v : bool) (b : Buttons) : Buttons :=
  mkButtons (leftButton b) (middleButton b) (rightButton b) (x1Button b) v
    (controlKey b) (shiftKey b).

(** The wheel delta is [static_cast<float>(raw) / WHEEL_DELTA * 10.0f] in
    each direction; it is kept as the raw value it is computed from, and
    the raw value 0 stands for the zero of [vec{}]. *)
Record WheelDelta : Type :=
  { wheel_x_raw : Z; wheel_y_raw : Z }.

Record MouseEvent : Type := mkMouseEvent
  { type : MouseEventType;
    timePoint : Z;
    position : Z * Z;
    wheelDelta : WheelDelta;
    down : Buttons;
    cause : Buttons;
    downPosition : Z * Z;
    clickCount : Z }.

Definition set_type (v : MouseEventType) (e : MouseEvent) : MouseEvent :=
  mkMouseEvent v (timePoint e) (position e) (wheelDelta e) (down e) (cause e)
    (downPosition e) (clickCount e).
Definition set_timePoint (v : Z) (e : MouseEvent) : MouseEvent :=
  mkMouseEvent (type e) v (position e) (wheelDelta e) (down e) (cause e)
    (downPosition e) (clickCount e).
Definition set_position (v : Z * Z) (e : MouseEvent) : MouseEvent :=
  mkMouseEvent (type e) (timePoint e) v (wheelDelta e) (down e) (cause e)
    (downPosition e) (clickCount e).
Definition set_wheelDelta (v : WheelDelta) (e : MouseEvent) : MouseEvent :=
  mkMouseEvent (type e) (timePoint e) (position e) v (down e) (cause e)
    (downPosition e) (clickCount e).
Definition set_down (v : Buttons) (e : MouseEvent) : MouseEvent :=
  mkMouseEvent (type e) (timePoint e) (position e) (wheelDelta e) v (cause e)
    (downPosition e) (clickCount e).
Definition set_cause (v : Buttons) (e : MouseEvent) : MouseEvent :=
  mkMouseEvent (type e) (timePoint e) (position e) (wheelDelta e) (down e) v
    (downPosition e) (clickCount e).
Definition set_downPosition (v : Z * Z) (e : MouseEvent) : MouseEvent :=
  mkMouseEvent (type e) (timePoint e) (position e) (wheelDelta e) (down e)
    (cause e) v (clickCount e).
Definition set_clickCount (v : Z) (e : MouseEvent) : MouseEvent :=
  mkMouseEvent (type e) (timePoint e) (position e) (wheelDelta e) (down e)
    (cause e) (downPosition e) v.

(** [KeyboardModifiers] and [KeyboardState] are sets of flags. *)
Record KeyboardModifiers : Type := mkKeyboardModifiers
  { Shift : bool; Control : bool; Alt : bool; Super : bool }.

Record KeyboardState : Type := mkKeyboardState
  { CapsLock : bool; NumLock : bool; ScrollLock : bool }.

Inductive KeyboardVirtualKey : Type :=
| Nul
| Key (code : Z).

(** [iaarect]: offset and extent. *)
Record iaarect : Type :=
  { rect_x : Z; rect_y : Z; rect_width : Z; rect_height : Z }.

(** The argument of [request_redraw]. *)
Inductive RedrawArea : Type :=
| whole_window
| rectangle (r : iaarect)
| infinity.

(** ** Calls that leave the class *)

Inductive Call : Type :=
(* the window's base class and the widget tree *)
| request_redraw (area : RedrawArea)
| handle_keyboard_event_grapheme (grapheme : Z)
(** [handle_keyboard_event(c, full)]; [full] is [None] where the call
    leaves it to the default argument *)
| handle_keyboard_event_char (c : Z) (full : option bool)
| handle_keyboard_event_key (s : KeyboardState) (m : KeyboardModifiers) (k : Z)
| handle_mouse_event (e : MouseEvent)
| widget_preferred_size
| widget_hitbox_test (position : Z * Z)
| cpu_utc_clock_now
| settheme_mode
| read_os_theme_mode
| set_preferred_languages
| read_os_preferred_languages
(* user32 and kernel32 *)
| BeginPaint
| EndPaint
| GetKeyState (k : VirtualKey)
| GetAsyncKeyState (k : VirtualKey)
| LoadCursorW (idc : CursorResource)
| SetCursor (idc : CursorResource)
| SetCapture (hwnd : Z)
| ReleaseCapture
| TrackMouseEvent
| GetDoubleClickTime
| write_MINMAXINFO (address : Z) (info : MINMAXINFO)
| RegisterClassW
| DefWindowProc (hwnd : Z) (uMsg : Message) (wParam lParam : Z)
| GetSystemMetrics_CXMAXTRACK
| GetSystemMetrics_CYMAXTRACK
(* clipboard *)
| OpenClipboard (hwnd : option Z)
| EmptyClipboard
| CloseClipboard
| EnumClipboardFormats (format : Z)
| GetClipboardData (format : Z)
| SetClipboardData (format : Z) (handle : Z)
| GlobalAlloc (bytes : Z)
| GlobalLock (handle : Z)
| GlobalUnlock (handle : Z)
| GlobalFree (handle : Z)
| GetLastError
| memcpy (destination : Z) (units : list Z).

(** ** The window object and the statics of the file *)

Record Win32Window : Type := mkWin32Window
  { base : Window;
    (** the window handle; [None] is [nullptr] *)
    win32Window : option Z;
    size : Size;
    resizing : bool;
    active : bool;
    dpi : Z;
    OSWindowRectangle : iaarect;
    currentCursor : Cursor;
    highSurrogate : Z;
    mouseButtonEvent : MouseEvent;
    trackingMouseLeaveEvent : bool;
    (** time points and durations are counted in nanoseconds *)
    doubleClickTimePoint : Z;
    doubleClickMaximumDuration : Z }.

Definition set_base (v : Window) (w : Win32Window) : Win32Window :=
  mkWin32Window v (win32Window w) (size w) (resizing w) (active w) (dpi w)
    (OSWindowRectangle w) (currentCursor w) (highSurrogate w)
    (mouseButtonEvent w) (trackingMouseLeaveEvent w) (doubleClickTimePoint w)
    (doubleClickMaximumDuration w).
Definition set_win32Window (v : option Z) (w : Win32Window) : Win32Window :=
  mkWin32Window (base w) v (size w) (resizing w) (active w) (dpi w)
    (OSWindowRectangle w) (currentCursor w) (highSurrogate w)
    (mouseButtonEvent w) (trackingMouseLeaveEvent w) (doubleClickTimePoint w)
    (doubleClickMaximumDuration w).
Definition set_size (v : Size) (w : Win32Window) : Win32Window :=
  mkWin32Window (base w) (win32Window w) v (resizing w) (active w) (dpi w)
    (OSWindowRectangle w) (currentCursor w) (highSurrogate w)
    (mouseButtonEvent w) (trackingMouseLeaveEvent w) (doubleClickTimePoint w)
    (doubleClickMaximumDuration w).
Definition set_resizing (v : bool) (w : Win32Window) : Win32Window :=
  mkWin32Window (base w) (win32Window w) (size w) v (active w) (dpi w)
    (OSWindowRectangle w) (currentCursor w) (highSurrogate w)
    (mouseButtonEvent w) (trackingMouseLeaveEvent w) (doubleClickTimePoint w)
    (doubleClickMaximumDuration w).
Definition set_active (v : bool) (w : Win32Window) : Win32Window :=
  mkWin32Window (base w) (win32Window w) (size w) (resizing w) v (dpi w)
    (OSWindowRectangle w) (currentCursor w) (highSurrogate w)
    (mouseButtonEvent w) (trackingMouseLeaveEvent w) (doubleClickTimePoint w)
    (doubleClickMaximumDuration w).
Definition set_dpi (v : Z) (w : Win32Window) : Win32Window :=
  mkWin32Window (base w) (win32Window w) (size w) (resizing w) (active w) v
    (OSWindowRectangle w) (currentCursor w) (highSurrogate w)
    (mouseButtonEvent w) (trackingMouseLeaveEvent w) (doubleClickTimePoint w)
    (doubleClickMaximumDuration w).
Definition set_OSWindowRectangle (v : iaarect) (w : Win32Window) : Win32Window :=
  mkWin32Window (base w) (win32Window w) (size w) (resizing w) (active w)
    (dpi w) v (currentCursor w) (highSurrogate w) (mouseButtonEvent w)
    (trackingMouseLeaveEvent w) (doubleClickTimePoint w)
    (doubleClickMaximumDuration w).
Definition set_currentCursor (v : Cursor) (w : Win32Window) : Win32Window :=
  mkWin32Window (base w) (win32Window w) (size w) (resizing w) (active w)
    (dpi w) (OSWindowRectangle w) v (highSurrogate w) (mouseButtonEvent w)
    (trackingMouseLeaveEvent w) (doubleClickTimePoint w)
    (doubleClickMaximumDuration w).
Definition set_highSurrogate (v : Z) (w : Win32Window) : Win32Window :=
  mkWin32Window (base w) (win32Window w) (size w) (resizing w) (active w)
    (dpi w) (OSWindowRectangle w) (currentCursor w) v (mouseButtonEvent w)
    (trackingMouseLeaveEvent w) (doubleClickTimePoint w)
    (doubleClickMaximumDuration w).
Definition set_mouseButtonEvent (v : MouseEvent) (w : Win32Window) : Win32Window :=
  mkWin32Window (base w) (win32Window w) (size w) (resizing w) (active w)
    (dpi w) (OSWindowRectangle w) (currentCursor w) (highSurrogate w) v
    (trackingMouseLeaveEvent w) (doubleClickTimePoint w)
    (doubleClickMaximumDuration w).
Definition set_trackingMouseLeaveEvent (v : bool) (w : Win32Window) : Win32Window :=
  mkWin32Window (base w) (win32Window w) (size w) (resizing w) (active w)
    (dpi w) (OSWindowRectangle w) (currentCursor w) (highSurrogate w)
    (mouseButtonEvent w) v (doubleClickTimePoint w)
    (doubleClickMaximumDuration w).
Definition set_doubleClickTimePoint (v : Z) (w : Win32Window) : Win32Window :=
  mkWin32Window (base w) (win32Window w) (size w) (resizing w) (active w)
    (dpi w) (OSWindowRectangle w) (currentCursor w) (highSurrogate w)
    (mouseButtonEvent w) (trackingMouseLeaveEvent w) v
    (doubleClickMaximumDuration w).
Definition set_doubleClickMaximumDuration (v : Z) (w : Win32Window) : Win32Window :=
  mkWin32Window (base w) (win32Window w) (size w) (resizing w) (active w)
    (dpi w) (OSWindowRectangle w) (currentCursor w) (highSurrogate w)
    (mouseButtonEvent w) (trackingMouseLeaveEvent w) (doubleClickTimePoint w)
    v.

(** The variables with static storage, and the recursive
    [gui_system_mutex] as the calling thread sees it.

    Modelled from the spec: the mutex class is declared in a header that
    is not at hand.  Section 5 of the specification describes one coarse
    recursive mutex with re-entrancy counting; [recurse_lock_count] is the
    number of times the calling thread holds it. *)
Record Statics : Type := mkStatics
  { recurse_lock_count : nat;
    (** [win32_window_map]: window handle to address of the window object *)
    win32_window_map : list (Z * Z);
    (** whether [win32_window_map_mutex] is held *)
    win32_window_map_mutex : bool;
    win32WindowClassIsRegistered : bool;
    firstWindowHasBeenOpened : bool;
    (** whether the static locals of [setCursor] have been initialized *)
    setCursor_statics : bool }.

Definition set_recurse_lock_count (v : nat) (s : Statics) : Statics :=
  mkStatics v (win32_window_map s) (win32_window_map_mutex s)
    (win32WindowClassIsRegistered s) (firstWindowHasBeenOpened s)
    (setCursor_statics s).
Definition set_win32_window_map (v : list (Z * Z)) (s : Statics) : Statics :=
  mkStatics (recurse_lock_count s) v (win32_window_map_mutex s)
    (win32WindowClassIsRegistered s) (firstWindowHasBeenOpened s)
    (setCursor_statics s).
Definition set_win32_window_map_mutex (v : bool) (s : Statics) : Statics :=
  mkStatics (recurse_lock_count s) (win32_window_map s) v
    (win32WindowClassIsRegistered s) (firstWindowHasBeenOpened s)
    (setCursor_statics s).
Definition set_win32WindowClassIsRegistered (v : bool) (s : Statics) : Statics :=
  mkStatics (recurse_lock_count s) (win32_window_map s)
    (win32_window_map_mutex s) v (firstWindowHasBeenOpened s)
    (setCursor_statics s).
Definition set_setCursor_statics (v : bool) (s : Statics) : Statics :=
  mkStatics (recurse_lock_count s) (win32_window_map s)
    (win32_window_map_mutex s) (win32WindowClassIsRegistered s)
    (firstWindowHasBeenOpened s) v.

(** What a member function works on: the statics and [*this]. *)
Record Self : Type := mkSelf
  { statics : Statics;
    this : Win32Window }.

(** What [_WindowProc] works on: the statics and the window objects, by
    address. *)
Record Process : Type := mkProcess
  { globals : Statics;
    objects : list (Z * Win32Window) }.

(** ** Computations *)

Section Acts.

Variable S : Type.

(** How one call ends: the state it leaves behind, the calls it made, in
    order, and its result. *)
Record Ran (A : Type) : Type := mkRan
  { after : S;
    calls : list Call;
    result : Outcome A }.

Definition Act (A : Type) : Type := S -> Ran A.

Definition pure {A} (a : A) : Act A := fun s => mkRan s [] (Returned a).

Definition and_then {A B} (m : Act A) (k : A -> Act B) : Act B :=
  fun s =>
    match m s with
    | mkRan s1 c1 (Returned a) =>
        match k a s1 with
        | mkRan s2 c2 o => mkRan s2 (c1 ++ c2) o
        end
    | mkRan s1 c1 (Raised f) => mkRan s1 c1 (Raised f)
    end.

Definition fail {A} (f : Failure) : Act A := fun s => mkRan s [] (Raised f).

Definition read {A} (f : S -> A) : Act A :=
  fun s => mkRan s [] (Returned (f s)).

Definition update (f : S -> S) : Act unit :=
  fun s => mkRan (f s) [] (Returned tt).

Definition os_call (c : Call) : Act unit :=
  fun s => mkRan s [c] (Returned tt).

Definition assume (what : string) (b : bool) : Act unit :=
  if b then pure tt else fail (AssertionFailed what).

Definition tt_no_default {A} : Act A := fail (AssertionFailed "tt_no_default").

End Acts.

Arguments pure {S A} a.
Arguments fail {S A} f.
Arguments read {S A} f.
Arguments update {S} f.
Arguments os_call {S} c.
Arguments assume {S} what b.
Arguments tt_no_default {S A}.

Declare Scope os_scope.
Delimit Scope os_scope with os.
Notation "x <- m ;; k" := (and_then m (fun x => k))
  (at level 61, m at next level, right associativity) : os_scope.
Notation "m ;; k" := (and_then m (fun _ => k))
  (at level 61, right associativity) : os_scope.
Local Open Scope os_scope.

(** [narrow_cast<T>] to an integer type with the range [lo..hi]: the
    value has to fit, as for [narrow_cast_int] above. *)
Definition narrow_cast {S} (lo hi x : Z) : Act S Z :=
  assume "narrow_cast" ((lo <=? x) && (x <=? hi)) ;;
  pure x.

Definition char32_max : Z := 4294967295.
Definition LONG_min : Z := -2147483648.
Definition LONG_max : Z := 2147483647.

(** Arithmetic on [char32_t] is unsigned 32-bit arithmetic. *)
Definition wrap32 (x : Z) : Z := x mod 4294967296.

(** *** Members and statics *)

Definition member {A} (f : Win32Window -> A) : Act Self A :=
  read (fun s => f (this s)).

Definition assign (f : Win32Window -> Win32Window) : Act Self unit :=
  update (fun s => mkSelf (statics s) (f (this s))).

Definition base_member {A} (f : Window -> A) : Act Self A :=
  member (fun w => f (base w)).

Definition base_assign (f : Window -> Window) : Act Self unit :=
  assign (fun w => set_base (f (base w)) w).

(** [gui_system_mutex.lock()], [.unlock()] and [std::scoped_lock]. *)
Definition lock_count {S} (st : S -> Statics) : Act S nat :=
  read (fun s => recurse_lock_count (st s)).

Definition lock : Act Self unit :=
  update (fun s =>
    mkSelf (set_recurse_lock_count (Datatypes.S (recurse_lock_count (statics s))) (statics s))
           (this s)).

Definition unlock : Act Self unit :=
  n <- lock_count statics ;;
  assume "gui_system_mutex is held" (negb (Nat.eqb n 0)) ;;
  update (fun s =>
    mkSelf (set_recurse_lock_count (Nat.pred (recurse_lock_count (statics s))) (statics s))
           (this s)).

Definition scoped_lock {A} (body : Act Self A) : Act Self A :=
  lock ;;
  r <- body ;;
  unlock ;;
  pure r.

(** [tt_assume(gui_system_mutex.recurse_lock_count() == 0)] *)
Definition assume_unlocked : Act Self unit :=
  n <- lock_count statics ;;
  assume "gui_system_mutex.recurse_lock_count() == 0" (Nat.eqb n 0).

(** ** What the operating system and the library answer during one call *)

Record Answers : Type := mkAnswers
  { (** the structures that [lParam] points to *)
    mem_CREATESTRUCT : Z -> CREATESTRUCT;
    mem_RECT : Z -> RECT;
    mem_WINDOWPOS : Z -> WINDOWPOS;
    (** [ps.rcPaint], as filled in by [BeginPaint] *)
    env_rcPaint : RECT;
    env_widget_preferred_size : interval_vec2;
    (** [widget->hitbox_test(position).type] *)
    env_hitbox_test : Z * Z -> HitBoxType;
    env_GetKeyState : VirtualKey -> Z;
    env_GetAsyncKeyState : VirtualKey -> Z;
    env_to_KeyboardVirtualKey : Z -> bool -> KeyboardModifiers -> KeyboardVirtualKey;
    (** in milliseconds *)
    env_GetDoubleClickTime : Z;
    (** [cpu_utc_clock::now()] at the start of [createMouseEvent] *)
    env_now : Z;
    (** [cpu_utc_clock::now()] on a double click *)
    env_now_double_click : Z;
    (** [MouseEvent{}]: the default values of the members are declared in
        a header that is not at hand *)
    env_MouseEvent : MouseEvent;
    env_DefWindowProc : Z }.

(** ** The table of windows *)

(** [std::scoped_lock(win32_window_map_mutex)] around [body]; the mutex is
    not recursive. *)
Definition map_locked {A} (body : Act Statics A) : Act Statics A :=
  held <- read win32_window_map_mutex ;;
  (if held : bool then fail (Fatal "win32_window_map_mutex is held") else pure tt) ;;
  update (set_win32_window_map_mutex true) ;;
  r <- body ;;
  update (set_win32_window_map_mutex false) ;;
  pure r.

Fixpoint map_find (handle : Z) (m : list (Z * Z)) : option Z :=
  match m with
  | [] => None
  | (h, p) :: m' => if h =? handle then Some p else map_find handle m'
  end.

Fixpoint map_erase (handle : Z) (m : list (Z * Z)) : list (Z * Z) :=
  match m with
  | [] => []
  | (h, p) :: m' =>
      if h =? handle then map_erase handle m' else (h, p) :: map_erase handle m'
  end.

(** [m[handle] = p] *)
Definition map_assign (handle p : Z) (m : list (Z * Z)) : list (Z * Z) :=
  (handle, p) :: map_erase handle m.

Definition add_win32_window (handle window : Z) : Act Statics unit :=
  map_locked
    (m <- read win32_window_map ;;
     update (set_win32_window_map (map_assign handle window m))).

Definition find_win32_window (handle : Z) : Act Statics (option Z) :=
  map_locked
    (m <- read win32_window_map ;;
     pure (map_find handle m)).

Definition erase_win32_window (handle : Z) : Act Statics unit :=
  map_locked
    (m <- read win32_window_map ;;
     match map_find handle m with
     | Some _ => update (set_win32_window_map (map_erase handle m))
     | None => pure tt
     end).

Definition createWindowClass : Act Statics unit :=
  registered <- read win32WindowClassIsRegistered ;;
  (if negb registered then os_call RegisterClassW else pure tt) ;;
  update (set_win32WindowClassIsRegistered true).

(** ** Helpers of the message handler *)

Definition setOSWindowRectangleFromRECT (rect : RECT) : Act Self unit :=
  scoped_lock
    ((* XXX Without screen height, it is not possible to calculate the y of
        the left-bottom corner. *)
     assign (set_OSWindowRectangle
               {| rect_x := left rect;
                  rect_y := 0 - bottom rect;
                  rect_width := right rect - left rect;
                  rect_height := bottom rect - top rect |}) ;;
     (* Force a redraw, so that the swapchain is used and causes
        out-of-date results on window resize. *)
     os_call (request_redraw whole_window)).

(** The static locals of [setCursor] are initialized when control first
    passes their declarations. *)
Definition load_cursors : Act Self unit :=
  loaded <- read (fun s => setCursor_statics (statics s)) ;;
  if loaded : bool then pure tt else
  os_call (LoadCursorW IDC_APPSTARTING) ;;
  os_call (LoadCursorW IDC_ARROW) ;;
  os_call (LoadCursorW IDC_HAND) ;;
  os_call (LoadCursorW IDC_IBEAM) ;;
  os_call (LoadCursorW IDC_NO) ;;
  update (fun s => mkSelf (set_setCursor_statics true (statics s)) (this s)).

(** The result of the locked block of [setCursor] says whether the
    function goes on ([true]) or has returned ([false]). *)
Definition setCursor (cursor : Cursor) : Act Self unit :=
  assume_unlocked ;;
  go_on <-
    scoped_lock
      (current <- member currentCursor ;;
       if Cursor_eqb current cursor then pure false else
       assign (set_currentCursor cursor) ;;
       if Cursor_eqb cursor Cursor_None then pure false else
       pure true) ;;
  if negb go_on then pure tt else
  load_cursors ;;
  idc <-
    match cursor with
    | Cursor_None => pure IDC_APPSTARTING
    | Cursor_Default => pure IDC_ARROW
    | Cursor_Button => pure IDC_HAND
    | Cursor_TextEdit => pure IDC_IBEAM
    | Cursor_unnamed => tt_no_default
    end ;;
  os_call (SetCursor idc).

(** [(static_cast<uint16_t>(x) & 0x8000) != 0] *)
Definition high_bit_of_short (x : Z) : bool :=
  negb (Z.land (x mod 65536) 32768 =? 0).

Definition getKeyboardModifiers (env : Answers) : Act Self KeyboardModifiers :=
  os_call (GetAsyncKeyState VK_SHIFT) ;;
  let shift := high_bit_of_short (env_GetAsyncKeyState env VK_SHIFT) in
  os_call (GetAsyncKeyState VK_CONTROL) ;;
  let control := high_bit_of_short (env_GetAsyncKeyState env VK_CONTROL) in
  os_call (GetAsyncKeyState VK_MENU) ;;
  let alt := high_bit_of_short (env_GetAsyncKeyState env VK_MENU) in
  os_call (GetAsyncKeyState VK_LWIN) ;;
  super <-
    (if high_bit_of_short (env_GetAsyncKeyState env VK_LWIN) then pure true
     else os_call (GetAsyncKeyState VK_RWIN) ;;
          pure (high_bit_of_short (env_GetAsyncKeyState env VK_RWIN))) ;;
  pure (mkKeyboardModifiers shift control alt super).

Definition getKeyboardState (env : Answers) : Act Self KeyboardState :=
  os_call (GetKeyState VK_CAPITAL) ;;
  os_call (GetKeyState VK_NUMLOCK) ;;
  os_call (GetKeyState VK_SCROLL) ;;
  pure (mkKeyboardState (negb (env_GetKeyState env VK_CAPITAL =? 0))
                        (negb (env_GetKeyState env VK_NUMLOCK =? 0))
                        (negb (env_GetKeyState env VK_SCROLL =? 0))).

Definition handleSuragates (c : Z) : Act Self Z :=
  assume_unlocked ;;
  scoped_lock
    (if (55296 <=? c) && (c <=? 56319) then
       assign (set_highSurrogate (wrap32 (wrap32 (Z.shiftl (wrap32 (c - 55296)) 10) + 65536))) ;;
       pure 0
     else
       c' <-
         (if (56320 <=? c) && (c <=? 57343) then
            high <- member highSurrogate ;;
            pure (if negb (high =? 0) then Z.lor high (wrap32 (c - 56320)) else 65533)
          else pure c) ;;
       assign (set_highSurrogate 0) ;;
       pure c').

(** *** Mouse events *)

Definition is_button_up (uMsg : Message) : bool :=
  match uMsg with
  | WM_LBUTTONUP | WM_MBUTTONUP | WM_RBUTTONUP | WM_XBUTTONUP => true
  | _ => false
  end.

Definition is_button_down (uMsg : Message) : bool :=
  match uMsg with
  | WM_LBUTTONDOWN | WM_MBUTTONDOWN | WM_RBUTTONDOWN | WM_XBUTTONDOWN => true
  | _ => false
  end.

Definition is_double_click (uMsg : Message) : bool :=
  match uMsg with
  | WM_LBUTTONDBLCLK | WM_MBUTTONDBLCLK | WM_RBUTTONDBLCLK | WM_XBUTTONDBLCLK => true
  | _ => false
  end.

(** [(GET_KEYSTATE_WPARAM(wParam) & mask) > 0] *)
Definition keystate_has (wParam mask : Z) : bool :=
  0 <? Z.land (GET_KEYSTATE_WPARAM wParam) mask.

Definition is_MOUSELEAVE (uMsg : Message) : bool :=
  match uMsg with WM_MOUSELEAVE => true | _ => false end.

(** The first [switch]: which buttons caused the event. *)
Definition mouse_cause (uMsg : Message) (wParam : Z) (mouseEvent : MouseEvent)
    : Act Self MouseEvent :=
  match uMsg with
  | WM_LBUTTONUP | WM_LBUTTONDOWN | WM_LBUTTONDBLCLK =>
      pure (set_cause (set_leftButton true (cause mouseEvent)) mouseEvent)
  | WM_RBUTTONUP | WM_RBUTTONDOWN | WM_RBUTTONDBLCLK =>
      pure (set_cause (set_rightButton true (cause mouseEvent)) mouseEvent)
  | WM_MBUTTONUP | WM_MBUTTONDOWN | WM_MBUTTONDBLCLK =>
      pure (set_cause (set_middleButton true (cause mouseEvent)) mouseEvent)
  | WM_XBUTTONUP | WM_XBUTTONDOWN | WM_XBUTTONDBLCLK =>
      pure (set_cause
              (set_x2Button (0 <? Z.land (GET_XBUTTON_WPARAM wParam) XBUTTON2)
                 (set_x1Button (0 <? Z.land (GET_XBUTTON_WPARAM wParam) XBUTTON1)
                    (cause mouseEvent)))
              mouseEvent)
  | WM_MOUSEMOVE =>
      last <- member mouseButtonEvent ;;
      if MouseEventType_eqb (type last) ButtonDown
      then pure (set_cause (cause last) mouseEvent)
      else pure mouseEvent
  | WM_MOUSEWHEEL | WM_MOUSEHWHEEL | WM_MOUSELEAVE => pure mouseEvent
  | _ => tt_no_default
  end.

(** The second [switch]: the type of the event, where the button went
    down and the click count. *)
Definition mouse_type (env : Answers) (uMsg : Message) (a_button_is_pressed : bool)
    (mouseEvent : MouseEvent) : Act Self MouseEvent :=
  match uMsg with
  | WM_LBUTTONUP | WM_MBUTTONUP | WM_RBUTTONUP | WM_XBUTTONUP =>
      last <- member mouseButtonEvent ;;
      let mouseEvent :=
        set_clickCount 0
          (set_downPosition (downPosition last) (set_type ButtonUp mouseEvent)) in
      (if negb a_button_is_pressed then
         unlock ;;
         assume_unlocked ;;
         os_call ReleaseCapture ;;
         lock
       else pure tt) ;;
      pure mouseEvent
  | WM_LBUTTONDOWN | WM_MBUTTONDOWN | WM_RBUTTONDOWN | WM_XBUTTONDOWN =>
      at_ <- member doubleClickTimePoint ;;
      within <- member doubleClickMaximumDuration ;;
      let mouseEvent :=
        set_clickCount (if timePoint mouseEvent <? at_ + within then 3 else 1)
          (set_downPosition (position mouseEvent) (set_type ButtonDown mouseEvent)) in
      (* Track draging past the window borders. *)
      handle <- member win32Window ;;
      window_handle <-
        match handle with
        | Some h => pure h
        | None => fail (AssertionFailed "win32Window != 0")
        end ;;
      unlock ;;
      assume_unlocked ;;
      os_call (SetCapture window_handle) ;;
      lock ;;
      pure mouseEvent
  | WM_LBUTTONDBLCLK | WM_MBUTTONDBLCLK | WM_RBUTTONDBLCLK | WM_XBUTTONDBLCLK =>
      os_call cpu_utc_clock_now ;;
      assign (set_doubleClickTimePoint (env_now_double_click env)) ;;
      pure (set_clickCount 2
              (set_downPosition (position mouseEvent)
                 (set_type ButtonDown mouseEvent)))
  | WM_MOUSEWHEEL | WM_MOUSEHWHEEL =>
      pure (set_type Wheel mouseEvent)
  | WM_MOUSEMOVE =>
      (* XXX Make sure the mouse is moved enough for this to cause a drag
         event. *)
      last <- member mouseButtonEvent ;;
      pure (set_clickCount (clickCount last)
              (set_downPosition (downPosition last)
                 (set_type (if a_button_is_pressed then Drag else Move) mouseEvent)))
  | WM_MOUSELEAVE =>
      last <- member mouseButtonEvent ;;
      (* After this event we need to ask win32 to track the mouse again. *)
      assign (set_trackingMouseLeaveEvent false) ;;
      (* Force currentCursor to None so that the Window is in a fresh state
         when the mouse reenters it. *)
      assign (set_currentCursor Cursor_None) ;;
      pure (set_clickCount 0
              (set_downPosition (downPosition last)
                 (set_type Exited mouseEvent)))
  | _ => tt_no_default
  end.

Definition createMouseEvent (env : Answers) (uMsg : Message) (wParam lParam : Z)
    : Act Self MouseEvent :=
  (* We have to do manual locking, since we don't want this function or its
     caller to hold a lock while calling the windows API. *)
  assume_unlocked ;;
  lock ;;
  os_call cpu_utc_clock_now ;;
  extent <- base_member currentWindowExtent ;;
  let mouseEvent :=
    set_wheelDelta {| wheel_x_raw := 0; wheel_y_raw := 0 |}
      (set_position (GET_X_LPARAM lParam, vk.height extent - GET_Y_LPARAM lParam)
         (set_timePoint (env_now env) (env_MouseEvent env))) in
  let mouseEvent :=
    match uMsg with
    | WM_MOUSEWHEEL =>
        set_wheelDelta {| wheel_x_raw := 0;
                          wheel_y_raw := GET_WHEEL_DELTA_WPARAM wParam |} mouseEvent
    | WM_MOUSEHWHEEL =>
        set_wheelDelta {| wheel_x_raw := GET_WHEEL_DELTA_WPARAM wParam;
                          wheel_y_raw := 0 |} mouseEvent
    | _ => mouseEvent
    end in
  (* Track which buttons are down, in case the application wants to track
     multiple buttons being pressed down. *)
  let mouseEvent :=
    set_down
      (mkButtons (keystate_has wParam MK_LBUTTON) (keystate_has wParam MK_MBUTTON)
         (keystate_has wParam MK_RBUTTON) (keystate_has wParam MK_XBUTTON1)
         (keystate_has wParam MK_XBUTTON2) (keystate_has wParam MK_CONTROL)
         (keystate_has wParam MK_SHIFT))
      mouseEvent in
  (* Check which buttons caused the mouse event. *)
  mouseEvent <- mouse_cause uMsg wParam mouseEvent ;;
  let a_button_is_pressed :=
    leftButton (down mouseEvent) || middleButton (down mouseEvent) ||
    rightButton (down mouseEvent) || x1Button (down mouseEvent) ||
    x2Button (down mouseEvent) in
  mouseEvent <- mouse_type env uMsg a_button_is_pressed mouseEvent ;;
  (* Make sure we start tracking mouse events when the mouse has entered
     the window again. *)
  tracking <- member trackingMouseLeaveEvent ;;
  (if negb tracking && negb (is_MOUSELEAVE uMsg) then
     unlock ;;
     assume_unlocked ;;
     os_call TrackMouseEvent ;;
     lock ;;
     assign (set_trackingMouseLeaveEvent true)
   else pure tt) ;;
  (* Remember the last time a button was pressed or released, so that we
     can convert a move into a drag event. *)
  (if MouseEventType_eqb (type mouseEvent) ButtonDown ||
      MouseEventType_eqb (type mouseEvent) ButtonUp ||
      MouseEventType_eqb (type mouseEvent) Exited
   then assign (set_mouseButtonEvent mouseEvent)
   else pure tt) ;;
  unlock ;;
  assume_unlocked ;;
  pure mouseEvent.

(** ** The message handler *)

(** The body of [case WM_KEYDOWN], which [case WM_SYSKEYDOWN] falls
    through to. *)
Definition key_down (env : Answers) (wParam lParam : Z) : Act Self unit :=
  l <- narrow_cast 0 char32_max lParam ;;
  let extended := negb (Z.land l 16777216 =? 0) in
  key_code <- narrow_cast (- 2147483648) 2147483647 wParam ;;
  key_state <- getKeyboardState env ;;
  key_modifiers <- getKeyboardModifiers env ;;
  match env_to_KeyboardVirtualKey env key_code extended key_modifiers with
  | Nul => pure tt
  | Key virtual_key =>
      os_call (handle_keyboard_event_key key_state key_modifiers virtual_key)
  end.

Definition hit_test (env : Answers) (lParam : Z) : Act Self Z :=
  lock ;;
  let screenPosition := (GET_X_LPARAM lParam, 0 - GET_Y_LPARAM lParam) in
  r <- member OSWindowRectangle ;;
  let insideWindowPosition :=
    (fst screenPosition - rect_x r, snd screenPosition - rect_y r) in
  os_call (widget_hitbox_test insideWindowPosition) ;;
  let hitbox_type := env_hitbox_test env insideWindowPosition in
  unlock ;;
  match hitbox_type with
  | BottomResizeBorder => setCursor Cursor_None ;; pure HTBOTTOM
  | TopResizeBorder => setCursor Cursor_None ;; pure HTTOP
  | LeftResizeBorder => setCursor Cursor_None ;; pure HTLEFT
  | RightResizeBorder => setCursor Cursor_None ;; pure HTRIGHT
  | BottomLeftResizeCorner => setCursor Cursor_None ;; pure HTBOTTOMLEFT
  | BottomRightResizeCorner => setCursor Cursor_None ;; pure HTBOTTOMRIGHT
  | TopLeftResizeCorner => setCursor Cursor_None ;; pure HTTOPLEFT
  | TopRightResizeCorner => setCursor Cursor_None ;; pure HTTOPRIGHT
  | ApplicationIcon => setCursor Cursor_None ;; pure HTSYSMENU
  | MoveArea => setCursor Cursor_None ;; pure HTCAPTION
  | HitBox_TextEdit => setCursor Cursor_TextEdit ;; pure HTCLIENT
  | HitBox_Button => setCursor Cursor_Button ;; pure HTCLIENT
  | HitBox_Default => setCursor Cursor_Default ;; pure HTCLIENT
  | Outside => setCursor Cursor_None ;; pure HTCLIENT
  | HitBox_unnamed => tt_no_default
  end.

(** The [switch] of [windowProc]: [Some r] where a case returns [r],
    [None] where control leaves the [switch]. *)
Definition windowProc_switch (env : Answers) (uMsg : Message) (wParam lParam : Z)
    : Act Self (option Z) :=
  match uMsg with
  | WM_DESTROY =>
      scoped_lock
        (assign (set_win32Window None) ;;
         base_assign (set_state WindowLost)) ;;
      pure None

  | WM_CREATE =>
      let createstruct := mem_CREATESTRUCT env lParam in
      setOSWindowRectangleFromRECT
        {| left := cs_x createstruct;
           top := cs_y createstruct;
           right := cs_x createstruct + cs_cx createstruct;
           bottom := cs_y createstruct + cs_cy createstruct |} ;;
      pure None

  | WM_ERASEBKGND => pure (Some 1)

  | WM_PAINT =>
      scoped_lock
        (os_call BeginPaint ;;
         let rcPaint := env_rcPaint env in
         extent <- base_member currentWindowExtent ;;
         let update_rectangle :=
           {| rect_x := left rcPaint;
              rect_y := vk.height extent - bottom rcPaint;
              rect_width := right rcPaint - left rcPaint;
              rect_height := bottom rcPaint - top rcPaint |} in
         os_call (request_redraw (rectangle update_rectangle)) ;;
         os_call EndPaint) ;;
      pure None

  | WM_NCPAINT =>
      scoped_lock (os_call (request_redraw infinity)) ;;
      pure None

  | WM_SIZE =>
      scoped_lock
        (if wParam =? SIZE_MAXIMIZED then assign (set_size Maximized)
         else if wParam =? SIZE_MINIMIZED then assign (set_size Minimized)
         else if wParam =? SIZE_RESTORED then assign (set_size Normal)
         else pure tt) ;;
      pure None

  | WM_SIZING | WM_MOVING =>
      setOSWindowRectangleFromRECT (mem_RECT env lParam) ;;
      pure None

  | WM_WINDOWPOSCHANGED =>
      let windowpos := mem_WINDOWPOS env lParam in
      setOSWindowRectangleFromRECT
        {| left := wp_x windowpos;
           top := wp_y windowpos;
           right := wp_x windowpos + wp_cx windowpos;
           bottom := wp_y windowpos + wp_cy windowpos |} ;;
      pure None

  | WM_ENTERSIZEMOVE =>
      scoped_lock (assign (set_resizing true)) ;;
      pure None

  | WM_EXITSIZEMOVE =>
      scoped_lock (assign (set_resizing false)) ;;
      pure None

  | WM_ACTIVATE =>
      scoped_lock
        ((if (wParam =? 1) || (wParam =? 2) then assign (set_active true)
          else if wParam =? 0 then assign (set_active false)
          else pure tt) ;;
         base_assign (set_requestLayout true)) ;;
      pure None

  | WM_GETMINMAXINFO =>
      scoped_lock
        (os_call widget_preferred_size ;;
         let widget_size := env_widget_preferred_size env in
         let minimum_widget_size := minimum widget_size in
         let maximum_widget_size := maximum widget_size in
         max_w <- narrow_cast LONG_min LONG_max (vk.width maximum_widget_size) ;;
         max_h <- narrow_cast LONG_min LONG_max (vk.height maximum_widget_size) ;;
         min_w <- narrow_cast LONG_min LONG_max (vk.width minimum_widget_size) ;;
         min_h <- narrow_cast LONG_min LONG_max (vk.height minimum_widget_size) ;;
         max_w' <- narrow_cast LONG_min LONG_max (vk.width maximum_widget_size) ;;
         max_h' <- narrow_cast LONG_min LONG_max (vk.height maximum_widget_size) ;;
         os_call (write_MINMAXINFO lParam
                    {| ptMaxSize := (max_w, max_h);
                       ptMinTrackSize := (min_w, min_h);
                       ptMaxTrackSize := (max_w', max_h') |})) ;;
      pure None

  | WM_UNICHAR =>
      c <- narrow_cast 0 char32_max wParam ;;
      if c =? UNICODE_NOCHAR then
        (* Tell the 3rd party keyboard handler application that we support
           WM_UNICHAR. *)
        pure (Some 1)
      else if 32 <=? c then
        os_call (handle_keyboard_event_grapheme c) ;;
        pure None
      else pure None

  | WM_DEADCHAR =>
      c0 <- narrow_cast 0 char32_max wParam ;;
      c <- handleSuragates c0 ;;
      (if negb (c =? 0) then os_call (handle_keyboard_event_char c (Some false))
       else pure tt) ;;
      pure None

  | WM_CHAR =>
      c0 <- narrow_cast 0 char32_max wParam ;;
      c <- handleSuragates c0 ;;
      (if 32 <=? c then os_call (handle_keyboard_event_char c None)
       else pure tt) ;;
      pure None

  | WM_SYSKEYDOWN =>
      l <- narrow_cast 0 char32_max lParam ;;
      let alt_pressed := negb (Z.land l 536870912 =? 0) in
      if negb alt_pressed then pure (Some (-1)) else
      key_down env wParam lParam ;;
      pure None

  | WM_KEYDOWN =>
      key_down env wParam lParam ;;
      pure None

  | WM_LBUTTONDOWN | WM_MBUTTONDOWN | WM_RBUTTONDOWN | WM_XBUTTONDOWN
  | WM_LBUTTONUP | WM_MBUTTONUP | WM_RBUTTONUP | WM_XBUTTONUP
  | WM_LBUTTONDBLCLK | WM_MBUTTONDBLCLK | WM_RBUTTONDBLCLK | WM_XBUTTONDBLCLK
  | WM_MOUSEWHEEL | WM_MOUSEHWHEEL | WM_MOUSEMOVE | WM_MOUSELEAVE =>
      e <- createMouseEvent env uMsg wParam lParam ;;
      os_call (handle_mouse_event e) ;;
      pure None

  | WM_NCCALCSIZE =>
      if wParam =? TRUE then pure (Some 0) else pure None

  | WM_NCHITTEST =>
      r <- hit_test env lParam ;;
      pure (Some r)

  | WM_SETTINGCHANGE =>
      scoped_lock
        (os_call GetDoubleClickTime ;;
         assign (set_doubleClickMaximumDuration (env_GetDoubleClickTime env * 1000000)) ;;
         os_call read_os_theme_mode ;;
         os_call settheme_mode ;;
         base_assign (set__request_setting_change true)) ;;
      pure None

  | WM_DPICHANGED =>
      scoped_lock
        ((* x-axis dpi value. *)
         assign (set_dpi (LOWORD wParam)) ;;
         base_assign (set_requestLayout true)) ;;
      pure None

  | WM_WIN_LANGUAGE_CHANGE =>
      os_call read_os_preferred_languages ;;
      os_call set_preferred_languages ;;
      base_assign (set__request_setting_change true) ;;
      pure None

  | WM_NCCREATE | WM_other => pure None
  end.

(** [gui_window_vulkan_win32::windowProc] *)
Definition windowProc (env : Answers) (uMsg : Message) (wParam lParam : Z) : Act Self Z :=
  r <- windowProc_switch env uMsg wParam lParam ;;
  match r with
  | Some v => pure v
  | None =>
      (* Let DefWindowProc() handle it. *)
      pure (-1)
  end.

(** ** Routing a message to its window *)

(** A static function, run on the statics of a process. *)
Definition on_statics {A} (m : Act Statics A) : Act Process A :=
  fun p =>
    match m (globals p) with
    | mkRan g c o => mkRan (mkProcess g (objects p)) c o
    end.

Fixpoint object_at (address : Z) (os : list (Z * Win32Window)) : option Win32Window :=
  match os with
  | [] => None
  | (a, w) :: os' => if a =? address then Some w else object_at address os'
  end.

Fixpoint store_at (address : Z) (w : Win32Window) (os : list (Z * Win32Window))
    : list (Z * Win32Window) :=
  match os with
  | [] => []
  | (a, w0) :: os' =>
      if a =? address then (a, w) :: os' else (a, w0) :: store_at address w os'
  end.

(** A member function, run on the object at [address]. *)
Definition on_object {A} (address : Z) (m : Act Self A) : Act Process A :=
  fun p =>
    match object_at address (objects p) with
    | None => mkRan p [] (Raised (AssertionFailed "the window object is alive"))
    | Some w =>
        match m (mkSelf (globals p) w) with
        | mkRan s c o =>
            mkRan (mkProcess (statics s) (store_at address (this s) (objects p))) c o
        end
    end.

(** The first statement of [_WindowProc]: a window that is being created
    is entered into the table. *)
Definition register_created (env : Answers) (hwnd : Z) (uMsg : Message) (lParam : Z)
    : Act Process unit :=
  match uMsg with
  | WM_NCCREATE =>
      if negb (lParam =? 0) then
        let window := cs_lpCreateParams (mem_CREATESTRUCT env lParam) in
        if negb (window =? 0) then on_statics (add_win32_window hwnd window)
        else pure tt
      else pure tt
  | _ => pure tt
  end.

(** The rest of [_WindowProc]: the message is handed to the window the
    handle is routed to, or to [DefWindowProc]. *)
Definition deliver (env : Answers) (hwnd : Z) (uMsg : Message) (wParam lParam : Z)
    : Act Process Z :=
  found <- on_statics (find_win32_window hwnd) ;;
  match found with
  | Some window =>
      n <- lock_count globals ;;
      assume "gui_system_mutex.recurse_lock_count() == 0" (Nat.eqb n 0) ;;
      r <- on_object window (windowProc env uMsg wParam lParam) ;;
      (match uMsg with
       | WM_DESTROY =>
           (* Remove the window now, before DefWindowProc, which could
              recursively reuse the window as it is being cleaned up. *)
           on_statics (erase_win32_window hwnd)
       | _ => pure tt
       end) ;;
      (* The call to DefWindowProc() recurses make sure we do not hold on to
         any locks. *)
      if r =? -1 then
        os_call (DefWindowProc hwnd uMsg wParam lParam) ;;
        pure (env_DefWindowProc env)
      else pure r
  | None =>
      os_call (DefWindowProc hwnd uMsg wParam lParam) ;;
      pure (env_DefWindowProc env)
  end.

(** [_WindowProc], the window procedure of the window class.  The calls
    that [DefWindowProc] makes back into it are runs of their own. *)
Definition _WindowProc (env : Answers) (hwnd : Z) (uMsg : Message) (wParam lParam : Z)
    : Act Process Z :=
  register_created env hwnd uMsg lParam ;;
  deliver env hwnd uMsg wParam lParam.

(** ** The clipboard and the screen *)

(** What the clipboard functions are answered.  Text is a list of code
    units; the conversions between UTF-8 and UTF-16 are those of
    [strings.hpp], which is not at hand. *)
Record Clipboard : Type := mkClipboard
  { env_OpenClipboard : bool;
    env_EmptyClipboard : bool;
    (** the nonzero answers of [EnumClipboardFormats], in order; zero is
        answered after them *)
    env_EnumClipboardFormats : list Z;
    env_GetClipboardData : option Z;
    env_GlobalAlloc : option Z;
    (** the address [GlobalLock] answers, and the string found there *)
    env_GlobalLock : option Z;
    env_locked_text : list Z;
    env_GlobalUnlock : bool;
    (** [GetLastError()] after [GlobalUnlock] *)
    env_GetLastError_unlock : Z;
    env_SetClipboardData : option Z;
    to_u8string : list Z -> list Z;
    to_wstring : list Z -> list Z }.

Definition is_text_format (format : Z) : bool :=
  (format =? CF_TEXT) || (format =? CF_OEMTEXT) || (format =? CF_UNICODETEXT).

(** The block of [case CF_UNICODETEXT], up to its [goto done]: the text
    that [r] holds then. *)
Definition read_unicode_text (cb : Clipboard) (r : list Z) : Act Self (list Z) :=
  os_call (GetClipboardData CF_UNICODETEXT) ;;
  match env_GetClipboardData cb with
  | None => pure r
  | Some cb_data =>
      os_call (GlobalLock cb_data) ;;
      match env_GlobalLock cb with
      | None => pure r
      | Some wstr_c =>
          let r := to_u8string cb (env_locked_text cb) in
          os_call (GlobalUnlock cb_data) ;;
          (if negb (env_GlobalUnlock cb) then os_call GetLastError else pure tt) ;;
          pure r
      end
  end.

(** The [while] loop over the clipboard formats, with the answers that
    [EnumClipboardFormats] still has to give. *)
Fixpoint enumerate_formats (cb : Clipboard) (answers : list Z) (format : Z)
    (r : list Z) : Act Self (list Z) :=
  os_call (EnumClipboardFormats format) ;;
  match answers with
  | [] => os_call GetLastError ;; pure r
  | format' :: answers' =>
      if format' =? 0 then os_call GetLastError ;; pure r
      else if is_text_format format' then read_unicode_text cb r
      else enumerate_formats cb answers' format' r
  end.

Definition getTextFromClipboard (cb : Clipboard) : Act Self (list Z) :=
  let r := [] in
  lock ;;
  handle <- member win32Window ;;
  unlock ;;
  os_call (OpenClipboard handle) ;;
  if negb (env_OpenClipboard cb) then pure r else
  r <- enumerate_formats cb (env_EnumClipboardFormats cb) 0 r ;;
  os_call CloseClipboard ;;
  pure r.

(** The block of [setTextOnClipboard] between [EmptyClipboard] and the
    label [done]; [sizeof(wchar_t)] is 2. *)
Definition set_unicode_text (cb : Clipboard) (str : list Z) : Act Self unit :=
  let wstr := to_wstring cb str in
  let units := Z.of_nat (List.length wstr) + 1 in
  os_call (GlobalAlloc (units * 2)) ;;
  match env_GlobalAlloc cb with
  | None => pure tt
  | Some wstr_handle =>
      os_call (GlobalLock wstr_handle) ;;
      match env_GlobalLock cb with
      | None => os_call (GlobalFree wstr_handle)
      | Some wstr_c =>
          os_call (memcpy wstr_c (wstr ++ [0])) ;;
          os_call (GlobalUnlock wstr_handle) ;;
          failed <-
            (if negb (env_GlobalUnlock cb) then
               os_call GetLastError ;;
               pure (negb (env_GetLastError_unlock cb =? ERROR_SUCCESS))
             else pure false) ;;
          if failed : bool then os_call (GlobalFree wstr_handle) else
          os_call (SetClipboardData CF_UNICODETEXT wstr_handle) ;;
          match env_SetClipboardData cb with
          | None => os_call (GlobalFree wstr_handle)
          | Some _ => pure tt
          end
      end
  end.

Definition setTextOnClipboard (cb : Clipboard) (str : list Z) : Act Self unit :=
  handle <- member win32Window ;;
  os_call (OpenClipboard handle) ;;
  if negb (env_OpenClipboard cb) then pure tt else
  os_call EmptyClipboard ;;
  (if negb (env_EmptyClipboard cb) then pure tt else set_unicode_text cb str) ;;
  os_call CloseClipboard.

(** [virtualScreenSize], with the two answers of [GetSystemMetrics]. *)
Definition virtualScreenSize (width height : Z) : Act Self (Z * Z) :=
  os_call GetSystemMetrics_CXMAXTRACK ;;
  os_call GetSystemMetrics_CYMAXTRACK ;;
  if (width <=? 0) || (height <=? 0)
  then fail (Fatal "Failed to get virtual screen size")
  else pure (width, height).

(** ** Vocabulary of the statements about the Win32 window *)

(** The UTF-16 code units of a code point outside the basic plane. *)
Definition high_surrogate (code_point : Z) : Z :=
  55296 + (code_point - 65536) / 1024.

Definition low_surrogate (code_point : Z) : Z :=
  56320 + (code_point - 65536) mod 1024.

Definition is_surrogate (c : Z) : bool := (55296 <=? c) && (c <=? 57343).

(** What [highSurrogate] holds between two calls of [handleSuragates]:
    nothing, or the upper bits of a code point outside the basic plane. *)
Definition pending_ok (high : Z) : Prop :=
  high = 0 \/ (65536 <= high <= 1113088 /\ high mod 1024 = 0).

(** What [handleSuragates] does to [highSurrogate] and what it returns,
    for the code unit [c]. *)
Definition surrogate_step (high c : Z) : Z * Z :=
  if (55296 <=? c) && (c <=? 56319) then
    (wrap32 (wrap32 (Z.shiftl (wrap32 (c - 55296)) 10) + 65536), 0)
  else if (56320 <=? c) && (c <=? 57343) then
    (0, if negb (high =? 0) then Z.lor high (wrap32 (c - 56320)) else 65533)
  else (0, c).

(** The calling thread does not hold [gui_system_mutex]. *)
Definition unlocked (s : Self) : Prop := recurse_lock_count (statics s) = 0%nat.

(** A failed assumption about [gui_system_mutex]. *)
Definition is_lock_failure (f : Failure) : Prop :=
  f = AssertionFailed "gui_system_mutex.recurse_lock_count() == 0" \/
  f = AssertionFailed "gui_system_mutex is held".

(** The members of the Vulkan window that the message handler leaves
    alone: everything but the state and the requests. *)
Definition vulkan_objects (w : Window) :=
  (_device w, intrinsic w, defaultNumberOfSwapchainImages w, nrSwapchainImages w,
   swapchainImageExtent w, swapchainImages w, swapchainImageViews w,
   swapchainFramebuffers w, renderFinishedFence w, currentWindowExtent w).

(** [m], entered while the calling thread holds the mutex [n] times,
    fails no assumption about the mutex and, when it returns, holds it
    [n'] times. *)
Definition steps {A} (n : nat) (m : Act Self A) (n' : nat) : Prop :=
  forall s,
    recurse_lock_count (statics s) = n ->
    match result (m s) with
    | Returned _ => recurse_lock_count (statics (after (m s))) = n'
    | Raised f => ~ is_lock_failure f
    end.

(** [m] leaves the lifecycle state and the Vulkan objects of the window
    as they are. *)
Definition keeps_lifecycle {A} (m : Act Self A) : Prop :=
  forall s,
    state (base (this (after (m s)))) = state (base (this s)) /\
    vulkan_objects (base (this (after (m s)))) = vulkan_objects (base (this s)).

(** Every value [m] can return has the property [P]. *)
Definition yields {S A} (P : A -> Prop) (m : Act S A) : Prop :=
  forall s v, result (m s) = Returned v -> P v.

(** The results of [WM_NCHITTEST] that the handler gives. *)
Definition hit_test_codes : list Z :=
  [HTCLIENT; HTCAPTION; HTSYSMENU; HTLEFT; HTRIGHT; HTTOP; HTTOPLEFT;
   HTTOPRIGHT; HTBOTTOM; HTBOTTOMLEFT; HTBOTTOMRIGHT].

(** The cases in which [windowProc] answers a message itself, with the
    answer [v]. *)
Definition answered (uMsg : Message) (wParam v : Z) : Prop :=
  (uMsg = WM_ERASEBKGND /\ v = 1) \/
  (uMsg = WM_UNICHAR /\ wParam = UNICODE_NOCHAR /\ v = 1) \/
  (uMsg = WM_NCCALCSIZE /\ wParam = TRUE /\ v = 0) \/
  (uMsg = WM_NCHITTEST /\ In v hit_test_codes).

(** A message that registers a window: a [WM_NCCREATE] that carries the
    address of a window object. *)
Definition registers (env : Answers) (uMsg : Message) (lParam : Z) : bool :=
  match uMsg with
  | WM_NCCREATE =>
      negb (lParam =? 0) && negb (cs_lpCreateParams (mem_CREATESTRUCT env lParam) =? 0)
  | _ => false
  end.

(** The window object a handle is routed to. *)
Definition routed (p : Process) (hwnd : Z) : option Z :=
  map_find hwnd (win32_window_map (globals p)).

(** Neither mutex is held when a message arrives. *)
Definition idle (p : Process) : Prop :=
  recurse_lock_count (globals p) = 0%nat /\
  win32_window_map_mutex (globals p) = false.

(** The cursor of the system that [setCursor] shows for a cursor of the
    GUI library. *)
Definition cursor_resource (cursor : Cursor) : option CursorResource :=
  match cursor with
  | Cursor_Default => Some IDC_ARROW
  | Cursor_Button => Some IDC_HAND
  | Cursor_TextEdit => Some IDC_IBEAM
  | Cursor_None | Cursor_unnamed => None
  end.

(** The loading of the five system cursors, on the first pass only. *)
Definition cursor_loading (s : Self) : list Call :=
  if setCursor_statics (statics s) then []
  else [LoadCursorW IDC_APPSTARTING; LoadCursorW IDC_ARROW; LoadCursorW IDC_HAND;
        LoadCursorW IDC_IBEAM; LoadCursorW IDC_NO].

(** [createMouseEvent] remembers the events of these types in
    [mouseButtonEvent]. *)
Definition is_remembered (t : MouseEventType) : bool :=
  MouseEventType_eqb t ButtonDown || MouseEventType_eqb t ButtonUp ||
  MouseEventType_eqb t Exited.

(** The window after [createMouseEvent] has returned the event [e] for
    the message [uMsg]. *)
Definition after_mouse_event (env : Answers) (uMsg : Message) (e : MouseEvent)
    (w : Win32Window) : Win32Window :=
  mkWin32Window (base w) (win32Window w) (size w) (resizing w) (active w) (dpi w)
    (OSWindowRectangle w)
    (if is_MOUSELEAVE uMsg then Cursor_None else currentCursor w)
    (highSurrogate w)
    (if is_remembered (type e) then e else mouseButtonEvent w)
    (negb (is_MOUSELEAVE uMsg))
    (if is_double_click uMsg then env_now_double_click env else doubleClickTimePoint w)
    (doubleClickMaximumDuration w).

Definition is_SetCapture (c : Call) : bool :=
  match c with SetCapture _ => true | _ => false end.

Definition is_ReleaseCapture (c : Call) : bool :=
  match c with ReleaseCapture => true | _ => false end.

Definition is_mouse_message (uMsg : Message) : bool :=
  match uMsg with
  | WM_LBUTTONDOWN | WM_MBUTTONDOWN | WM_RBUTTONDOWN | WM_XBUTTONDOWN
  | WM_LBUTTONUP | WM_MBUTTONUP | WM_RBUTTONUP | WM_XBUTTONUP
  | WM_LBUTTONDBLCLK | WM_MBUTTONDBLCLK | WM_RBUTTONDBLCLK | WM_XBUTTONDBLCLK
  | WM_MOUSEWHEEL | WM_MOUSEHWHEEL | WM_MOUSEMOVE | WM_MOUSELEAVE => true
  | _ => false
  end.

(** Some button is held according to the key state in [wParam]. *)
Definition a_button_is_held (wParam : Z) : bool :=
  keystate_has wParam MK_LBUTTON || keystate_has wParam MK_MBUTTON ||
  keystate_has wParam MK_RBUTTON || keystate_has wParam MK_XBUTTON1 ||
  keystate_has wParam MK_XBUTTON2.

(** The type [createMouseEvent] gives the event of a message. *)
Definition event_type (uMsg : Message) (wParam : Z) : MouseEventType :=
  if is_button_up uMsg then ButtonUp
  else if is_button_down uMsg || is_double_click uMsg then ButtonDown
  else match uMsg with
       | WM_MOUSEWHEEL | WM_MOUSEHWHEEL => Wheel
       | WM_MOUSELEAVE => Exited
       | _ => if a_button_is_held wParam then Drag else Move
       end.



(** Every call [m] makes has the property [P]. *)
Definition emits {S A} (P : Call -> Prop) (m : Act S A) : Prop :=
  forall s, Forall P (calls (m s)).

(** The calls that hand input to the widgets. *)
Definition is_input (c : Call) : bool :=
  match c with
  | handle_keyboard_event_grapheme _ | handle_keyboard_event_char _ _
  | handle_keyboard_event_key _ _ _ | handle_mouse_event _ => true
  | _ => false
  end.

(** The input that the message [uMsg] with [wParam] may hand to the
    widgets. *)
Definition input_of (uMsg : Message) (wParam : Z) (c : Call) : Prop :=
  match c with
  | handle_keyboard_event_grapheme g =>
      uMsg = WM_UNICHAR /\ g = wParam /\ 32 <= g /\ g <> UNICODE_NOCHAR
  | handle_keyboard_event_char c full =>
      (uMsg = WM_CHAR /\ full = None /\ 32 <= c) \/
      (uMsg = WM_DEADCHAR /\ full = Some false /\ c <> 0)
  | handle_keyboard_event_key _ _ _ => uMsg = WM_KEYDOWN \/ uMsg = WM_SYSKEYDOWN
  | handle_mouse_event _ => is_mouse_message uMsg = true
  | _ => True
  end.

(** [m] run [n] times in a row. *)
Fixpoint times {S} (n : nat) (m : Act S unit) : Act S unit :=
  match n with
  | O => pure tt
  | Datatypes.S n' => m ;; times n' m
  end.

Definition is_RegisterClassW (c : Call) : bool :=
  match c with RegisterClassW => true | _ => false end.

(** *** The clipboard *)

Definition number_of (p : Call -> bool) (cs : list Call) : nat :=
  List.length (filter p cs).

Definition is_CloseClipboard (c : Call) : bool :=
  match c with CloseClipboard => true | _ => false end.

Definition is_GlobalAlloc (c : Call) : bool :=
  match c with GlobalAlloc _ => true | _ => false end.

Definition is_GlobalFree (handle : Z) (c : Call) : bool :=
  match c with GlobalFree h => h =? handle | _ => false end.

Definition is_GlobalLock (c : Call) : bool :=
  match c with GlobalLock _ => true | _ => false end.

Definition is_GlobalUnlock (c : Call) : bool :=
  match c with GlobalUnlock _ => true | _ => false end.

(** The memory [handle] is given to the clipboard as Unicode text. *)
Definition gives_to_clipboard (handle : Z) (c : Call) : bool :=
  match c with
  | SetClipboardData format h => (format =? CF_UNICODETEXT) && (h =? handle)
  | _ => false
  end.

Definition answered_some {A} (o : option A) : bool :=
  match o with Some _ => true | None => false end.

(** A text format comes before the end of the formats that
    [EnumClipboardFormats] answers. *)
Fixpoint offers_text (answers : list Z) : bool :=
  match answers with
  | [] => false
  | format :: answers' =>
      if format =? 0 then false
      else if is_text_format format then true
      else offers_text answers'
  end.

(** ** A window and answers used in the examples *)

Definition no_buttons : Buttons := mkButtons false false false false false false false.

Definition still_mouse : MouseEvent :=
  mkMouseEvent Move 0 (0, 0) {| wheel_x_raw := 0; wheel_y_raw := 0 |}
    no_buttons no_buttons (0, 0) 0.

(** An open 800x600 window at the origin of the screen, with no message
    handled yet. *)
Definition plain_window : Win32Window :=
  {| base := ready_window;
     win32Window := Some 4660;
     size := Normal;
     resizing := false;
     active := false;
     dpi := 96;
     OSWindowRectangle :=
       {| rect_x := 0; rect_y := -600; rect_width := 800; rect_height := 600 |};
     currentCursor := Cursor_None;
     highSurrogate := 0;
     mouseButtonEvent := still_mouse;
     trackingMouseLeaveEvent := false;
     doubleClickTimePoint := 0;
     doubleClickMaximumDuration := 500000000 |}.

Definition at_rest : Self :=
  {| statics := mkStatics 0 [] false false false false;
     this := plain_window |}.

(** No key is held, the widget tree asks for 100x100 up to 4000x4000 and
    reports every position as plain content. *)
Definition quiet_answers : Answers :=
  {| mem_CREATESTRUCT := fun _ =>
       {| cs_lpCreateParams := 0; cs_x := 0; cs_y := 0; cs_cx := 800; cs_cy := 600 |};
     mem_RECT := fun _ => {| left := 0; top := 0; right := 800; bottom := 600 |};
     mem_WINDOWPOS := fun _ => {| wp_x := 0; wp_y := 0; wp_cx := 800; wp_cy := 600 |};
     env_rcPaint := {| left := 0; top := 0; right := 800; bottom := 600 |};
     env_widget_preferred_size :=
       {| minimum := extent 100 100; maximum := extent 4000 4000 |};
     env_hitbox_test := fun _ => HitBox_Default;
     env_GetKeyState := fun _ => 0;
     env_GetAsyncKeyState := fun _ => 0;
     env_to_KeyboardVirtualKey := fun code _ _ => Key code;
     env_GetDoubleClickTime := 500;
     env_now := 1000000000;
     env_now_double_click := 1000000001;
     env_MouseEvent := still_mouse;
     env_DefWindowProc := 0 |}.

End win32.

(** * A window without a device that is destroyed

    A window whose surface the device cannot present to: [build] leaves
    it in [DeviceLost], and the [teardown] of the next tick drops the
    device reference and leaves it in [NoDevice]. *)
Definition deviceless_window : Window :=
  window (render unsupported_env (window (render unsupported_env fresh_window))).

(** The same window after its operating-system window was destroyed: the
    message handler has seen [WM_DESTROY]. *)
Definition destroyed_deviceless_window : Window :=
  win32.base
    (win32.this
       (win32.after
          (win32.windowProc win32.quiet_answers win32.WM_DESTROY 0 0
             (win32.mkSelf (win32.statics win32.at_rest)
                (win32.set_base deviceless_window win32.plain_window))))).
(** * Reasoning about runs *)

Section Runs.

Context {A B C : Type}.

Lemma bind_returned (m : M A) (k : A -> M B) w w1 t1 a :
  m w = mkRun w1 t1 (Returned a) ->
  bind m k w = match k a w1 with mkRun w2 t2 o => mkRun w2 (t1 ++ t2) o end.
Proof. intros H. unfold bind. rewrite H. reflexivity. Qed.

Lemma bind_raised (m : M A) (k : A -> M B) w w1 t1 f :
  m w = mkRun w1 t1 (Raised f) ->
  bind m k w = mkRun w1 t1 (Raised f).
Proof. intros H. unfold bind. rewrite H. reflexivity. Qed.

Lemma bind_assoc (m : M A) (k1 : A -> M B) (k2 : B -> M C) w :
  bind (bind m k1) k2 w = bind m (fun a => bind (k1 a) k2) w.
Proof.
  unfold bind. destruct (m w) as [w1 t1 [a|f]]; [|reflexivity].
  destruct (k1 a w1) as [w2 t2 [b|f]]; [|reflexivity].
  destruct (k2 b w2) as [w3 t3 o]. rewrite app_assoc. reflexivity.
Qed.

End Runs.

Lemma device_call_run w d e :
  _device w = Some d -> device_call e w = mkRun w [e] (Returned tt).
Proof.
  intros H. unfold device_call, vulkan_device, bind, get, call. cbn.
  rewrite H. reflexivity.
Qed.

Lemma device_call_no_device w e :
  _device w = None ->
  device_call e w = mkRun w [] (Raised (AssertionFailed "_device != nullptr")).
Proof.
  intros H. unfold device_call, vulkan_device, bind, get, call. cbn.
  rewrite H. reflexivity.
Qed.

Lemma for_each_device_call (f : Handle -> Event) l w d :
  _device w = Some d ->
  for_each l (fun x => device_call (f x)) w = mkRun w (map f l) (Returned tt).
Proof.
  intros H. induction l as [|x l IH]; [reflexivity|].
  cbn [for_each map]. erewrite bind_returned by (eapply device_call_run; exact H).
  rewrite IH. reflexivity.
Qed.

Create HintDb run discriminated.
#[local] Hint Resolve for_each_device_call : run.
#[local] Hint Extern 1 (_device _ = Some _) => reflexivity : run.
#[local] Hint Extern 5 (_ = mkRun _ _ _) => reflexivity : run.

(** One step of symbolic execution: reassociate a nested sequence, or run
    the first statement through a lemma of the [run] database. *)
Ltac run_step :=
  match goal with
  | |- context [bind (bind ?m ?k1) ?k2 ?w] => rewrite (bind_assoc m k1 k2 w)
  | |- context [bind ?m ?k ?w] =>
      first
        [ erewrite (@bind_returned _ _ m k w) by (solve [eauto 3 with run])
        | erewrite (@bind_raised _ _ m k w) by (solve [eauto 3 with run]) ]
  end.
Ltac run_all := repeat first [progress cbn | run_step].

(** Open a window record whose device is known. *)
Ltac open_window w H :=
  destruct w as [st dev surf dflt nr ext imgs views fbs fence cur rsc rrs rl rr];
  cbn in H; subst.

(** ** The model on the scenarios of the specification *)

(** A window that starts in [NoDevice] with a device attached, an 800x600
    surface and three swapchain images: [build] reaches [ReadyToRender]
    with three framebuffers. *)
Example build_reaches_ready :
  outcome (build calm_env fresh_window) = Returned tt /\
  state ready_window = ReadyToRender /\
  List.length (swapchainFramebuffers ready_window) = 3%nat.
Proof. repeat split. Qed.

(** A minimized window stays in [NoSwapchain]. *)
Example minimized_window_waits :
  state (window (build minimized_env fresh_window)) = NoSwapchain /\
  trace (build minimized_env (set_state NoSwapchain fresh_window)) =
    [EvGetSurfaceCapabilitiesKHR; EvWidgetPreferredSize].
Proof. split; reflexivity. Qed.

(** An out-of-date swapchain: the tick ends in [SwapchainLost], the next
    tick tears the swapchain down and builds it again, with the device
    reference and the surface handle as they were. *)
Example out_of_date_recovers :
  state (window (render out_of_date_env ready_window)) = SwapchainLost /\
  state (window (render calm_env (window (render out_of_date_env ready_window)))) =
    ReadyToRender /\
  _device (window (render calm_env (window (render out_of_date_env ready_window)))) =
    _device ready_window /\
  intrinsic (window (render calm_env (window (render out_of_date_env ready_window)))) =
    intrinsic ready_window.
Proof. vm_compute. repeat split. Qed.

(** ** The teardown cascade *)

Lemma teardownFramebuffers_run w d :
  _device w = Some d ->
  teardownFramebuffers w =
  mkRun (set_swapchainImageViews [] (set_swapchainFramebuffers [] w))
        (release_framebuffers w) (Returned tt).
Proof.
  intros H. open_window w H. unfold teardownFramebuffers. run_all. reflexivity.
Qed.
#[local] Hint Resolve teardownFramebuffers_run : run.

Lemma teardown_below w :
  State_ge (state w) SwapchainLost = false ->
  teardown w = mkRun w [] (Returned tt).
Proof.
  intros H. unfold teardown. destruct w as [st dev surf dflt nr ext imgs views fbs fence cur rsc rrs rl rr].
  cbn in H. destruct st; try discriminate H; reflexivity.
Qed.

Lemma teardown_run w d :
  _device w = Some d ->
  State_ge (state w) SwapchainLost = true ->
  teardown w =
  mkRun (torn_down w) (swapchain_level_calls w ++ deeper_calls (state w)) (Returned tt).
Proof.
  intros H Hs. open_window w H. cbn in Hs. unfold teardown.
  destruct st; try discriminate Hs; destruct fence; run_all;
    unfold swapchain_level_calls, release_framebuffers; cbn;
    rewrite <- ?app_assoc; reflexivity.
Qed.

Lemma teardown_no_device w :
  _device w = None ->
  State_ge (state w) SwapchainLost = true ->
  teardown w = mkRun w [] (Raised (AssertionFailed "_device")).
Proof.
  intros H Hs. open_window w H. cbn in Hs. unfold teardown.
  destruct st; try discriminate Hs; reflexivity.
Qed.

Lemma swapchain_level_calls_level w :
  Forall (fun e => teardown_level e = Some SwapchainLost) (swapchain_level_calls w).
Proof.
  unfold swapchain_level_calls, wait_idle_calls, release_framebuffers.
  repeat rewrite Forall_app. repeat split;
    try (destruct (renderFinishedFence w));
    try (apply Forall_forall; intros e He; apply in_map_iff in He;
         destruct He as [x [<- _]]; reflexivity);
    repeat constructor.
Qed.

Lemma deeper_calls_level s :
  Forall (within_boundary s) (deeper_calls s).
Proof.
  destruct s; cbn; repeat constructor;
    (eexists; split; [reflexivity | reflexivity]).
Qed.

Lemma teardown_calls_within_boundary w :
  State_ge (state w) SwapchainLost = true ->
  Forall (within_boundary (state w)) (swapchain_level_calls w ++ deeper_calls (state w)).
Proof.
  intros Hs. apply Forall_app. split.
  - eapply Forall_impl; [|apply swapchain_level_calls_level].
    intros e He. exists SwapchainLost. now split.
  - apply deeper_calls_level.
Qed.

Lemma closingWindow_count w :
  List.length (filter is_closingWindow (swapchain_level_calls w ++ deeper_calls (state w))) =
  (if State_eqb (state w) WindowLost then 1 else 0)%nat.
Proof.
  rewrite filter_app, length_app.
  assert (H : filter is_closingWindow (swapchain_level_calls w) = []).
  { pose proof (swapchain_level_calls_level w) as F.
    induction F as [|e l He _ IH]; [reflexivity|].
    cbn. destruct e; cbn in *; try discriminate; exact IH. }
  rewrite H. destruct (state w); reflexivity.
Qed.

(** ** C2: teardown stops at the boundary of the loss marker *)

(** C2.  A window that has lost its device and is then destroyed is not
    closed.  The window is reached by the code itself: a surface the
    device cannot present to gives [DeviceLost], the teardown of the next
    tick drops the device, and [WM_DESTROY] sets [WindowLost].
    [teardown] then fails the assertion of [waitIdle] before anything
    else happens: the state stays [WindowLost], no stage is told of the
    loss, and [closingWindow] is not called. *)
Theorem teardown_without_device_fails :
  state deviceless_window = NoDevice /\
  _device deviceless_window = None /\
  state destroyed_deviceless_window = WindowLost /\
  _device destroyed_deviceless_window = None /\
  outcome (teardown destroyed_deviceless_window) = Raised (AssertionFailed "_device") /\
  state (window (teardown destroyed_deviceless_window)) = WindowLost /\
  filter is_closingWindow (trace (teardown destroyed_deviceless_window)) = [].
Proof. vm_compute. repeat split. Qed.

(** X27.  On a window whose device is attached whenever a cascade has to
    run (the assertion of [waitIdle]), [teardown] returns and sets the
    state to the boundary of the loss marker it started from:
    [SwapchainLost] gives [NoSwapchain], [SurfaceLost] gives [NoSurface],
    [DeviceLost] gives [NoDevice], [WindowLost] gives [NoWindow], any
    other state stays.  [closingWindow] is called exactly once from
    [WindowLost] and never otherwise.  Every call made belongs to a
    boundary at or below the marker, the device reference is dropped only
    from [DeviceLost] on, the surface handle is never changed, and below
    [SwapchainLost] the window is left as it was with no call made. *)
Theorem teardown_stops_at_boundary (w : Window)
    (Hdev : State_ge (state w) SwapchainLost = true -> is_some (_device w) = true) :
  outcome (teardown w) = Returned tt /\
  state (window (teardown w)) = teardown_boundary (state w) /\
  List.length (filter is_closingWindow (trace (teardown w))) =
    (if State_eqb (state w) WindowLost then 1 else 0)%nat /\
  Forall (within_boundary (state w)) (trace (teardown w)) /\
  _device (window (teardown w)) =
    (if State_ge (state w) DeviceLost then None else _device w) /\
  intrinsic (window (teardown w)) = intrinsic w /\
  (State_ge (state w) SwapchainLost = false ->
   window (teardown w) = w /\ trace (teardown w) = []).
Proof.
  destruct (State_ge (state w) SwapchainLost) eqn:Hs.
  - specialize (Hdev eq_refl).
    destruct (_device w) as [d|] eqn:Hd; [|discriminate Hdev].
    rewrite (teardown_run w Hd Hs). cbn [outcome window trace].
    repeat split.
    + apply closingWindow_count.
    + now apply teardown_calls_within_boundary.
    + unfold torn_down. destruct (State_ge (state w) DeviceLost); cbn; [reflexivity|exact Hd].
    + unfold torn_down. destruct (State_ge (state w) DeviceLost); reflexivity.
    + discriminate.
    + discriminate.
  - rewrite (teardown_below w Hs). cbn [outcome window trace].
    repeat split; try constructor.
    + destruct (state w); try discriminate Hs; reflexivity.
    + destruct (state w); try discriminate Hs; reflexivity.
    + destruct (state w); try discriminate Hs; reflexivity.
Qed.

Lemma teardown_stops_at_boundary_witness :
  outcome (teardown (set_state WindowLost ready_window)) = Returned tt /\
  state (window (teardown (set_state WindowLost ready_window))) = NoWindow /\
  List.length (filter is_closingWindow
                 (trace (teardown (set_state WindowLost ready_window)))) = 1%nat.
Proof.
  destruct (teardown_stops_at_boundary (set_state WindowLost ready_window)
              (fun _ => eq_refl)) as [H1 [H2 [H3 _]]].
  exact (conj H1 (conj H2 H3)).
Defined.

(** ** C3: the order of release *)

Lemma in_notify p m : In (EvPipeline p m) (notify m).
Proof. destruct p; cbn; auto 6. Qed.

Lemma notified_iff (s l : State) (m : PipelineMethod) (p : Pipeline) (w : Window) :
  teardown_level (EvPipeline p m) = Some l ->
  l <> SwapchainLost ->
  (State_ge s l = true -> In (EvPipeline p m) (deeper_calls s)) ->
  (In (EvPipeline p m) (swapchain_level_calls w ++ deeper_calls s) <->
   State_ge s l = true).
Proof.
  intros Hl Hne Hin. split.
  - intros H. apply in_app_or in H. destruct H as [H|H].
    + pose proof (swapchain_level_calls_level w) as F.
      rewrite Forall_forall in F. specialize (F _ H). congruence.
    + pose proof (deeper_calls_level s) as F.
      rewrite Forall_forall in F. destruct (F _ H) as [l' [E1 E2]]. congruence.
  - intros H. apply in_or_app. right. auto.
Qed.

(** C3.  On the window that has lost its device and is then destroyed,
    [teardown] is called in the state [WindowLost] and makes no call at
    all: the assertion of [waitIdle] fails first, so that the device is
    not waited for, nothing is released, and no stage is told of any of
    the four losses. *)
Theorem teardown_without_device_releases_nothing :
  State_ge (state destroyed_deviceless_window) SwapchainLost = true /\
  outcome (teardown destroyed_deviceless_window) = Raised (AssertionFailed "_device") /\
  trace (teardown destroyed_deviceless_window) = [] /\
  (forall p m, ~ In (EvPipeline p m) (trace (teardown destroyed_deviceless_window))).
Proof.
  split; [vm_compute; reflexivity|]. split; [vm_compute; reflexivity|].
  assert (E : trace (teardown destroyed_deviceless_window) = [])
    by (vm_compute; reflexivity).
  split; [exact E|]. intros p m. now rewrite E.
Qed.

(** X28.  From a state at or above [SwapchainLost], on a window with its
    device attached, [teardown] returns after making exactly these calls,
    in this order: the wait-idle (a wait without timeout on the
    render-finished fence when the window has one, then the device's
    wait-idle), the [teardownForSwapchainLost] notification of every
    stage, then the release of the two semaphores and the fence, of the
    command buffer, of the framebuffers with their image views, of the
    render pass, and of the swapchain with the depth and colour images;
    whatever follows belongs to the deeper boundaries.  Every stage is
    told [teardownForSwapchainLost], and is told [teardownForSurfaceLost],
    [teardownForDeviceLost], [teardownForWindowLost] exactly when the
    starting state is at or above that marker. *)
Theorem teardown_release_order (w : Window)
    (Hdev : is_some (_device w) = true)
    (Hs : State_ge (state w) SwapchainLost = true) :
  outcome (teardown w) = Returned tt /\
  trace (teardown w) =
    wait_idle_calls w ++ notify teardownForSwapchainLost ++ release_sync ++
    release_command_buffer ++ release_framebuffers w ++ release_render_pass ++
    release_swapchain ++ deeper_calls (state w) /\
  (forall p, In (EvPipeline p teardownForSwapchainLost) (trace (teardown w))) /\
  (forall p, In (EvPipeline p teardownForSurfaceLost) (trace (teardown w)) <->
             State_ge (state w) SurfaceLost = true) /\
  (forall p, In (EvPipeline p teardownForDeviceLost) (trace (teardown w)) <->
             State_ge (state w) DeviceLost = true) /\
  (forall p, In (EvPipeline p teardownForWindowLost) (trace (teardown w)) <->
             State_ge (state w) WindowLost = true).
Proof.
  destruct (_device w) as [d|] eqn:Hd; [|discriminate Hdev].
  rewrite (teardown_run w Hd Hs). cbn [outcome window trace].
  split; [reflexivity|]. split.
  { unfold swapchain_level_calls. now rewrite <- !app_assoc. }
  split.
  { intros p. apply in_or_app. left. unfold swapchain_level_calls.
    apply in_or_app. right. apply in_or_app. left. apply in_notify. }
  split; [|split]; intros p.
  - apply notified_iff with (l := SurfaceLost); [reflexivity|discriminate|].
    intros H. unfold deeper_calls. rewrite H. apply in_or_app. left.
    apply in_or_app. left. apply in_notify.
  - apply notified_iff with (l := DeviceLost); [reflexivity|discriminate|].
    intros H. unfold deeper_calls. rewrite H. apply in_or_app. right.
    apply in_or_app. left. apply in_notify.
  - apply notified_iff with (l := WindowLost); [reflexivity|discriminate|].
    intros H. unfold deeper_calls. rewrite H. apply in_or_app. right.
    apply in_or_app. right. apply in_or_app. left. apply in_notify.
Qed.

Lemma teardown_release_order_witness :
  trace (teardown (set_state SwapchainLost ready_window)) =
    [EvWaitForFences renderFinishedFence_h uint64_max; EvDeviceWaitIdle] ++
    notify teardownForSwapchainLost ++ release_sync ++ release_command_buffer ++
    [EvDestroy (ObjFramebuffer 10%nat); EvDestroy (ObjFramebuffer 11%nat);
     EvDestroy (ObjFramebuffer 12%nat);
     EvDestroy (ObjSwapchainImageView 10%nat);
     EvDestroy (ObjSwapchainImageView 11%nat);
     EvDestroy (ObjSwapchainImageView 12%nat);
     EvDestroy ObjDepthImageView; EvDestroy ObjColorImageView] ++
    release_render_pass ++ release_swapchain.
Proof.
  destruct (teardown_release_order (set_state SwapchainLost ready_window)
              eq_refl eq_refl) as [_ [H _]].
  rewrite H. reflexivity.
Defined.

(** ** C4: outcomes of acquire and present *)

Ltac unfold_results :=
  unfold vk.eSuccess, vk.eNotReady, vk.eTimeout, vk.eSuboptimalKHR,
    vk.eErrorOutOfHostMemory, vk.eErrorOutOfDeviceMemory, vk.eErrorDeviceLost,
    vk.eErrorSurfaceLostKHR, vk.eErrorOutOfDateKHR in *.

(** Lay the sequencing open, so that [cbn] runs up to the next test on
    an unknown value. *)
Ltac unfold_monad :=
  unfold try_catch, bind, resultCheck, device_call, vulkan_device, get, modify,
    call, ret, raise, TTAURI_THROW, LOG_FATAL, tt_assume, tt_assert, or_catch,
    catch_OutOfDateKHRError, catch_SurfaceLostKHRError in *.

(** Decide the comparisons of a result code that block the goal. *)
Ltac split_eqb :=
  repeat match goal with
    | |- context [Z.eqb ?a ?b] =>
        destruct (Z.eqb_spec a b); try lia; cbn
    end.

Lemma acquire_run env w d :
  _device w = Some d ->
  let r := fst (env_acquireNextImageKHR env) in
  let a := acquireNextImageFromSwapchain env w in
  trace a = [EvAcquireNextImageKHR 0 imageAvailableSemaphore] /\
  (r = vk.eSuccess ->
   outcome a = Returned (Some (snd (env_acquireNextImageKHR env))) /\ window a = w) /\
  (r = vk.eSuboptimalKHR \/ r = vk.eErrorOutOfDateKHR ->
   outcome a = Returned None /\ window a = set_state SwapchainLost w) /\
  (r = vk.eErrorSurfaceLostKHR ->
   outcome a = Returned None /\ window a = set_state SurfaceLost w) /\
  (r = vk.eTimeout -> outcome a = Returned None /\ window a = w) /\
  (~ acquire_handled r ->
   outcome a =
     Raised (Thrown (gui_error "Unknown result from acquireNextImageKHR()" r)) /\
   window a = w).
Proof.
  intros H. open_window w H. unfold acquireNextImageFromSwapchain, acquire_handled.
  destruct (env_acquireNextImageKHR env) as [r i]. cbn [fst snd]. cbn zeta.
  repeat split.
  all: unfold_monad; unfold_results; cbn; split_eqb; reflexivity.
Qed.

Lemma present_run env w d idx sem :
  _device w = Some d ->
  let r := env_presentKHR env in
  let p := presentImageToQueue env idx sem w in
  trace p = [EvQueuePresent idx [sem]] /\
  (r = vk.eSuccess -> outcome p = Returned tt /\ window p = w) /\
  (r = vk.eSuboptimalKHR \/ r = vk.eErrorOutOfDateKHR ->
   outcome p = Returned tt /\ window p = set_state SwapchainLost w) /\
  (r = vk.eErrorSurfaceLostKHR ->
   outcome p = Returned tt /\ window p = set_state SurfaceLost w) /\
  (~ present_handled r ->
   outcome p = Raised (Thrown (vk_SystemError r)) /\ window p = w).
Proof.
  intros H. open_window w H. unfold presentImageToQueue, present_handled.
  generalize (env_presentKHR env). intros r. cbn zeta. unfold_results.
  repeat split.
  all: unfold_monad; unfold_results; cbn; split_eqb; reflexivity.
Qed.

(** C4.  On a window with its device attached,
    [acquireNextImageFromSwapchain] polls once with a timeout of zero, and
    [presentImageToQueue] presents once.  For acquire: success returns the
    image index and leaves the window alone; suboptimal and out-of-date
    set [SwapchainLost], surface-lost sets [SurfaceLost], each returning
    no image; timeout returns no image with the window unchanged; every
    other result is thrown.  For present: success returns; suboptimal and
    out-of-date set [SwapchainLost]; surface-lost sets [SurfaceLost];
    every other result is thrown.  Nothing is retried: the trace of each
    is the single call. *)
Theorem acquire_and_present_outcomes
    (env : Env) (w : Window) (idx : Z) (sem : Semaphore)
    (Hdev : is_some (_device w) = true) :
  let ra := fst (env_acquireNextImageKHR env) in
  let a := acquireNextImageFromSwapchain env w in
  let rp := env_presentKHR env in
  let p := presentImageToQueue env idx sem w in
  (trace a = [EvAcquireNextImageKHR 0 imageAvailableSemaphore] /\
   (ra = vk.eSuccess ->
    outcome a = Returned (Some (snd (env_acquireNextImageKHR env))) /\ window a = w) /\
   (ra = vk.eSuboptimalKHR \/ ra = vk.eErrorOutOfDateKHR ->
    outcome a = Returned None /\ window a = set_state SwapchainLost w) /\
   (ra = vk.eErrorSurfaceLostKHR ->
    outcome a = Returned None /\ window a = set_state SurfaceLost w) /\
   (ra = vk.eTimeout -> outcome a = Returned None /\ window a = w) /\
   (~ acquire_handled ra -> is_thrown (outcome a) /\ window a = w)) /\
  (trace p = [EvQueuePresent idx [sem]] /\
   (rp = vk.eSuccess -> outcome p = Returned tt /\ window p = w) /\
   (rp = vk.eSuboptimalKHR \/ rp = vk.eErrorOutOfDateKHR ->
    outcome p = Returned tt /\ window p = set_state SwapchainLost w) /\
   (rp = vk.eErrorSurfaceLostKHR ->
    outcome p = Returned tt /\ window p = set_state SurfaceLost w) /\
   (~ present_handled rp -> is_thrown (outcome p) /\ window p = w)).
Proof.
  destruct (_device w) as [d|] eqn:Hd; [|discriminate Hdev].
  cbv zeta. split.
  - destruct (acquire_run env w Hd) as (Ht & H1 & H2 & H3 & H4 & H5).
    unfold is_thrown. repeat split; try tauto; intros;
      match goal with Hn : ~ _ |- _ => destruct (H5 Hn) as [E E'] end;
      eauto.
  - destruct (present_run env w idx sem Hd) as (Ht & H1 & H2 & H3 & H4).
    unfold is_thrown. repeat split; try tauto; intros;
      match goal with Hn : ~ _ |- _ => destruct (H4 Hn) as [E E'] end;
      eauto.
Qed.

Lemma acquire_and_present_outcomes_witness :
  is_some (_device ready_window) = true /\
  outcome (acquireNextImageFromSwapchain calm_env ready_window) = Returned (Some 1) /\
  outcome (presentImageToQueue calm_env 1 renderFinishedSemaphore ready_window) =
    Returned tt.
Proof.
  split; [reflexivity|].
  destruct (acquire_and_present_outcomes calm_env ready_window 1
              renderFinishedSemaphore eq_refl) as [[_ [Ha _]] [_ [Hp _]]].
  split; [exact (proj1 (Ha eq_refl)) | exact (proj1 (Hp eq_refl))].
Defined.

(** ** Running [build] *)

Lemma buildFramebuffers_loop (e : vk.Extent2D) images w d :
  _device w = Some d ->
  for_each images (fun image =>
    device_call (EvCreateImageView (ObjSwapchainImageView image)) ;;
    views <- get swapchainImageViews ;;
    modify (set_swapchainImageViews (views ++ [image])) ;;
    device_call (EvCreateFramebuffer image e) ;;
    fbs <- get swapchainFramebuffers ;;
    modify (set_swapchainFramebuffers (fbs ++ [image])))%cpp w =
  mkRun (set_swapchainFramebuffers (swapchainFramebuffers w ++ images)
           (set_swapchainImageViews (swapchainImageViews w ++ images) w))
        (framebuffer_calls images e) (Returned tt).
Proof.
  revert w. induction images as [|x l IH]; intros w H.
  - open_window w H. cbn. now rewrite !app_nil_r.
  - cbn [for_each]. open_window w H.
    erewrite bind_returned by reflexivity.
    cbv beta. rewrite IH by reflexivity.
    cbn. now rewrite <- !app_assoc.
Qed.

Lemma buildFramebuffers_run env w d :
  _device w = Some d ->
  let images := env_getSwapchainImagesKHR env in
  buildFramebuffers env w =
  mkRun (set_swapchainFramebuffers (swapchainFramebuffers w ++ images)
           (set_swapchainImageViews (swapchainImageViews w ++ images)
              (set_swapchainImages images w)))
        ([EvCreateImageView ObjDepthImageView; EvCreateImageView ObjColorImageView;
          EvGetSwapchainImagesKHR] ++
         framebuffer_calls images (swapchainImageExtent w))
        (if Nat.eqb (List.length (swapchainImageViews w ++ images)) (List.length images)
         then if Nat.eqb (List.length (swapchainFramebuffers w ++ images))
                         (List.length images)
              then Returned tt
              else Raised (AssertionFailed
                             "swapchainFramebuffers.size() == swapchainImages.size()")
         else Raised (AssertionFailed
                        "swapchainImageViews.size() == swapchainImages.size()")).
Proof.
  intros H images. open_window w H. unfold buildFramebuffers.
  run_all.
  erewrite bind_returned by (eapply buildFramebuffers_loop; reflexivity).
  cbn. fold images.
  destruct (Nat.eqb (List.length (views ++ images)) (List.length images));
    cbn; rewrite ?app_nil_r; [|reflexivity].
  destruct (Nat.eqb (List.length (fbs ++ images)) (List.length images));
    cbn; rewrite ?app_nil_r; reflexivity.
Qed.


(** Decide, one after the other, the tests on unknown numbers that block
    the goal. *)
Ltac decide_tests :=
  repeat match goal with
    | |- context [Z.eqb ?a ?b] => destruct (Z.eqb a b) eqn:?; cbn
    | |- context [Z.ltb ?a ?b] => destruct (Z.ltb a b) eqn:?; cbn
    | |- context [Z.leb ?a ?b] => destruct (Z.leb a b) eqn:?; cbn
    | |- context [float_ltb ?a ?b] => destruct (float_ltb a b) eqn:?; cbn
    end.

Lemma getImageCountAndExtent_run answer w d :
  _device w = Some d ->
  getImageCountAndExtent answer w =
  mkRun w [EvGetSurfaceCapabilitiesKHR]
        (capabilities_outcome (defaultNumberOfSwapchainImages w) answer).
Proof.
  intros H. open_window w H. destruct answer as [r [mn mx [cw ch]]].
  unfold getImageCountAndExtent, capabilities_outcome, extent_is_set.
  unfold_monad. cbn. decide_tests; first [reflexivity | congruence].
Qed.

Lemma readSurfaceExtent_run env w d :
  _device w = Some d ->
  readSurfaceExtent env w =
  match capabilities_outcome (defaultNumberOfSwapchainImages w)
                             (env_capabilities_read env) with
  | Returned r =>
      mkRun (set_swapchainImageExtent (snd r) (set_nrSwapchainImages (fst r) w))
            [EvGetSurfaceCapabilitiesKHR; EvWidgetPreferredSize]
            (extent_verdict (snd r) (env_preferred_size_build env))
  | Raised f =>
      if is_SurfaceLostKHRError f
      then mkRun (set_state SurfaceLost w) [EvGetSurfaceCapabilitiesKHR] (Returned false)
      else mkRun w [EvGetSurfaceCapabilitiesKHR] (Raised f)
  end.
Proof.
  intros H. unfold readSurfaceExtent. unfold bind at 1. unfold try_catch.
  unfold bind at 1. rewrite (getImageCountAndExtent_run _ _ H).
  destruct (capabilities_outcome _ _) as [[n [ew eh]]|f].
  - open_window w H. destruct (env_preferred_size_build env) as [[minw minh] [maxw maxh]].
    unfold extent_verdict, fits_int, narrow_cast_int. unfold_monad. cbn.
    decide_tests; first [reflexivity | congruence].
  - open_window w H. destruct f as [[what c|c|]|what|what]; cbn; try reflexivity.
    unfold catch_SurfaceLostKHRError. decide_tests; reflexivity.
Qed.

Lemma checkSurfaceExtent_run env w d :
  _device w = Some d ->
  checkSurfaceExtent env w =
  match capabilities_outcome (defaultNumberOfSwapchainImages w)
                             (env_capabilities_check env) with
  | Returned r =>
      mkRun w [EvGetSurfaceCapabilitiesKHR]
            (Returned ((fst r =? nrSwapchainImages w) &&
                       vk.Extent2D_eqb (snd r) (swapchainImageExtent w)))
  | Raised f =>
      if is_SurfaceLostKHRError f
      then mkRun (set_state SurfaceLost w) [EvGetSurfaceCapabilitiesKHR] (Returned false)
      else mkRun w [EvGetSurfaceCapabilitiesKHR] (Raised f)
  end.
Proof.
  intros H. unfold checkSurfaceExtent. unfold try_catch.
  unfold bind at 1. rewrite (getImageCountAndExtent_run _ _ H).
  destruct (capabilities_outcome _ _) as [[n e]|f].
  - open_window w H. cbn. reflexivity.
  - open_window w H. destruct f as [[what c|c|]|what|what]; cbn; try reflexivity.
    unfold catch_SurfaceLostKHRError. decide_tests; reflexivity.
Qed.

Lemma buildSwapchain_run env w d :
  _device w = Some d ->
  buildSwapchain env w =
  let create := EvCreateSwapchainKHR (nrSwapchainImages w) (swapchainImageExtent w) in
  if env_createSwapchainKHR env =? vk.eSuccess then
    mkRun w [create; EvCreateImage depthImage (swapchainImageExtent w);
             EvCreateImage colorImage (swapchainImageExtent w)]
          (Returned ReadyToRender)
  else if env_createSwapchainKHR env =? vk.eErrorSurfaceLostKHR then
    mkRun w [create] (Returned SurfaceLost)
  else
    mkRun w [create]
          (Raised (Thrown (gui_error "Unknown result from createSwapchainKHR()"
                                     (env_createSwapchainKHR env)))).
Proof.
  intros H. open_window w H. unfold buildSwapchain. unfold_monad. cbn.
  decide_tests; first [reflexivity | congruence].
Qed.

Lemma build_swapchain_part_run env w d :
  _device w = Some d ->
  build_swapchain_part env w = swapchain_part_result env w.
Proof.
  intros H. unfold build_swapchain_part, swapchain_part_result.
  unfold bind at 1. rewrite (readSurfaceExtent_run env w H).
  destruct (capabilities_outcome _ (env_capabilities_read env)) as [[n e]|f].
  2:{ destruct (is_SurfaceLostKHRError f); open_window w H; reflexivity. }
  cbn [fst snd]. cbv zeta.
  destruct (extent_verdict e (env_preferred_size_build env)) as [[|]|f].
  2:{ open_window w H. reflexivity. }
  2:{ open_window w H. reflexivity. }
  cbn [negb]. cbv iota.
  unfold bind at 1.
  erewrite buildSwapchain_run by (open_window w H; reflexivity).
  cbv zeta.
  destruct (env_createSwapchainKHR env =? vk.eSuccess) eqn:Hcs.
  2:{ destruct (env_createSwapchainKHR env =? vk.eErrorSurfaceLostKHR);
      open_window w H; reflexivity. }
  change (negb (State_eqb ReadyToRender ReadyToRender)) with false. cbv iota.
  unfold bind at 1. erewrite checkSurfaceExtent_run by (open_window w H; reflexivity).
  open_window w H. cbn [defaultNumberOfSwapchainImages set_swapchainImageExtent
                        set_nrSwapchainImages nrSwapchainImages swapchainImageExtent
                        swapchainImageViews swapchainFramebuffers].
  destruct (capabilities_outcome dflt (env_capabilities_check env)) as [[n' e']|f].
  2:{ destruct (is_SurfaceLostKHRError f); reflexivity. }
  cbn [fst snd].
  destruct ((n' =? n) && vk.Extent2D_eqb e' e); [|reflexivity].
  cbn [negb]. cbv iota.
  erewrite bind_returned by reflexivity.
  unfold bind at 1. erewrite buildFramebuffers_run by reflexivity.
  cbn.
  destruct (Nat.eqb (List.length (views ++ env_getSwapchainImagesKHR env))
                    (List.length (env_getSwapchainImagesKHR env))).
  2:{ reflexivity. }
  destruct (Nat.eqb (List.length (fbs ++ env_getSwapchainImagesKHR env))
                    (List.length (env_getSwapchainImagesKHR env))).
  2:{ reflexivity. }
  cbn. unfold finishing_calls. cbn. reflexivity.
Qed.

Lemma prepend_nil {A} (r : Run A) : prepend [] r = r.
Proof. now destruct r. Qed.

(** [build] is [build_result]. *)
Lemma build_run env w : build env w = build_result env w.
Proof.
  unfold build_result, surface_block_result, swapchain_block_result.
  destruct (_device w) as [d|] eqn:Hd.
  - assert (Hp : forall w', _device w' = Some d ->
                 build_swapchain_part env w' = swapchain_part_result env w')
      by (intros; eapply build_swapchain_part_run; eassumption).
    open_window w Hd. destruct st; try reflexivity; unfold build, buildSurface;
      try (destruct (0 <? env_score env));
      repeat first [progress cbn -[build_swapchain_part] | run_step];
      try reflexivity;
      rewrite Hp by reflexivity;
      match goal with |- context [swapchain_part_result ?e ?w] =>
        destruct (swapchain_part_result e w) end; reflexivity.
  - open_window w Hd. destruct st; reflexivity.
Qed.

(** ** Facts about the conversion to float *)

Section FloatConversion.

Import SpecFloat.

(** The mantissa under the shifts of the rounding. *)
Lemma shr_1_m r : 0 <= shr_m r -> shr_m (shr_1 r) = shr_m r / 2.
Proof.
  destruct r as [m rb sb]. cbn. intros H.
  destruct m as [|p|p]; [reflexivity| |lia].
  destruct p as [p|p|]; cbn [shr_m].
  - apply Z.div_unique with (r := 1); lia.
  - apply Z.div_unique with (r := 0); lia.
  - reflexivity.
Qed.

Lemma iter_shr_1_m p : forall r,
  0 <= shr_m r -> shr_m (iter_pos shr_1 p r) = shr_m r / 2 ^ Zpos p.
Proof.
  induction p as [p IH|p IH|]; intros r H; cbn [iter_pos].
  - assert (H1 : 0 <= shr_m (shr_1 r)) by (rewrite shr_1_m by exact H; apply Z.div_pos; lia).
    assert (H2 : 0 <= shr_m (iter_pos shr_1 p (shr_1 r)))
      by (rewrite IH by exact H1; apply Z.div_pos; [exact H1|apply Z.pow_pos_nonneg; lia]).
    rewrite IH by exact H2. rewrite IH by exact H1. rewrite shr_1_m by exact H.
    rewrite !Z.div_div by (try apply Z.pow_pos_nonneg; lia).
    f_equal. replace (Zpos p~1) with (1 + Zpos p + Zpos p) by lia.
    rewrite !Z.pow_add_r by lia. lia.
  - assert (H2 : 0 <= shr_m (iter_pos shr_1 p r))
      by (rewrite IH by exact H; apply Z.div_pos; [exact H|apply Z.pow_pos_nonneg; lia]).
    rewrite IH by exact H2. rewrite IH by exact H.
    rewrite !Z.div_div by (try apply Z.pow_pos_nonneg; lia).
    f_equal. replace (Zpos p~0) with (Zpos p + Zpos p) by lia.
    rewrite !Z.pow_add_r by lia. lia.
  - rewrite shr_1_m by exact H. reflexivity.
Qed.

Lemma digits2_pos_bound q : 2 ^ (Zpos (digits2_pos q) - 1) <= Zpos q.
Proof.
  induction q as [q IH|q IH|]; cbn [digits2_pos].
  - rewrite Pos2Z.inj_succ. replace (Z.succ (Zpos (digits2_pos q)) - 1)
      with (1 + (Zpos (digits2_pos q) - 1)) by lia.
    rewrite Z.pow_add_r by lia. lia.
  - rewrite Pos2Z.inj_succ. replace (Z.succ (Zpos (digits2_pos q)) - 1)
      with (1 + (Zpos (digits2_pos q) - 1)) by lia.
    rewrite Z.pow_add_r by lia. lia.
  - cbn. lia.
Qed.

(** Shifting out fewer bits than the mantissa has leaves a positive mantissa. *)
Lemma shr_positive q rb sb e n :
  n < Zpos (digits2_pos q) ->
  0 < shr_m (fst (shr (Build_shr_record (Zpos q) rb sb) e n)).
Proof.
  intros H. unfold shr. destruct n as [|p|p]; cbn [fst shr_m]; try lia.
  rewrite iter_shr_1_m by (cbn; lia). cbn [shr_m].
  apply Z.div_str_pos. split; [apply Z.pow_pos_nonneg; lia|].
  pose proof (digits2_pos_bound q) as B.
  assert (2 ^ Zpos p <= 2 ^ (Zpos (digits2_pos q) - 1))
    by (apply Z.pow_le_mono_r; lia).
  lia.
Qed.

Lemma shr_fexp_positive prec emax q e l :
  0 < prec -> 3 - emax - prec - e < 1 ->
  0 < shr_m (fst (shr_fexp prec emax (Zpos q) e l)).
Proof.
  intros Hp He. unfold shr_fexp, shr_record_of_loc.
  assert (H : fexp prec emax (Zdigits2 (Zpos q) + e) - e < Zpos (digits2_pos q)).
  { unfold fexp, emin. cbn [Zdigits2]. lia. }
  destruct l as [|[| |]]; apply shr_positive; exact H.
Qed.

Lemma shr_exponent r e n : e <= snd (shr r e n).
Proof. unfold shr. destruct n; cbn; lia. Qed.

Lemma round_nearest_even_positive m l : 0 < m -> 0 < round_nearest_even m l.
Proof.
  intros H. unfold round_nearest_even.
  destruct l as [|[| |]]; try destruct (Z.even m); lia.
Qed.

Lemma binary_round_aux_positive prec emax q e :
  0 < prec -> 3 - emax - prec - e < 1 ->
  SFltb (S754_zero false) (binary_round_aux prec emax false (Zpos q) e loc_Exact) = true.
Proof.
  intros Hp He. unfold binary_round_aux.
  pose proof (@shr_fexp_positive prec emax q e loc_Exact Hp He) as H1.
  pose proof (shr_exponent (shr_record_of_loc (Zpos q) loc_Exact) e
                (fexp prec emax (Zdigits2 (Zpos q) + e) - e)) as E1.
  fold (shr_fexp prec emax (Zpos q) e loc_Exact) in E1.
  destruct (shr_fexp prec emax (Zpos q) e loc_Exact) as [mrs' e'].
  cbn [fst snd] in H1, E1.
  pose proof (@round_nearest_even_positive (shr_m mrs') (loc_of_shr_record mrs') H1) as H2.
  destruct (round_nearest_even (shr_m mrs') (loc_of_shr_record mrs')) as [|q2|q2];
    try lia.
  pose proof (@shr_fexp_positive prec emax q2 e' loc_Exact Hp ltac:(lia)) as H3.
  destruct (shr_fexp prec emax (Zpos q2) e' loc_Exact) as [mrs'' e''].
  cbn [fst] in H3.
  destruct (shr_m mrs'') as [|q3|q3]; try lia.
  destruct (e'' <=? emax - prec); reflexivity.
Qed.

Lemma binary_normalize_positive x :
  0 < x ->
  SFltb (S754_zero false) (binary_normalize 24 128 x 0 false) = true.
Proof.
  intros H. destruct x as [|m|m]; try lia. unfold binary_normalize, binary_round.
  destruct (shl_align m 0 (fexp 24 128 (Zpos (digits2_pos m) + 0))) as [mz ez] eqn:E.
  apply binary_round_aux_positive; [lia|].
  unfold shl_align in E.
  destruct (fexp 24 128 (Zpos (digits2_pos m) + 0) - 0) as [|d|d] eqn:D;
    injection E as _ <-; try lia.
  unfold fexp, emin in *. lia.
Qed.

End FloatConversion.

(** Zero is below every positive size. *)
Lemma zero_below_positive x :
  0 < x -> float_ltb (float_of_int 0) (float_of_int x) = true.
Proof. apply binary_normalize_positive. Qed.

(** ** Facts about the verdicts *)

Lemma reportable_is_set e : reportable e -> extent_is_set e = true.
Proof.
  unfold reportable, extent_is_set, int_max, uint32_max. intros [Hw Hh].
  destruct (Z.eqb_spec (vk.width e) 4294967295); [lia|].
  destruct (Z.eqb_spec (vk.height e) 4294967295); [lia|]. reflexivity.
Qed.

Lemma capabilities_outcome_ok dflt answer :
  fst answer = vk.eSuccess ->
  extent_is_set (vk.currentExtent (snd answer)) = true ->
  capabilities_outcome dflt answer =
  Returned (clamp dflt (vk.minImageCount (snd answer))
                  (if vk.maxImageCount (snd answer) =? 0 then 10
                   else vk.maxImageCount (snd answer)),
            vk.currentExtent (snd answer)).
Proof.
  intros H1 H2. unfold capabilities_outcome. rewrite H1, H2. reflexivity.
Qed.

Lemma fits_int_reportable e :
  reportable e -> fits_int (vk.width e) = true /\ fits_int (vk.height e) = true.
Proof.
  unfold reportable, fits_int. intros [Hw Hh]. split; apply andb_true_iff; lia.
Qed.

Lemma extent_verdict_out_of_range e p :
  reportable e -> below_minimum e p \/ above_maximum e p ->
  extent_verdict e p = Returned false.
Proof.
  intros Hr Ho. destruct (fits_int_reportable Hr) as [Fw Fh].
  unfold extent_verdict, below_minimum, above_maximum in *. rewrite Fw, Fh. cbn.
  destruct (float_ltb (float_of_int (vk.width e)) (vec_width (minimum p)));
    [reflexivity|].
  destruct (float_ltb (float_of_int (vk.height e)) (vec_height (minimum p)));
    [reflexivity|].
  destruct (float_ltb (vec_width (maximum p)) (float_of_int (vk.width e)));
    [reflexivity|].
  destruct (float_ltb (vec_height (maximum p)) (float_of_int (vk.height e)));
    [reflexivity|].
  destruct Ho as [[H|H]|[H|H]]; discriminate H.
Qed.

Lemma extent_verdict_in_range e p :
  reportable e -> ~ below_minimum e p -> ~ above_maximum e p ->
  extent_verdict e p = Returned true.
Proof.
  intros Hr Hb Ha. destruct (fits_int_reportable Hr) as [Fw Fh].
  unfold extent_verdict, below_minimum, above_maximum in *. rewrite Fw, Fh. cbn.
  destruct (float_ltb (float_of_int (vk.width e)) (vec_width (minimum p)));
    [exfalso; apply Hb; now left|].
  destruct (float_ltb (float_of_int (vk.height e)) (vec_height (minimum p)));
    [exfalso; apply Hb; now right|].
  destruct (float_ltb (vec_width (maximum p)) (float_of_int (vk.width e)));
    [exfalso; apply Ha; now left|].
  destruct (float_ltb (vec_height (maximum p)) (float_of_int (vk.height e)));
    [exfalso; apply Ha; now right|].
  reflexivity.
Qed.

(** When [build] gets as far as the swapchain block, it is the calls
    made on the way followed by the swapchain block on a window in state
    [NoSwapchain] that differs from [w] in the state and the surface
    handle at most. *)
Lemma build_reaches_swapchain_block env w :
  reaches_swapchain_step env w ->
  exists pre w0,
    build env w = prepend pre (swapchain_part_result env w0) /\
    Forall (fun e => is_allocation e = false) pre /\
    w0 = set_state NoSwapchain (set_intrinsic (intrinsic w0) w).
Proof.
  intros [Hdev Hst]. rewrite build_run.
  destruct (_device w) as [d|] eqn:Hd; [|discriminate Hdev].
  unfold build_result, surface_block_result, swapchain_block_result.
  destruct Hst as [Hs|[[Hs|Hs] Hsc]]; rewrite Hs.
  - rewrite Hd. exists [], w. rewrite prepend_nil. split; [reflexivity|].
    split; [constructor|]. open_window w Hd. cbn in Hs. now subst.
  - rewrite Hd. apply Z.ltb_lt in Hsc. rewrite Hsc.
    eexists. eexists. split; [reflexivity|].
    split; [repeat constructor|]. open_window w Hd. reflexivity.
  - rewrite Hd. cbn [set_state _device]. rewrite Hd.
    apply Z.ltb_lt in Hsc. rewrite Hsc.
    eexists. eexists. split.
    { unfold prepend at 1 2. cbn [window trace outcome]. rewrite app_assoc.
      reflexivity. }
    split; [repeat constructor|]. open_window w Hd. reflexivity.
Qed.

(** ** C5: an extent outside the preferred size *)

(** [build] does not decline every extent that is zero or lies above the
    maximum.  A zero-area extent is not below a minimum of zero: the
    swapchain is created for it, with its images, views, framebuffers and
    synchronisation objects.  And an extent one pixel above the maximum,
    at a width whose float is the float of the maximum, is not found too
    large. *)
Lemma build_accepts_what_the_tests_let_pass :
  (vk.currentExtent (snd (env_capabilities_read no_minimum_env)) = extent 0 0 /\
   outcome (build no_minimum_env fresh_window) = Returned tt /\
   state (window (build no_minimum_env fresh_window)) = ReadyToRender /\
   In (EvCreateSwapchainKHR 3 (extent 0 0)) (trace (build no_minimum_env fresh_window))) /\
  (vk.width (maximum (env_preferred_size_build beyond_float_env)) <
     vk.width (vk.currentExtent (snd (env_capabilities_read beyond_float_env))) /\
   outcome (build beyond_float_env fresh_window) = Returned tt /\
   state (window (build beyond_float_env fresh_window)) = ReadyToRender /\
   In (EvCreateSwapchainKHR 3 (extent 16777217 600))
      (trace (build beyond_float_env fresh_window))).
Proof.
  split.
  - split; [reflexivity|]. split; [vm_compute; reflexivity|].
    split; [vm_compute; reflexivity|].
    vm_compute. repeat (try (left; reflexivity); right).
  - split; [cbn; lia|]. split; [vm_compute; reflexivity|].
    split; [vm_compute; reflexivity|].
    vm_compute. repeat (try (left; reflexivity); right).
Qed.

(** C5, amended.  Let [build] get as far as reading the surface extent on
    a window with its device attached, and let the surface report an
    extent that the tests of [readSurfaceExtent], which compare in float,
    find below the widget tree's minimum preferred size or above its
    maximum in some direction; an extent with a side of zero is such an
    extent whenever the minimum is positive in that direction.  Then
    [build] returns without error, the state is [NoSwapchain], and the
    call created no swapchain, attachment image, image view, framebuffer,
    render pass, command buffer, semaphore or fence. *)
Theorem build_declines_out_of_range_extent (env : Env) (w : Window)
    (Hreach : reaches_swapchain_step env w)
    (Hok : fst (env_capabilities_read env) = vk.eSuccess)
    (Hrep : reportable (vk.currentExtent (snd (env_capabilities_read env))))
    (Hout : below_minimum (vk.currentExtent (snd (env_capabilities_read env)))
                          (env_preferred_size_build env) \/
            above_maximum (vk.currentExtent (snd (env_capabilities_read env)))
                          (env_preferred_size_build env) \/
            (vk.width (vk.currentExtent (snd (env_capabilities_read env))) = 0 /\
             0 < vk.width (minimum (env_preferred_size_build env))) \/
            (vk.height (vk.currentExtent (snd (env_capabilities_read env))) = 0 /\
             0 < vk.height (minimum (env_preferred_size_build env)))) :
  outcome (build env w) = Returned tt /\
  state (window (build env w)) = NoSwapchain /\
  Forall (fun e => is_allocation e = false) (trace (build env w)).
Proof.
  assert (Hout' : below_minimum (vk.currentExtent (snd (env_capabilities_read env)))
                                (env_preferred_size_build env) \/
                  above_maximum (vk.currentExtent (snd (env_capabilities_read env)))
                                (env_preferred_size_build env)).
  { destruct Hout as [H|[H|[[H0 Hp]|[H0 Hp]]]]; [now left|now right| |].
    - left. left. rewrite H0. apply zero_below_positive, Hp.
    - left. right. rewrite H0. apply zero_below_positive, Hp. }
  destruct (build_reaches_swapchain_block Hreach) as (pre & w0 & Hb & Hpre & _).
  rewrite Hb. unfold swapchain_part_result.
  rewrite (capabilities_outcome_ok _ _ Hok (reportable_is_set Hrep)).
  rewrite (extent_verdict_out_of_range Hrep Hout'). cbn.
  repeat split. apply Forall_app. split; [exact Hpre|repeat constructor].
Qed.

Lemma build_declines_out_of_range_extent_witness :
  outcome (build minimized_env fresh_window) = Returned tt /\
  state (window (build minimized_env fresh_window)) = NoSwapchain /\
  Forall (fun e => is_allocation e = false) (trace (build minimized_env fresh_window)).
Proof.
  apply (build_declines_out_of_range_extent (env := minimized_env) (w := fresh_window)).
  - split; [reflexivity|]. right. split; [right; reflexivity|reflexivity].
  - reflexivity.
  - unfold reportable, int_max. cbn. lia.
  - right. right. left. cbn. lia.
Defined.

(** ** C6: the extent changed while the swapchain was created *)

Lemma Extent2D_eqb_eq a b : vk.Extent2D_eqb a b = true <-> a = b.
Proof.
  destruct a as [aw ah], b as [bw bh]. unfold vk.Extent2D_eqb. cbn.
  rewrite andb_true_iff, !Z.eqb_eq. split.
  - intros [-> ->]. reflexivity.
  - intros E. injection E as -> ->. split; reflexivity.
Qed.

Lemma same_count_and_extent_false n' n e' e :
  n' <> n \/ e' <> e -> (n' =? n) && vk.Extent2D_eqb e' e = false.
Proof.
  intros [H|H].
  - apply Z.eqb_neq in H. now rewrite H.
  - destruct (vk.Extent2D_eqb e' e) eqn:E.
    + apply Extent2D_eqb_eq in E. contradiction.
    + apply andb_false_r.
Qed.

(** C6.  Let [build] get as far as the swapchain block on a window with
    its device attached, let the surface extent lie within the preferred
    size and the swapchain be created successfully.  If the surface
    capabilities read again right after that give another image count or
    another extent than the swapchain was created with, [build] destroys
    the swapchain and the depth and colour images it has just created,
    builds nothing further, and returns with the state [NoSwapchain]. *)
Theorem build_backs_out_of_changed_extent (env : Env) (w : Window)
    (Hreach : reaches_swapchain_step env w)
    (Hok : fst (env_capabilities_read env) = vk.eSuccess)
    (Hrep : reportable (vk.currentExtent (snd (env_capabilities_read env))))
    (Hmin : ~ below_minimum (vk.currentExtent (snd (env_capabilities_read env)))
                            (env_preferred_size_build env))
    (Hmax : ~ above_maximum (vk.currentExtent (snd (env_capabilities_read env)))
                            (env_preferred_size_build env))
    (Hcreate : env_createSwapchainKHR env = vk.eSuccess)
    (Hok2 : fst (env_capabilities_check env) = vk.eSuccess)
    (Hset2 : extent_is_set (vk.currentExtent (snd (env_capabilities_check env))) = true)
    (Hdiff : image_count w (snd (env_capabilities_check env)) <>
             image_count w (snd (env_capabilities_read env)) \/
             vk.currentExtent (snd (env_capabilities_check env)) <>
             vk.currentExtent (snd (env_capabilities_read env))) :
  outcome (build env w) = Returned tt /\
  state (window (build env w)) = NoSwapchain /\
  exists pre,
    Forall (fun e => is_allocation e = false) pre /\
    trace (build env w) =
      pre ++
      swapchain_creation_calls (image_count w (snd (env_capabilities_read env)))
                               (vk.currentExtent (snd (env_capabilities_read env))) ++
      [EvGetSurfaceCapabilitiesKHR] ++ release_swapchain.
Proof.
  destruct (build_reaches_swapchain_block Hreach) as (pre & w0 & Hb & Hpre & Hw0).
  assert (Hd : defaultNumberOfSwapchainImages w0 = defaultNumberOfSwapchainImages w)
    by (rewrite Hw0; reflexivity).
  assert (Hst : state w0 = NoSwapchain) by (rewrite Hw0; reflexivity).
  rewrite Hb. unfold swapchain_part_result. rewrite Hd.
  rewrite (capabilities_outcome_ok _ _ Hok (reportable_is_set Hrep)).
  rewrite (extent_verdict_in_range Hrep Hmin Hmax).
  rewrite Hcreate. cbn [Z.eqb vk.eSuccess]. cbv iota.
  rewrite (capabilities_outcome_ok _ _ Hok2 Hset2).
  unfold image_count in Hdiff.
  rewrite (same_count_and_extent_false Hdiff).
  cbn [prepend window trace outcome state set_state set_swapchainImageExtent
         set_nrSwapchainImages].
  split; [reflexivity|]. split; [exact Hst|].
  exists pre. split; [exact Hpre|]. unfold image_count.
  now rewrite <- !app_assoc.
Qed.

Lemma build_backs_out_of_changed_extent_witness :
  outcome (build racing_env fresh_window) = Returned tt /\
  state (window (build racing_env fresh_window)) = NoSwapchain /\
  exists pre,
    Forall (fun e => is_allocation e = false) pre /\
    trace (build racing_env fresh_window) =
      pre ++ swapchain_creation_calls 3 (extent 800 600) ++
      [EvGetSurfaceCapabilitiesKHR] ++ release_swapchain.
Proof.
  apply (build_backs_out_of_changed_extent (env := racing_env) (w := fresh_window)).
  - split; [reflexivity|]. right. split; [right; reflexivity|reflexivity].
  - reflexivity.
  - unfold reportable, int_max. cbn. lia.
  - intros [H|H]; vm_compute in H; discriminate H.
  - intros [H|H]; vm_compute in H; discriminate H.
  - reflexivity.
  - reflexivity.
  - reflexivity.
  - right. cbn. discriminate.
Defined.

(** ** C7: hard failures and transient conditions in [build] *)

(** The driver reports an unexpected error when the swapchain is created:
    [build] throws, and the state is [NoSwapchain], which is no loss
    marker. *)
Lemma hard_failure_without_loss_marker :
  env_createSwapchainKHR out_of_memory_env = vk.eErrorOutOfDeviceMemory /\
  outcome (build out_of_memory_env fresh_window) =
    Raised (Thrown (gui_error "Unknown result from createSwapchainKHR()"
                              vk.eErrorOutOfDeviceMemory)) /\
  state (window (build out_of_memory_env fresh_window)) = NoSwapchain /\
  is_lost_marker (state (window (build out_of_memory_env fresh_window))) = false.
Proof. rewrite build_run. repeat split. Qed.

(** C7, amended.  On a window with its device attached: a created surface
    that scores zero or less makes [build] return with the state
    [DeviceLost]; once the extent is read and the tests of
    [readSurfaceExtent], which compare in float, find it within the
    preferred size, a swapchain creation that reports surface-lost makes
    [build] return with the state [SurfaceLost], while any other result
    than success is thrown as a [gui_error] and the state stays
    [NoSwapchain]; an extent these tests find outside the preferred size
    (the transient condition) makes [build] return without error with the
    state [NoSwapchain]. *)
Theorem build_failure_policy (env : Env) (w : Window)
    (Hdev : is_some (_device w) = true) :
  (state w = NoSurface \/ state w = NoDevice ->
   env_score env <= 0 ->
   outcome (build env w) = Returned tt /\
   state (window (build env w)) = DeviceLost) /\
  (reaches_swapchain_step env w ->
   fst (env_capabilities_read env) = vk.eSuccess ->
   reportable (vk.currentExtent (snd (env_capabilities_read env))) ->
   let e := vk.currentExtent (snd (env_capabilities_read env)) in
   let p := env_preferred_size_build env in
   let r := env_createSwapchainKHR env in
   (below_minimum e p \/ above_maximum e p ->
    outcome (build env w) = Returned tt /\
    state (window (build env w)) = NoSwapchain) /\
   (~ below_minimum e p -> ~ above_maximum e p ->
    (r = vk.eErrorSurfaceLostKHR ->
     outcome (build env w) = Returned tt /\
     state (window (build env w)) = SurfaceLost) /\
    (r <> vk.eSuccess -> r <> vk.eErrorSurfaceLostKHR ->
     outcome (build env w) =
       Raised (Thrown (gui_error "Unknown result from createSwapchainKHR()" r)) /\
     state (window (build env w)) = NoSwapchain))).
Proof.
  split.
  - intros Hst Hsc. rewrite build_run.
    destruct (_device w) as [d|] eqn:Hd; [|discriminate Hdev].
    assert (Hlt : (0 <? env_score env) = false) by (apply Z.ltb_ge; exact Hsc).
    unfold build_result, surface_block_result.
    destruct Hst as [Hs|Hs]; rewrite Hs, Hd; cbn [set_state _device];
      rewrite ?Hd, Hlt; split; reflexivity.
  - intros Hreach Hok Hrep e p r. subst e p r.
    destruct (build_reaches_swapchain_block Hreach) as (pre & w0 & Hb & Hpre & Hw0).
    assert (Hst : state w0 = NoSwapchain) by (rewrite Hw0; reflexivity).
    rewrite Hb. unfold swapchain_part_result.
    rewrite (capabilities_outcome_ok _ _ Hok (reportable_is_set Hrep)).
    split.
    + intros Hout. rewrite (extent_verdict_out_of_range Hrep Hout).
      split; reflexivity.
    + intros Hmin Hmax. rewrite (extent_verdict_in_range Hrep Hmin Hmax). split.
      * intros Hr. rewrite Hr. split; reflexivity.
      * intros H1 H2. apply Z.eqb_neq in H1, H2. rewrite H1, H2.
        split; [reflexivity|exact Hst].
Qed.

Lemma build_failure_policy_witness :
  is_some (_device fresh_window) = true /\
  outcome (build unsupported_env fresh_window) = Returned tt /\
  state (window (build unsupported_env fresh_window)) = DeviceLost.
Proof.
  split; [reflexivity|].
  apply (proj1 (build_failure_policy unsupported_env fresh_window eq_refl)).
  - right. reflexivity.
  - cbn. lia.
Defined.

(** ** C9: idempotence *)

(** Case analysis on the innermost test that blocks the goal. *)
Ltac destruct_scrutinee :=
  match goal with
  | |- context [match ?x with _ => _ end] =>
      lazymatch x with
      | context [match _ with _ => _ end] => fail
      | _ => destruct x eqn:?
      end
  end.

Ltac set_projections :=
  cbn [state window trace outcome prepend set_state set_swapchainImageExtent
       set_nrSwapchainImages set_intrinsic set_renderFinishedFence
       with_framebuffers set_swapchainFramebuffers set_swapchainImageViews
       set_swapchainImages] in *.

(** Case analysis on the innermost test that blocks hypothesis [H]. *)
Ltac destruct_scrutinee_in H :=
  match type of H with
  | context [match ?x with _ => _ end] =>
      lazymatch x with
      | context [match _ with _ => _ end] => fail
      | _ => destruct x eqn:?
      end
  end.

Ltac rewrite_known :=
  match goal with
  | H : ?x = _ |- context [?x] => rewrite H
  end.

Lemma swapchain_part_settled env w d :
  _device w = Some d ->
  state w = NoSwapchain ->
  outcome (swapchain_part_result env w) = Returned tt ->
  is_lost_marker (state (window (swapchain_part_result env w))) = false ->
  outcome (build_result env (window (swapchain_part_result env w))) = Returned tt /\
  state (window (build_result env (window (swapchain_part_result env w)))) =
  state (window (swapchain_part_result env w)).
Proof.
  intros Hd Hst Hout Hlost. open_window w Hd. cbn in Hst. subst st.
  unfold swapchain_part_result in *.
  cbn [defaultNumberOfSwapchainImages swapchainImageViews swapchainFramebuffers] in *.
  repeat destruct_scrutinee_in Hout;
    cbn [outcome window state set_state] in Hout, Hlost;
    try discriminate Hout; try discriminate Hlost;
    cbn [window]; try (split; reflexivity);
    unfold build_result, swapchain_block_result, swapchain_part_result;
    cbn -[capabilities_outcome extent_verdict is_SurfaceLostKHRError Z.eqb];
    repeat (rewrite_known;
            cbn -[capabilities_outcome extent_verdict is_SurfaceLostKHRError Z.eqb]);
    split; reflexivity.
Qed.

Lemma build_settled env w :
  outcome (build env w) = Returned tt ->
  is_lost_marker (state (window (build env w))) = false ->
  outcome (build env (window (build env w))) = Returned tt /\
  state (window (build env (window (build env w)))) = state (window (build env w)).
Proof.
  rewrite !build_run.
  destruct (_device w) as [d|] eqn:Hd.
  - pose proof (fun w' H1 H2 => @swapchain_part_settled env w' d H1 H2) as Hs.
    open_window w Hd.
    match goal with |- context [build_result env ?w] =>
      remember (build_result env w) as r1 eqn:Hr end.
    intros Hout Hlost.
    unfold build_result, surface_block_result, swapchain_block_result in Hr.
    destruct st; cbn [state _device set_state set_intrinsic] in Hr;
      try (subst r1; split; reflexivity).
    + (* NoDevice *)
      destruct (0 <? env_score env); [|subst r1; discriminate Hlost].
      subst r1. cbn [prepend window outcome trace] in Hout, Hlost |- *.
      apply Hs; [reflexivity|reflexivity|exact Hout|exact Hlost].
    + (* NoSurface *)
      destruct (0 <? env_score env); [|subst r1; discriminate Hlost].
      subst r1. cbn [prepend window outcome trace] in Hout, Hlost |- *.
      apply Hs; [reflexivity|reflexivity|exact Hout|exact Hlost].
    + (* NoSwapchain *)
      subst r1. apply Hs; [reflexivity|reflexivity|exact Hout|exact Hlost].
  - open_window w Hd. intros Hout Hlost.
    destruct st; try (split; reflexivity); discriminate Hout.
Qed.

Lemma swapchain_part_keeps env w :
  _device (window (swapchain_part_result env w)) = _device w /\
  defaultNumberOfSwapchainImages (window (swapchain_part_result env w)) =
    defaultNumberOfSwapchainImages w.
Proof.
  unfold swapchain_part_result. destruct w.
  repeat destruct_scrutinee; split; reflexivity.
Qed.

(** The swapchain block ends in [SurfaceLost] by the answers of the
    outside world alone. *)
Lemma swapchain_part_surface_lost env w w' :
  defaultNumberOfSwapchainImages w' = defaultNumberOfSwapchainImages w ->
  state w = NoSwapchain ->
  outcome (swapchain_part_result env w) = Returned tt ->
  state (window (swapchain_part_result env w)) = SurfaceLost ->
  outcome (swapchain_part_result env w') = Returned tt /\
  state (window (swapchain_part_result env w')) = SurfaceLost.
Proof.
  intros Hd Hst Hout Hs. unfold swapchain_part_result in *. rewrite Hd.
  repeat destruct_scrutinee_in Hs; set_projections;
    try discriminate Hs; try congruence; split; reflexivity.
Qed.

Lemma surface_lost_reaches env w :
  State_ge (state w) SwapchainLost = false ->
  outcome (build env w) = Returned tt ->
  state (window (build env w)) = SurfaceLost ->
  reaches_swapchain_step env w.
Proof.
  rewrite build_run. unfold reaches_swapchain_step.
  unfold build_result, surface_block_result, swapchain_block_result.
  intros Hstart Hout Hs.
  destruct (state w) eqn:Hst; try discriminate Hstart;
    set_projections; try congruence;
    destruct (_device w) as [d|] eqn:Hd; set_projections;
    try congruence; try discriminate Hout;
    cbn [set_state _device] in *; rewrite ?Hd in *;
    try (split; [reflexivity|now left]);
    destruct (Z.ltb_spec 0 (env_score env)); set_projections;
    try congruence; try discriminate Hs;
    (split; [reflexivity|right; split; [tauto|assumption]]).
Qed.

(** After [build] has failed on a surface the device cannot present to,
    tearing down and building again does not come back to the state the
    first [build] reached: the device reference is gone.  The same holds
    when the build after the teardown is the one that finds the surface
    unsupported; and a [build] entered in a loss marker does nothing, so
    that the build after the teardown is the first to change the
    state. *)
Lemma rebuild_after_device_loss_differs :
  (outcome (build unsupported_env fresh_window) = Returned tt /\
   state (window (build unsupported_env fresh_window)) = DeviceLost /\
   outcome (build_teardown_build unsupported_env fresh_window) = Returned tt /\
   state (window (build_teardown_build unsupported_env fresh_window)) = NoDevice /\
   state (window (build_teardown_build unsupported_env fresh_window)) <>
   state (window (build unsupported_env fresh_window))) /\
  (let env := with_score 0 surface_lost_env in
   let w := window (build minimized_env fresh_window) in
   state w = NoSwapchain /\
   state (window (build env w)) = SurfaceLost /\
   state (window (build_teardown_build env w)) = DeviceLost) /\
  (let w := set_state SwapchainLost ready_window in
   state (window (build calm_env w)) = SwapchainLost /\
   state (window (build_teardown_build calm_env w)) = ReadyToRender).
Proof.
  split; [repeat split; discriminate|].
  split; vm_compute; repeat split.
Qed.

(** C9, amended.  [build] called in the state [ReadyToRender] changes
    nothing and makes no call; [teardown] called in a state below
    [SwapchainLost] changes nothing and makes no call; and when [build]
    is entered in a state below [SwapchainLost] and returns, [build();
    teardown(); build()] under the same external conditions returns too,
    in the state the first [build] reached, unless one of the two builds
    ends in [DeviceLost]. *)
Theorem build_teardown_idempotent (env : Env) (w : Window) :
  (state w = ReadyToRender -> build env w = mkRun w [] (Returned tt)) /\
  (State_ge (state w) SwapchainLost = false -> teardown w = mkRun w [] (Returned tt)) /\
  (State_ge (state w) SwapchainLost = false ->
   outcome (build env w) = Returned tt ->
   state (window (build env w)) <> DeviceLost ->
   state (window (build_teardown_build env w)) <> DeviceLost ->
   outcome (build_teardown_build env w) = Returned tt /\
   state (window (build_teardown_build env w)) = state (window (build env w))).
Proof.
  split; [|split].
  - intros H. rewrite build_run. unfold build_result. now rewrite H.
  - apply teardown_below.
  - intros Hstart Hout Hne1 Hne2.
    destruct (is_lost_marker (state (window (build env w)))) eqn:Hlost.
    2:{ destruct (build_settled env w Hout Hlost) as [H1 H2].
        unfold build_teardown_build.
        destruct (build env w) as [w1 t1 o1] eqn:Hb. cbn [window outcome] in *.
        subst o1.
        erewrite bind_returned by exact Hb.
        erewrite bind_returned by (apply teardown_below; exact Hlost).
        destruct (build env w1) as [w2 t2 o2]. cbn in *. split; assumption. }
    assert (Hs : state (window (build env w)) = SurfaceLost).
    { revert Hlost Hne1 Hout. rewrite build_run.
      unfold build_result, surface_block_result, swapchain_block_result.
      unfold is_lost_marker.
      destruct (state w) eqn:Hst; try discriminate Hstart; set_projections;
        try (rewrite Hst; discriminate);
        repeat destruct_scrutinee; set_projections;
        try (rewrite Hst; discriminate); try discriminate; try congruence;
        unfold swapchain_part_result;
        repeat destruct_scrutinee; set_projections;
        try discriminate; try congruence. }
    pose proof (surface_lost_reaches env w Hstart Hout Hs) as Hreach.
    destruct (build_reaches_swapchain_block Hreach) as (pre & w0 & Hb & _ & Hw0).
    assert (Hd0 : defaultNumberOfSwapchainImages w0 = defaultNumberOfSwapchainImages w)
      by (rewrite Hw0; reflexivity).
    assert (Hst0 : state w0 = NoSwapchain) by (rewrite Hw0; reflexivity).
    assert (Hdev0 : _device w0 = _device w) by (rewrite Hw0; reflexivity).
    destruct Hreach as [Hdev _].
    destruct (_device w) as [d|] eqn:Hd; [|discriminate Hdev].
    destruct (swapchain_part_keeps env w0) as [K1 K2].
    revert Hne2. unfold build_teardown_build.
    rewrite Hb in Hs, Hout |- *.
    destruct (swapchain_part_result env w0) as [w1 t1 o1] eqn:Hp.
    cbn [prepend window outcome trace] in *. subst o1.
    erewrite bind_returned by exact Hb.
    assert (Hd1 : _device w1 = Some d) by congruence.
    assert (Hge : State_ge (state w1) SwapchainLost = true) by (now rewrite Hs).
    erewrite bind_returned by (apply (teardown_run w1 Hd1 Hge)).
    rewrite build_run. unfold build_result, surface_block_result.
    unfold torn_down. rewrite Hs.
    change (State_ge SurfaceLost DeviceLost) with false. cbv iota beta.
    cbn [teardown_boundary state set_state].
    assert (E : _device (set_state NoSurface
                           (set_swapchainImageViews []
                              (set_swapchainFramebuffers [] w1))) = Some d)
      by (destruct w1; exact Hd1).
    rewrite E.
    destruct (Z.ltb_spec 0 (env_score env)) as [Hsc|Hsc].
    2:{ cbn. intros H. now contradiction H. }
    intros _.
    match goal with
    | |- context [swapchain_part_result env ?w'] =>
        destruct (@swapchain_part_surface_lost env w0 w') as [R1 R2];
        [ | exact Hst0 | now rewrite Hp | now rewrite Hp | ];
        [ cbn; congruence | ];
        destruct (swapchain_part_result env w') as [w2 t2 o2]
    end.
    cbn [prepend window outcome trace] in *. split; assumption.
Qed.

Lemma build_teardown_idempotent_witness :
  state (window (build surface_lost_env fresh_window)) = SurfaceLost /\
  In EvDestroySurfaceKHR (trace (build_teardown_build surface_lost_env fresh_window)) /\
  state (window (build_teardown_build surface_lost_env fresh_window)) =
  state (window (build surface_lost_env fresh_window)).
Proof.
  split; [reflexivity|]. split.
  - vm_compute. repeat (try (left; reflexivity); right).
  - apply (proj2 (proj2 (build_teardown_idempotent surface_lost_env fresh_window)));
      [reflexivity|reflexivity|discriminate|discriminate].
Defined.

(** * The frame *)

Lemma bind_cases {A B} (m : M A) (k : A -> M B) w :
  (exists a, outcome (m w) = Returned a /\
             bind m k w = prepend (trace (m w)) (k a (window (m w)))) \/
  (exists f, outcome (m w) = Raised f /\
             bind m k w = mkRun (window (m w)) (trace (m w)) (Raised f)).
Proof.
  unfold bind. destruct (m w) as [w1 t1 [a|f]]; cbn.
  - left. exists a. split; [reflexivity|]. now destruct (k a w1).
  - right. exists f. split; reflexivity.
Qed.

Lemma render_prologue_run env w :
  render_prologue env w =
  mkRun (after_prologue env w) (prologue_calls env w) (Returned (need_redraw env w)).
Proof.
  destruct w as [st dev surf dflt nr ext imgs views fbs fence cur rsc rrs rl rr].
  unfold render_prologue, after_prologue, prologue_calls, need_redraw, need_layout,
    resized_extent, resize_request.
  cbn [requestResize currentWindowExtent _request_setting_change requestLayout
       requestRedraw].
  destruct rrs; [|destruct (extent_below cur (env_preferred_size env)) eqn:Hb;
                  [|destruct (extent_above cur (env_preferred_size env)) eqn:Ha]];
    repeat first [progress cbn | rewrite Hb | rewrite Ha | run_step];
    reflexivity.
Qed.

Lemma prologue_calls_no_frame_work env w :
  Forall (fun e => is_frame_work e = false) (prologue_calls env w).
Proof.
  unfold prologue_calls. destruct (resize_request env w); repeat constructor.
Qed.

Lemma render_when_built_run env w :
  render_when_built env w =
  if State_eqb (state w) ReadyToRender then
    prepend (prologue_calls env w)
            (if need_redraw env w
             then render_frame env (after_prologue env w)
             else mkRun (after_prologue env w) [] (Returned tt))
  else mkRun w [] (Returned tt).
Proof.
  unfold render_when_built. unfold bind at 1. cbn [get].
  destruct (State_eqb (state w) ReadyToRender); cbn [negb].
  - unfold bind. rewrite render_prologue_run.
    destruct (need_redraw env w); cbn [negb].
    + now destruct (render_frame env (after_prologue env w)).
    + unfold prepend. cbn. reflexivity.
  - reflexivity.
Qed.

(** ** C1: what a tick does before any GPU frame work *)

Lemma State_eqb_eq a b : State_eqb a b = true <-> a = b.
Proof. destruct a, b; cbn; split; intros H; try reflexivity; discriminate H. Qed.

(** C1.  [render] runs [teardown] and then [build]: its trace starts with
    the calls of [teardown], followed by the calls of [build] on the
    window [teardown] left, and a failure of either ends the tick there.
    The calls that follow contain no GPU frame work (no image acquire, no
    fence wait or reset, no command-buffer recording, no submission, no
    present) unless the state after [build] is [ReadyToRender] and
    [need_redraw] holds, that is, the widget tree's layout update or a
    redraw request asks for a frame.  Whenever the state after [build] is
    [ReadyToRender], with or without a redraw, those calls begin with the
    preferred-size check of step 1: the preferred size is queried and the
    window is asked to take the minimum or maximum size when a resize was
    requested or its extent does not satisfy the preferred size; without
    a redraw nothing follows the check. *)
Theorem render_defers_frame_work (env : Env) (w : Window) :
  let r1 := teardown w in
  let r2 := build env (window r1) in
  (forall f, outcome r1 = Raised f ->
             render env w = mkRun (window r1) (trace r1) (Raised f)) /\
  (outcome r1 = Returned tt -> forall f, outcome r2 = Raised f ->
   render env w = mkRun (window r2) (trace r1 ++ trace r2) (Raised f)) /\
  (outcome r1 = Returned tt -> outcome r2 = Returned tt ->
   exists tail,
     trace (render env w) = trace r1 ++ trace r2 ++ tail /\
     (~ (state (window r2) = ReadyToRender /\ need_redraw env (window r2) = true) ->
      Forall (fun e => is_frame_work e = false) tail) /\
     (state (window r2) = ReadyToRender ->
      exists rest,
        tail = prologue_calls env (window r2) ++ rest /\
        In EvWidgetPreferredSize (prologue_calls env (window r2)) /\
        (forall e, resize_request env (window r2) = Some e ->
                   In (EvSetWindowSize e) (prologue_calls env (window r2))) /\
        (need_redraw env (window r2) = false -> rest = []))).
Proof.
  cbv zeta. unfold render.
  destruct (teardown w) as [w1 t1 [[]|f1]] eqn:H1; cbn [window trace outcome].
  2:{ split; [|split]; try discriminate.
      intros f Hf. injection Hf as <-. now erewrite bind_raised by exact H1. }
  erewrite bind_returned by exact H1.
  destruct (build env w1) as [w2 t2 [[]|f2]] eqn:H2; cbn [window trace outcome].
  2:{ split; [discriminate|]. split; [|discriminate].
      intros _ f Hf. injection Hf as <-. now erewrite bind_raised by exact H2. }
  erewrite bind_returned by exact H2.
  split; [discriminate|]. split; [discriminate|]. intros _ _.
  rewrite render_when_built_run.
  destruct (State_eqb (state w2) ReadyToRender) eqn:Hs.
  - apply State_eqb_eq in Hs.
    destruct (need_redraw env w2) eqn:Hn.
    + destruct (render_frame env (after_prologue env w2)) as [w3 t3 o3].
      exists (prologue_calls env w2 ++ t3). cbn [prepend window trace outcome].
      split; [reflexivity|]. split; [intros Hno; exfalso; apply Hno; now split|].
      intros _. exists t3. split; [reflexivity|].
      split; [unfold prologue_calls; cbn; auto|].
      split; [|discriminate].
      intros e He. unfold prologue_calls. rewrite He. cbn. auto.
    + exists (prologue_calls env w2). cbn [prepend window trace outcome].
      rewrite app_nil_r. split; [reflexivity|].
      split; [intros _; apply prologue_calls_no_frame_work|].
      intros _. exists []. rewrite app_nil_r. split; [reflexivity|].
      split; [unfold prologue_calls; cbn; auto|].
      split; [|reflexivity].
      intros e He. unfold prologue_calls. rewrite He. cbn. auto.
  - exists []. cbn [window trace outcome]. split; [reflexivity|].
    split; [constructor|].
    intros Hst. rewrite Hst in Hs. discriminate Hs.
Qed.

(** A resize request on an idle tick: the resize is asked for, and no
    image is acquired and nothing is submitted. *)
Lemma render_defers_frame_work_witness :
  exists tail,
    trace (render calm_env (set_requestRedraw false (set_requestResize true ready_window)))
      = tail /\
    In (EvSetWindowSize (extent 100 100)) tail /\
    Forall (fun e => is_frame_work e = false) tail.
Proof.
  destruct (render_defers_frame_work calm_env
              (set_requestRedraw false (set_requestResize true ready_window)))
    as [_ [_ H]].
  destruct (H eq_refl eq_refl) as [tail [Ht [Hno Hre]]].
  exists tail. split; [exact Ht|].
  destruct (Hre eq_refl) as [rest [Hr [_ [Hsz Hrest]]]].
  split.
  - rewrite Hr. apply in_or_app. left. apply Hsz. reflexivity.
  - apply Hno. intros [_ Hn]. discriminate Hn.
Defined.

(** ** Quiet calls *)

Lemma level_quiet e l : teardown_level e = Some l -> quiet e.
Proof. destruct e; cbn; intros H; try discriminate H; repeat split. Qed.

Lemma teardown_ready w :
  state (window (teardown w)) = ReadyToRender ->
  teardown w = mkRun w [] (Returned tt).
Proof.
  intros H. destruct (State_ge (state w) SwapchainLost) eqn:Hs.
  - exfalso. destruct (_device w) as [d|] eqn:Hd.
    + rewrite (teardown_run w Hd Hs) in H. cbn in H.
      destruct (state w); discriminate.
    + rewrite (teardown_no_device w Hd Hs) in H. cbn in H.
      rewrite H in Hs. discriminate Hs.
  - now apply teardown_below.
Qed.

Lemma teardown_quiet w : Forall quiet (trace (teardown w)).
Proof.
  destruct (State_ge (state w) SwapchainLost) eqn:Hs.
  - destruct (_device w) as [d|] eqn:Hd.
    + rewrite (teardown_run w Hd Hs). cbn [trace].
      eapply Forall_impl; [|apply (teardown_calls_within_boundary w Hs)].
      intros e [l [Hl _]]. eapply level_quiet; eassumption.
    + rewrite (teardown_no_device w Hd Hs). constructor.
  - rewrite (teardown_below w Hs). constructor.
Qed.

Lemma told_quiet m : Forall quiet (told m).
Proof. repeat constructor. Qed.

Lemma framebuffer_calls_quiet images e : Forall quiet (framebuffer_calls images e).
Proof.
  unfold framebuffer_calls. induction images as [|x l IH]; cbn; repeat constructor.
  exact IH.
Qed.

Lemma finishing_calls_quiet images e : Forall quiet (finishing_calls images e).
Proof.
  unfold finishing_calls. repeat (apply Forall_app; split);
    try apply framebuffer_calls_quiet; repeat constructor.
Qed.

Lemma framebuffer_stage_calls_quiet images e :
  Forall quiet (framebuffer_stage_calls images e).
Proof.
  unfold framebuffer_stage_calls. repeat (apply Forall_app; split);
    try apply framebuffer_calls_quiet; repeat constructor.
Qed.

Ltac quiet_list :=
  cbn [trace prepend window outcome];
  repeat (apply Forall_app; split);
  first [ apply framebuffer_calls_quiet | apply told_quiet
        | apply finishing_calls_quiet
        | apply framebuffer_stage_calls_quiet | repeat constructor ].

Lemma swapchain_part_quiet env w : Forall quiet (trace (swapchain_part_result env w)).
Proof.
  unfold swapchain_part_result. repeat destruct_scrutinee; quiet_list.
Qed.

Lemma build_quiet env w : Forall quiet (trace (build env w)).
Proof.
  rewrite build_run.
  unfold build_result, surface_block_result, swapchain_block_result.
  repeat destruct_scrutinee; cbn [trace prepend window outcome];
    repeat (apply Forall_app; split);
    first [ apply swapchain_part_quiet | apply told_quiet | repeat constructor ].
Qed.

(** ** The fence along a trace *)

Lemma fence_after_app st a b :
  fence_after st (a ++ b) = fence_after (fence_after st a) b.
Proof. unfold fence_after. apply fold_left_app. Qed.

Lemma fence_after_neutral st t :
  Forall fence_neutral t -> fence_after st t = st.
Proof.
  intros H. revert st. induction H as [|e t He _ IH]; intros st; [reflexivity|].
  cbn. rewrite He. apply IH.
Qed.

Lemma prologue_calls_neutral env w : Forall fence_neutral (prologue_calls env w).
Proof.
  unfold prologue_calls. destruct (resize_request env w);
    repeat constructor.
Qed.

Lemma fence_after_finishing st images e :
  fence_after st (finishing_calls images e) = FenceSignaled.
Proof.
  unfold finishing_calls. rewrite !fence_after_app. reflexivity.
Qed.

Lemma swapchain_part_ready env w :
  state w <> ReadyToRender ->
  state (window (swapchain_part_result env w)) = ReadyToRender ->
  outcome (swapchain_part_result env w) = Returned tt /\
  forall st, fence_after st (trace (swapchain_part_result env w)) = FenceSignaled.
Proof.
  intros Hne H. unfold swapchain_part_result in *.
  repeat destruct_scrutinee_in H; set_projections;
    try discriminate H; try contradiction.
  split; [reflexivity|]. intros st0.
  rewrite fence_after_app. apply fence_after_finishing.
Qed.

Lemma build_ready env w :
  state (window (build env w)) = ReadyToRender ->
  (state w = ReadyToRender /\ build env w = mkRun w [] (Returned tt)) \/
  (outcome (build env w) = Returned tt /\
   forall st, fence_after st (trace (build env w)) = FenceSignaled).
Proof.
  rewrite !build_run. intros H.
  destruct (State_eqb (state w) ReadyToRender) eqn:Hs.
  - apply State_eqb_eq in Hs. left. split; [exact Hs|].
    unfold build_result. now rewrite Hs.
  - right. unfold build_result, surface_block_result, swapchain_block_result in *.
    destruct (state w) eqn:Hst; try discriminate Hs; set_projections;
      try congruence;
      repeat destruct_scrutinee_in H; set_projections; try congruence.
    all: match goal with
         | H : state (window (swapchain_part_result ?e ?w0)) = ReadyToRender |- _ =>
             destruct (@swapchain_part_ready e w0) as [Ho Hf];
             [set_projections; congruence | exact H |]
         end.
    all: split; [exact Ho|]; intros st0.
    all: rewrite ?fence_after_app; apply Hf.
Qed.

(** ** The shape of a frame *)

Lemma render_frame_body_run env idx w d fb :
  _device w = Some d ->
  nth_error (swapchainFramebuffers w) (Z.to_nat idx) = Some fb ->
  render_frame_body env idx w =
  prepend ([EvWaitForFences renderFinishedFence_h uint64_max;
            EvResetFences renderFinishedFence_h] ++
           recording_calls fb ++ [submit_commands; submit_fence])
          (bind (presentImageToQueue env idx renderFinishedSemaphore)
                (fun _ => teardown) w).
Proof.
  intros Hd Hfb. open_window w Hd. cbn in Hfb.
  unfold render_frame_body.
  erewrite bind_returned by reflexivity. cbv beta.
  cbn [swapchainFramebuffers]. rewrite Hfb.
  repeat first [ progress cbn -[presentImageToQueue teardown] | run_step ].
  match goal with |- context [bind ?m ?k ?w] => destruct (bind m k w) end.
  reflexivity.
Qed.

Lemma render_frame_body_out_of_range env idx w :
  nth_error (swapchainFramebuffers w) (Z.to_nat idx) = None ->
  render_frame_body env idx w = mkRun w [] (Raised (Thrown std_out_of_range)).
Proof.
  intros Hfb. unfold render_frame_body.
  erewrite bind_returned by reflexivity. cbv beta. rewrite Hfb.
  destruct w; reflexivity.
Qed.

Lemma presented_shape env idx w d :
  _device w = Some d ->
  exists t',
    trace (bind (presentImageToQueue env idx renderFinishedSemaphore)
                (fun _ => teardown) w) =
      EvQueuePresent idx [renderFinishedSemaphore] :: t' /\
    Forall quiet t' /\
    (state (window (bind (presentImageToQueue env idx renderFinishedSemaphore)
                         (fun _ => teardown) w)) = ReadyToRender -> t' = []).
Proof.
  intros Hd.
  destruct (present_run env w idx renderFinishedSemaphore Hd) as [Ht _].
  cbv zeta in Ht.
  destruct (bind_cases (presentImageToQueue env idx renderFinishedSemaphore)
              (fun _ => teardown) w) as [[a [Ho Hb]]|[f [Ho Hb]]]; rewrite Hb.
  - exists (trace (teardown (window (presentImageToQueue env idx
                                        renderFinishedSemaphore w)))).
    cbn [prepend trace window]. rewrite Ht. split; [reflexivity|].
    split; [apply teardown_quiet|]. intros H. now rewrite (teardown_ready _ H).
  - exists []. cbn [trace]. rewrite Ht. repeat split. constructor.
Qed.

Lemma acquire_cases env w d :
  _device w = Some d ->
  let a := acquireNextImageFromSwapchain env w in
  trace a = [EvAcquireNextImageKHR 0 imageAvailableSemaphore] /\
  ((outcome a = Returned (Some (snd (env_acquireNextImageKHR env))) /\ window a = w) \/
   outcome a = Returned None \/
   exists f, outcome a = Raised f).
Proof.
  intros Hd. destruct (acquire_run env w Hd) as (Ht & H1 & H2 & H3 & H4 & H5).
  cbv zeta in *. split; [exact Ht|].
  set (r := fst (env_acquireNextImageKHR env)) in *.
  destruct (Z.eq_dec r vk.eSuccess) as [E|N1]; [left; now apply H1|].
  right.
  destruct (Z.eq_dec r vk.eSuboptimalKHR) as [E|N2]; [left; apply H2; now left|].
  destruct (Z.eq_dec r vk.eErrorOutOfDateKHR) as [E|N3]; [left; apply H2; now right|].
  destruct (Z.eq_dec r vk.eErrorSurfaceLostKHR) as [E|N4]; [left; now apply H3|].
  destruct (Z.eq_dec r vk.eTimeout) as [E|N5]; [left; now apply H4|].
  right. eexists. apply H5. unfold acquire_handled. tauto.
Qed.

Lemma acquire_call_quiet :
  Forall quiet [EvAcquireNextImageKHR 0 imageAvailableSemaphore] /\
  Forall fence_neutral [EvAcquireNextImageKHR 0 imageAvailableSemaphore].
Proof. split; repeat constructor. Qed.

Lemma render_frame_shape env w :
  (Forall quiet (trace (render_frame env w)) /\
   Forall fence_neutral (trace (render_frame env w))) \/
  (exists fb t',
     trace (render_frame env w) =
       [EvAcquireNextImageKHR 0 imageAvailableSemaphore] ++
       frame_calls fb (snd (env_acquireNextImageKHR env)) ++ t' /\
     Forall quiet t' /\
     (state (window (render_frame env w)) = ReadyToRender -> t' = [])).
Proof.
  destruct (_device w) as [d|] eqn:Hd.
  2:{ left. unfold render_frame, acquireNextImageFromSwapchain.
      rewrite bind_assoc. erewrite bind_raised by (apply device_call_no_device; exact Hd).
      split; constructor. }
  destruct (acquire_cases env w Hd) as [Ht Hc]. cbv zeta in *.
  unfold render_frame.
  destruct (bind_cases (acquireNextImageFromSwapchain env)
              (fun o => match o with
                        | None => ret tt
                        | Some i => render_frame_body env i
                        end) w) as [[a [Ho Hb]]|[f [Ho Hb]]]; rewrite Hb; clear Hb.
  2:{ left. cbn [trace]. rewrite Ht. apply acquire_call_quiet. }
  destruct Hc as [[Hs Hw]|[Hn|[f Hf]]].
  - rewrite Ho in Hs. injection Hs as ->. rewrite Hw.
    set (idx := snd (env_acquireNextImageKHR env)).
    destruct (nth_error (swapchainFramebuffers w) (Z.to_nat idx)) as [fb|] eqn:Hfb.
    + right. rewrite (render_frame_body_run env idx w Hd Hfb).
      destruct (presented_shape env idx w Hd) as [t' [Hp [Hq Hr]]].
      exists fb, t'. cbn [prepend trace window]. rewrite Ht, Hp.
      split; [|split; assumption].
      unfold frame_calls. rewrite <- !app_assoc. reflexivity.
    + left. rewrite (render_frame_body_out_of_range env idx w Hfb).
      cbn [prepend trace]. rewrite Ht. apply acquire_call_quiet.
  - rewrite Ho in Hn. injection Hn as ->. left.
    cbn [prepend trace ret]. rewrite Ht. apply acquire_call_quiet.
  - rewrite Ho in Hf. discriminate Hf.
Qed.

Lemma prologue_calls_quiet env w : Forall quiet (prologue_calls env w).
Proof.
  unfold prologue_calls. destruct (resize_request env w); repeat constructor.
Qed.

Lemma fence_ready_after_build env w w1 t1 w2 t2 o st :
  teardown w = mkRun w1 t1 (Returned tt) ->
  build env w1 = mkRun w2 t2 o ->
  state w2 = ReadyToRender ->
  (state w = ReadyToRender -> st = FenceSignaled) ->
  fence_after st (t1 ++ t2) = FenceSignaled.
Proof.
  intros H1 H2 Hs Hinv.
  destruct (build_ready env w1) as [[Hs1 Hb]|[_ Hf]].
  - rewrite H2. exact Hs.
  - rewrite H2 in Hb. injection Hb as -> -> _.
    assert (Ht : state (window (teardown w)) = ReadyToRender)
      by (rewrite H1; exact Hs).
    rewrite (teardown_ready w Ht) in H1. injection H1 as <- <-.
    cbn. apply Hinv. exact Hs.
  - rewrite H2 in Hf. cbn [trace] in Hf. rewrite fence_after_app. apply Hf.
Qed.

(** The trace of a tick is either quiet, or a quiet beginning followed by
    the calls of one frame and a quiet end; the fence is signaled when
    the frame begins, and whenever the tick ends in [ReadyToRender]. *)
Ltac forall_parts :=
  repeat first [assumption | apply Forall_nil | apply Forall_app; split].

Lemma render_shape env w st :
  (state w = ReadyToRender -> st = FenceSignaled) ->
  (Forall quiet (trace (render env w)) /\
   (state (window (render env w)) = ReadyToRender ->
    fence_after st (trace (render env w)) = FenceSignaled)) \/
  (exists pre fb t',
     trace (render env w) =
       pre ++ frame_calls fb (snd (env_acquireNextImageKHR env)) ++ t' /\
     Forall quiet pre /\ Forall quiet t' /\
     fence_after st pre = FenceSignaled /\
     (state (window (render env w)) = ReadyToRender -> t' = [])).
Proof.
  intros Hinv. unfold render.
  pose proof (teardown_quiet w) as Q1.
  destruct (teardown w) as [w1 t1 [[]|f1]] eqn:H1; cbn [trace] in Q1.
  2:{ left. erewrite bind_raised by exact H1. cbn [trace window].
      split; [exact Q1|]. intros Hs.
      assert (Ht : state (window (teardown w)) = ReadyToRender)
        by (rewrite H1; exact Hs).
      rewrite (teardown_ready w Ht) in H1. discriminate H1. }
  erewrite bind_returned by exact H1.
  pose proof (build_quiet env w1) as Q2.
  destruct (build env w1) as [w2 t2 [[]|f2]] eqn:H2; cbn [trace] in Q2.
  2:{ left. erewrite bind_raised by exact H2. cbn [trace window].
      split; [forall_parts|]. intros Hs.
      destruct (build_ready env w1) as [[_ Hb]|[Ho _]].
      - rewrite H2. exact Hs.
      - rewrite H2 in Hb. discriminate Hb.
      - rewrite H2 in Ho. discriminate Ho. }
  erewrite bind_returned by exact H2.
  rewrite render_when_built_run.
  destruct (State_eqb (state w2) ReadyToRender) eqn:Hs.
  2:{ left. cbn [trace window]. rewrite app_nil_r.
      split; [forall_parts|].
      intros E. rewrite E in Hs. discriminate Hs. }
  apply State_eqb_eq in Hs.
  pose proof (@fence_ready_after_build env w w1 t1 w2 t2 _ st H1 H2 Hs Hinv) as S.
  pose proof (prologue_calls_quiet env w2) as Q3.
  pose proof (prologue_calls_neutral env w2) as N3.
  destruct (need_redraw env w2).
  2:{ left. cbn [prepend trace window]. rewrite app_nil_r.
      split; [forall_parts|].
      intros _. rewrite app_assoc, fence_after_app, S.
      now apply fence_after_neutral. }
  destruct (render_frame_shape env (after_prologue env w2))
    as [[Q4 N4]|[fb [t' [Ht [Q4 Hr]]]]];
    destruct (render_frame env (after_prologue env w2)) as [w3 t3 o3];
    cbn [prepend trace window] in *.
  - left. split; [forall_parts|].
    intros _. rewrite app_assoc, fence_after_app, S, fence_after_app.
    rewrite (fence_after_neutral _ N3). now apply fence_after_neutral.
  - right. subst t3.
    exists (t1 ++ t2 ++ prologue_calls env w2 ++
            [EvAcquireNextImageKHR 0 imageAvailableSemaphore]), fb, t'.
    split; [now rewrite <- !app_assoc|].
    split; [forall_parts; repeat constructor|].
    split; [exact Q4|]. split; [|exact Hr].
    rewrite app_assoc, fence_after_app, S, fence_after_app.
    rewrite (fence_after_neutral _ N3). reflexivity.
Qed.

Lemma render_frame_acquired env w d :
  _device w = Some d ->
  fst (env_acquireNextImageKHR env) = vk.eSuccess ->
  render_frame env w =
  prepend [EvAcquireNextImageKHR 0 imageAvailableSemaphore]
          (render_frame_body env (snd (env_acquireNextImageKHR env)) w).
Proof.
  intros Hd Hs. destruct (acquire_run env w Hd) as (Ht & H1 & _).
  cbv zeta in *. destruct (H1 Hs) as [Ho Hw].
  unfold render_frame, bind.
  destruct (acquireNextImageFromSwapchain env w) as [w1 t1 o1].
  cbn in Ht, Ho, Hw. subst. unfold prepend.
  now destruct (render_frame_body env (snd (env_acquireNextImageKHR env)) w).
Qed.

(** A tick that gets to draw a frame: the calls of the frame stand
    between a quiet beginning, at the end of which the fence is signaled,
    and a quiet end. *)
Lemma render_frame_path env w fb st :
  (state w = ReadyToRender -> st = FenceSignaled) ->
  starts_frame env w fb ->
  exists pre t',
    trace (render env w) =
      pre ++ frame_calls fb (snd (env_acquireNextImageKHR env)) ++ t' /\
    Forall quiet pre /\ Forall quiet t' /\
    fence_after st pre = FenceSignaled /\
    (state (window (render env w)) = ReadyToRender -> t' = []).
Proof.
  intros Hinv (H1 & H2 & Hs & Hd & Hn & Ha & Hfb). cbv zeta in *.
  pose proof (teardown_quiet w) as Q1.
  unfold render.
  destruct (teardown w) as [w1 t1 o1] eqn:E1. cbn [window outcome trace] in *.
  subst o1. erewrite bind_returned by exact E1.
  pose proof (build_quiet env w1) as Q2.
  destruct (build env w1) as [w2 t2 o2] eqn:E2. cbn [window outcome trace] in *.
  subst o2. erewrite bind_returned by exact E2.
  rewrite render_when_built_run, Hs. cbn [State_eqb State_ordinal Z.eqb].
  rewrite Hn.
  pose proof (@fence_ready_after_build env w w1 t1 w2 t2 _ st E1 E2 Hs Hinv) as S.
  pose proof (prologue_calls_quiet env w2) as Q3.
  pose proof (prologue_calls_neutral env w2) as N3.
  destruct (_device w2) as [d|] eqn:Hd2; [|discriminate Hd].
  assert (Hd' : _device (after_prologue env w2) = Some d)
    by (destruct w2; exact Hd2).
  assert (Hfb' : nth_error (swapchainFramebuffers (after_prologue env w2))
                   (Z.to_nat (snd (env_acquireNextImageKHR env))) = Some fb)
    by (destruct w2; exact Hfb).
  rewrite (render_frame_acquired env (after_prologue env w2) Hd' Ha).
  rewrite (render_frame_body_run env _ _ Hd' Hfb').
  destruct (presented_shape env (snd (env_acquireNextImageKHR env))
              (after_prologue env w2) Hd') as [t' [Hp [Hq Hr]]].
  destruct (bind (presentImageToQueue env (snd (env_acquireNextImageKHR env))
                    renderFinishedSemaphore) (fun _ => teardown)
                 (after_prologue env w2)) as [w3 t3 o3].
  cbn [prepend trace window outcome] in *. subst t3.
  exists (t1 ++ t2 ++ prologue_calls env w2 ++
          [EvAcquireNextImageKHR 0 imageAvailableSemaphore]), t'.
  split; [unfold frame_calls; now rewrite <- !app_assoc|].
  split; [forall_parts; repeat constructor|].
  split; [exact Hq|]. split; [|exact Hr].
  rewrite app_assoc, fence_after_app, S, fence_after_app.
  rewrite (fence_after_neutral _ N3). reflexivity.
Qed.

Lemma unique_occurrence {A} (p : A -> bool) (x y : A) (a b pre post : list A) :
  Forall (fun e => p e = false) a ->
  Forall (fun e => p e = false) b ->
  p y = true ->
  a ++ x :: b = pre ++ y :: post ->
  pre = a /\ y = x /\ post = b.
Proof.
  intros Ha Hb Hy. revert pre. induction Ha as [|e a He Ha IH]; intros pre E.
  - destruct pre as [|z pre]; cbn in E.
    + injection E as -> ->. repeat split.
    + injection E as -> E. exfalso.
      assert (Hin : In y (pre ++ y :: post)) by (apply in_or_app; right; now left).
      rewrite <- E in Hin. rewrite Forall_forall in Hb.
      specialize (Hb _ Hin). congruence.
  - destruct pre as [|z pre]; cbn in E.
    + injection E as -> _. congruence.
    + injection E as -> E. destruct (IH _ E) as (-> & -> & ->). repeat split.
Qed.

Lemma quiet_no_reset l : Forall quiet l -> Forall (fun e => is_reset e = false) l.
Proof. apply Forall_impl. now intros e [H _]. Qed.

Lemma quiet_no_submit l : Forall quiet l -> Forall (fun e => is_submit e = false) l.
Proof. apply Forall_impl. now intros e [_ [H _]]. Qed.

Lemma quiet_no_present l : Forall quiet l -> Forall (fun e => is_present e = false) l.
Proof. apply Forall_impl. now intros e [_ [_ H]]. Qed.

Lemma recording_calls_quiet fb : Forall quiet (recording_calls fb).
Proof. repeat constructor. Qed.

(** ** C8: submission and present *)

Lemma frame_calls_split_present fb idx :
  frame_calls fb idx =
  ([EvWaitForFences renderFinishedFence_h uint64_max;
    EvResetFences renderFinishedFence_h] ++ recording_calls fb) ++
  [submit_commands; submit_fence] ++ [EvQueuePresent idx [renderFinishedSemaphore]].
Proof. unfold frame_calls. now rewrite <- !app_assoc. Qed.

(** C8.  In a tick that gets to draw a frame, the recorded command
    buffer is submitted to the graphics queue, waiting on the
    image-available semaphore at the colour-attachment-output stage and
    signalling the render-finished semaphore; directly after it the
    render-finished fence is handed to the same queue in an empty
    submission, which signals it when the work submitted before has
    finished, so that from there on the fence is signaled or about to be
    signaled; and directly after these two the acquired image is
    presented, waiting on the render-finished semaphore.  Nothing else is
    submitted or presented in the tick.  In every tick, whatever it gets
    to: the only submissions are these two, and every present is the
    present of the acquired image, waits on the render-finished semaphore
    and comes directly after the two submissions, in that order. *)
Theorem frame_submission_order (env : Env) (w : Window) :
  (forall fb, starts_frame env w fb ->
     exists pre post,
       trace (render env w) =
         pre ++
         [EvQueueSubmit [(imageAvailableSemaphore, vk.eColorAttachmentOutput)]
                        [commandBuffer] [renderFinishedSemaphore] None;
          EvQueueSubmit [] [] [] (Some renderFinishedFence_h);
          EvQueuePresent (snd (env_acquireNextImageKHR env))
                         [renderFinishedSemaphore]] ++
         post /\
       Forall (fun e => is_submit e = false /\ is_present e = false) pre /\
       Forall (fun e => is_submit e = false /\ is_present e = false) post /\
       forall st,
         fence_after st
           (pre ++
            [EvQueueSubmit [(imageAvailableSemaphore, vk.eColorAttachmentOutput)]
                           [commandBuffer] [renderFinishedSemaphore] None;
             EvQueueSubmit [] [] [] (Some renderFinishedFence_h)]) =
         FenceSignaled) /\
  (forall e, In e (trace (render env w)) -> is_submit e = true ->
             e = submit_commands \/ e = submit_fence) /\
  (forall pre idx sems post,
     trace (render env w) = pre ++ EvQueuePresent idx sems :: post ->
     idx = snd (env_acquireNextImageKHR env) /\
     sems = [renderFinishedSemaphore] /\
     exists pre', pre = pre' ++ [submit_commands; submit_fence]).
Proof.
  split.
  { intros fb Hf.
    destruct (@render_frame_path env w fb FenceSignaled (fun _ => eq_refl) Hf)
      as (pre0 & t' & Ht & Q0 & Q' & _ & _).
    exists (pre0 ++ [EvWaitForFences renderFinishedFence_h uint64_max;
                     EvResetFences renderFinishedFence_h] ++ recording_calls fb), t'.
    split.
    { rewrite Ht. unfold frame_calls, submit_commands, submit_fence.
      rewrite <- !app_assoc. reflexivity. }
    assert (W : forall l, Forall quiet l ->
                Forall (fun e => is_submit e = false /\ is_present e = false) l).
    { intros l. apply Forall_impl. intros e (_ & H1 & H2). now split. }
    split.
    { apply Forall_app. split; [now apply W|].
      apply Forall_app. split; [repeat constructor|].
      apply W, recording_calls_quiet. }
    split; [now apply W|].
    intros st. rewrite fence_after_app. reflexivity. }
  destruct (@render_shape env w FenceSignaled (fun _ => eq_refl))
    as [[Q _]|(pre0 & fb & t' & Ht & Q0 & Q' & _ & _)].
  - split.
    + intros e He Hs. apply quiet_no_submit in Q. rewrite Forall_forall in Q.
      specialize (Q _ He). congruence.
    + intros pre idx sems post E. exfalso.
      apply quiet_no_present in Q. rewrite Forall_forall in Q.
      assert (Hin : In (EvQueuePresent idx sems) (trace (render env w)))
        by (rewrite E; apply in_or_app; right; now left).
      specialize (Q _ Hin). discriminate Q.
  - rewrite Ht. split.
    + intros e He Hs.
      apply in_app_or in He. destruct He as [He|He].
      { apply quiet_no_submit in Q0. rewrite Forall_forall in Q0.
        specialize (Q0 _ He). congruence. }
      apply in_app_or in He. destruct He as [He|He].
      2:{ apply quiet_no_submit in Q'. rewrite Forall_forall in Q'.
          specialize (Q' _ He). congruence. }
      rewrite frame_calls_split_present in He.
      apply in_app_or in He. destruct He as [He|He].
      { assert (Qr : Forall quiet
                       ([EvWaitForFences renderFinishedFence_h uint64_max] ++
                        recording_calls fb))
          by (apply Forall_app; split;
              [repeat constructor|apply recording_calls_quiet]).
        cbn [app] in He. destruct He as [<-|[<-|He]]; try discriminate Hs.
        pose proof (recording_calls_quiet fb) as Qc.
        apply quiet_no_submit in Qc. rewrite Forall_forall in Qc.
        specialize (Qc _ He). congruence. }
      cbn in He. destruct He as [<-|[<-|[<-|[]]]]; auto. discriminate Hs.
    + intros pre idx sems post E.
      rewrite frame_calls_split_present in E.
      rewrite !app_assoc in E. rewrite <- app_assoc in E.
      cbn [app] in E.
      match type of E with ?a ++ ?x :: ?b = _ =>
        destruct (@unique_occurrence _ is_present x (EvQueuePresent idx sems)
                    a b pre post) as (Hp & Hy & _)
      end; [| apply quiet_no_present; exact Q' | reflexivity | exact E |].
      * repeat (apply Forall_app; split);
          try (apply quiet_no_present; first [exact Q0|apply recording_calls_quiet]);
          repeat constructor.
      * injection Hy as -> ->. split; [reflexivity|]. split; [reflexivity|].
        eexists. rewrite Hp. reflexivity.
Qed.

Lemma frame_submission_order_witness :
  exists pre post,
    trace (render calm_env ready_window) =
      pre ++
      [EvQueueSubmit [(imageAvailableSemaphore, vk.eColorAttachmentOutput)]
                     [commandBuffer] [renderFinishedSemaphore] None;
       EvQueueSubmit [] [] [] (Some renderFinishedFence_h);
       EvQueuePresent 1 [renderFinishedSemaphore]] ++
      post.
Proof.
  destruct (proj1 (frame_submission_order calm_env ready_window) 11%nat)
    as (pre & post & H & _).
  - repeat split.
  - exists pre, post. exact H.
Defined.

(** ** C10: the render-finished fence *)

Lemma frame_calls_split_reset fb idx :
  frame_calls fb idx =
  [EvWaitForFences renderFinishedFence_h uint64_max] ++
  EvResetFences renderFinishedFence_h ::
  (recording_calls fb ++
   [submit_commands; submit_fence; EvQueuePresent idx [renderFinishedSemaphore]]).
Proof. reflexivity. Qed.

Lemma fence_after_frame_calls st fb idx :
  fence_after st (frame_calls fb idx) = FenceSignaled.
Proof. reflexivity. Qed.

(** C10.  [buildSemaphores] creates the render-finished fence signaled.
    Let [st] be the status of the fence when a tick begins, signaled
    whenever the window is in [ReadyToRender] (true of a window that has
    not been built yet, and kept by every tick, see the last part).  A
    tick that gets to draw a frame waits on the fence without timeout at
    a time when the fence is signaled or about to be signaled by a
    submission made before (it was created signaled, or an earlier frame
    has submitted it), resets it directly after that wait, and hands it
    to a queue submission before it presents and returns, so that the
    fence is signaled or about to be signaled again; the fence is not
    reset and nothing is submitted outside these calls.  In every tick,
    whatever it gets to, every reset of the fence comes directly after
    such a wait and is followed by the submission of the fence in the
    same tick.  And a tick that ends in [ReadyToRender] leaves the fence
    signaled or about to be signaled. *)
Theorem fence_reset_discipline (env : Env) (w : Window) (st : FenceStatus)
    (Hinv : state w = ReadyToRender -> st = FenceSignaled) :
  (forall w', is_some (_device w') = true ->
     trace (buildSemaphores w') =
       [EvCreateSemaphore imageAvailableSemaphore;
        EvCreateSemaphore renderFinishedSemaphore;
        EvCreateFence renderFinishedFence_h true]) /\
  (forall fb, starts_frame env w fb ->
     exists pre t',
       trace (render env w) =
         pre ++
         [EvWaitForFences renderFinishedFence_h uint64_max;
          EvResetFences renderFinishedFence_h] ++
         recording_calls fb ++
         [submit_commands; EvQueueSubmit [] [] [] (Some renderFinishedFence_h);
          EvQueuePresent (snd (env_acquireNextImageKHR env))
                         [renderFinishedSemaphore]] ++
         t' /\
       Forall (fun e => is_reset e = false /\ is_submit e = false) pre /\
       Forall (fun e => is_reset e = false /\ is_submit e = false)
              (recording_calls fb) /\
       Forall (fun e => is_reset e = false /\ is_submit e = false) t' /\
       fence_after st pre = FenceSignaled /\
       fence_after st
         (pre ++
          [EvWaitForFences renderFinishedFence_h uint64_max;
           EvResetFences renderFinishedFence_h] ++
          recording_calls fb ++
          [submit_commands; EvQueueSubmit [] [] [] (Some renderFinishedFence_h)]) =
       FenceSignaled) /\
  (forall pre f post,
     trace (render env w) = pre ++ EvResetFences f :: post ->
     exists pre',
       pre = pre' ++ [EvWaitForFences f uint64_max] /\
       fence_after st pre' = FenceSignaled /\
       In submit_fence post) /\
  (state (window (render env w)) = ReadyToRender ->
   fence_after st (trace (render env w)) = FenceSignaled).
Proof.
  split.
  { intros w' Hd. destruct (_device w') as [d|] eqn:E; [|discriminate Hd].
    destruct w'. cbn in E. subst. reflexivity. }
  split.
  { intros fb Hf.
    destruct (@render_frame_path env w fb st Hinv Hf)
      as (pre & t' & Ht & Q0 & Q' & Hs & _).
    exists pre, t'.
    assert (W : forall l, Forall quiet l ->
                Forall (fun e => is_reset e = false /\ is_submit e = false) l).
    { intros l. apply Forall_impl. intros e (H1 & H2 & _). now split. }
    split; [rewrite Ht; unfold frame_calls, submit_fence;
            now rewrite <- !app_assoc|].
    split; [now apply W|].
    split; [apply W, recording_calls_quiet|].
    split; [now apply W|]. split; [exact Hs|].
    rewrite fence_after_app. reflexivity. }
  destruct (render_shape env w Hinv)
    as [[Q Hf]|(pre0 & fb & t' & Ht & Q0 & Q' & Hs & Hr)].
  - split; [|exact Hf].
    intros pre f post E. exfalso.
    apply quiet_no_reset in Q. rewrite Forall_forall in Q.
    assert (Hin : In (EvResetFences f) (trace (render env w)))
      by (rewrite E; apply in_or_app; right; now left).
    specialize (Q _ Hin). discriminate Q.
  - split.
    + intros pre f post E. rewrite Ht in E.
      assert (E' : (pre0 ++ [EvWaitForFences renderFinishedFence_h uint64_max]) ++
                   EvResetFences renderFinishedFence_h ::
                   ((recording_calls fb ++
                     [submit_commands; submit_fence;
                      EvQueuePresent (snd (env_acquireNextImageKHR env))
                                     [renderFinishedSemaphore]]) ++ t') =
                   pre ++ EvResetFences f :: post).
      { rewrite <- E, frame_calls_split_reset, <- !app_assoc. reflexivity. }
      clear E.
      match type of E' with ?a ++ ?x :: ?b = _ =>
        destruct (@unique_occurrence _ is_reset x (EvResetFences f)
                    a b pre post) as (Hp & Hy & Hpost)
      end; [| | reflexivity | exact E' |].
      * apply Forall_app. split; [apply quiet_no_reset; exact Q0|repeat constructor].
      * repeat (apply Forall_app; split);
          try (apply quiet_no_reset; first [exact Q'|apply recording_calls_quiet]);
          repeat constructor.
      * injection Hy as ->. exists pre0. split; [exact Hp|]. split; [exact Hs|].
        rewrite Hpost. apply in_or_app. left. apply in_or_app. right.
        right. left. reflexivity.
    + intros Hst. rewrite Ht, (Hr Hst), app_nil_r, fence_after_app.
      apply fence_after_frame_calls.
Qed.

(** A frame on a window that was built before. *)
Lemma fence_reset_discipline_witness :
  exists pre t',
    trace (render calm_env ready_window) =
      pre ++
      [EvWaitForFences renderFinishedFence_h uint64_max;
       EvResetFences renderFinishedFence_h] ++
      recording_calls 11%nat ++
      [submit_commands; EvQueueSubmit [] [] [] (Some renderFinishedFence_h);
       EvQueuePresent 1 [renderFinishedSemaphore]] ++
      t' /\
    fence_after FenceSignaled pre = FenceSignaled.
Proof.
  destruct (proj1 (proj2 (@fence_reset_discipline calm_env ready_window
                            FenceSignaled (fun _ => eq_refl))) 11%nat)
    as (pre & t' & H & _ & _ & _ & Hs & _).
  - repeat split.
  - exists pre, t'. split; [exact H|exact Hs].
Defined.
(** * Further properties of the lifecycle *)

(** ** The image count asked of the swapchain *)

Lemma clamp_within v lo hi : lo <= hi -> lo <= clamp v lo hi <= hi.
Proof.
  intros H. unfold clamp.
  destruct (Z.ltb_spec v lo); [lia|]. destruct (Z.ltb_spec hi v); lia.
Qed.

Lemma clamp_inside v lo hi : lo <= v <= hi -> clamp v lo hi = v.
Proof.
  intros H. unfold clamp.
  destruct (Z.ltb_spec v lo); [lia|]. destruct (Z.ltb_spec hi v); lia.
Qed.

(** X1.  On a window with its device attached, when the surface
    capabilities are answered with success and a current extent that is
    set, and the surface's [minImageCount] does not exceed the upper
    limit, which is its [maxImageCount] or 10 when it reports no maximum,
    [getImageCountAndExtent] makes the one query, leaves the window as it
    is and returns the current extent together with an image count that
    lies between [minImageCount] and that limit; the count is the
    window's default number of swapchain images whenever that number lies
    in the range. *)
Theorem image_count_within_surface_limits
    (answer : vk.Result * vk.SurfaceCapabilitiesKHR) (w : Window)
    (Hdev : is_some (_device w) = true)
    (Hok : fst answer = vk.eSuccess)
    (Hset : extent_is_set (vk.currentExtent (snd answer)) = true)
    (Hrange : vk.minImageCount (snd answer) <= image_count_limit (snd answer)) :
  exists n,
    getImageCountAndExtent answer w =
      mkRun w [EvGetSurfaceCapabilitiesKHR]
            (Returned (n, vk.currentExtent (snd answer))) /\
    vk.minImageCount (snd answer) <= n <= image_count_limit (snd answer) /\
    (vk.minImageCount (snd answer) <= defaultNumberOfSwapchainImages w
       <= image_count_limit (snd answer) ->
     n = defaultNumberOfSwapchainImages w).
Proof.
  destruct (_device w) as [d|] eqn:Hd; [|discriminate Hdev].
  rewrite (getImageCountAndExtent_run answer w Hd).
  unfold capabilities_outcome. rewrite Hok, Hset. cbn [Z.eqb vk.eSuccess].
  eexists. split; [reflexivity|]. fold (image_count_limit (snd answer)).
  split; [now apply clamp_within | apply clamp_inside].
Qed.

Lemma image_count_within_surface_limits_witness :
  exists n,
    getImageCountAndExtent (env_capabilities_read calm_env) fresh_window =
      mkRun fresh_window [EvGetSurfaceCapabilitiesKHR] (Returned (n, extent 800 600)) /\
    2 <= n <= 8 /\ (2 <= 3 <= 8 -> n = 3).
Proof.
  apply (@image_count_within_surface_limits
           (env_capabilities_read calm_env) fresh_window);
    [reflexivity | reflexivity | reflexivity | vm_compute; discriminate].
Defined.

(** ** What a completed build leaves behind *)

Lemma length_app_same {A} (l m : list A) :
  Nat.eqb (List.length (l ++ m)) (List.length m) = true -> l = [].
Proof.
  intros H. apply Nat.eqb_eq in H. rewrite length_app in H.
  destruct l; [reflexivity|]. cbn in H. lia.
Qed.

Lemma swapchain_part_ready_form env w :
  state w <> ReadyToRender ->
  state (window (swapchain_part_result env w)) = ReadyToRender ->
  exists n e,
    swapchain_part_result env w =
      mkRun (set_state ReadyToRender
               (set_renderFinishedFence true
                  (with_framebuffers (env_getSwapchainImagesKHR env)
                     (set_swapchainImageExtent e (set_nrSwapchainImages n w)))))
            ((swapchain_creation_calls n e ++ [EvGetSurfaceCapabilitiesKHR]) ++
             finishing_calls (env_getSwapchainImagesKHR env) e)
            (Returned tt) /\
    swapchainImageViews w = [] /\ swapchainFramebuffers w = [].
Proof.
  intros Hne H. unfold swapchain_part_result in *.
  repeat destruct_scrutinee_in H; set_projections;
    try discriminate H; try contradiction.
  eexists _, _. split; [reflexivity|].
  split; eapply length_app_same; eassumption.
Qed.

Lemma told_keeps_objects m : Forall keeps_objects (told m).
Proof. repeat constructor. Qed.

(** The shape of a build that ends in [ReadyToRender]. *)
Lemma build_ready_form env w :
  state w <> ReadyToRender ->
  state (window (build env w)) = ReadyToRender ->
  exists n e prefix w0,
    build env w =
      mkRun (set_state ReadyToRender
               (set_renderFinishedFence true
                  (with_framebuffers (env_getSwapchainImagesKHR env)
                     (set_swapchainImageExtent e (set_nrSwapchainImages n w0)))))
            (prefix ++
             (swapchain_creation_calls n e ++ [EvGetSurfaceCapabilitiesKHR]) ++
             finishing_calls (env_getSwapchainImagesKHR env) e)
            (Returned tt) /\
    Forall keeps_objects prefix /\
    is_some (_device w0) = true /\
    swapchainImageViews w0 = [] /\ swapchainFramebuffers w0 = [].
Proof.
  rewrite !build_run. intros Hne H.
  unfold build_result, surface_block_result, swapchain_block_result in *.
  destruct (state w) eqn:Hst; set_projections; try congruence;
    repeat destruct_scrutinee_in H; set_projections; try congruence.
  all: match goal with
       | H : state (window (swapchain_part_result ?e ?w0)) = ReadyToRender |- _ =>
           destruct (@swapchain_part_ready_form e w0) as (n & ex & Hr & Hv & Hf);
           [set_projections; congruence | exact H |];
           rewrite Hr; exists n, ex
       end.
  - eexists (told buildForNewDevice ++ [EvGetSurface; EvScore] ++ told buildForNewSurface), _.
    unfold prepend. cbn [window trace outcome]. rewrite <- !app_assoc.
    split; [reflexivity|]. split; [repeat constructor|].
    split; [cbn; now rewrite Heqo|]. split; assumption.
  - eexists ([EvGetSurface; EvScore] ++ told buildForNewSurface), _.
    unfold prepend. cbn [window trace outcome]. rewrite <- !app_assoc.
    split; [reflexivity|]. split; [repeat constructor|].
    split; [cbn; now rewrite Heqo|]. split; assumption.
  - exists [], w. split; [reflexivity|]. split; [constructor|].
    split; [now rewrite Heqo|]. split; assumption.
Qed.

(** X2.  A build that takes the window to [ReadyToRender] leaves one image
    view and one framebuffer for each swapchain image the driver reported,
    in the order of the images, the fence of the frame in place, and the
    device still attached. *)
Theorem build_leaves_one_framebuffer_per_image (env : Env) (w : Window)
    (Hstart : state w <> ReadyToRender)
    (Hready : state (window (build env w)) = ReadyToRender) :
  let w' := window (build env w) in
  outcome (build env w) = Returned tt /\
  swapchainImages w' = env_getSwapchainImagesKHR env /\
  swapchainImageViews w' = swapchainImages w' /\
  swapchainFramebuffers w' = swapchainImages w' /\
  renderFinishedFence w' = true /\
  is_some (_device w') = true.
Proof.
  destruct (build_ready_form env w Hstart Hready)
    as (n & e & prefix & w0 & Hb & _ & Hd & Hv & Hf).
  cbv zeta. rewrite Hb. cbn [window outcome].
  destruct w0. cbn in Hv, Hf, Hd |- *. subst. repeat split. exact Hd.
Qed.

Lemma build_leaves_one_framebuffer_per_image_witness :
  swapchainFramebuffers (window (build calm_env fresh_window)) = [10; 11; 12]%nat.
Proof.
  pose proof (@build_leaves_one_framebuffer_per_image calm_env fresh_window) as H.
  cbv zeta in H.
  destruct H as (_ & Hi & _ & Hf & _);
    [discriminate | vm_compute; reflexivity |].
  rewrite Hf, Hi. reflexivity.
Defined.

(** ** Objects created and released *)

Lemma collect_app {A B} (f : A -> option B) l m :
  collect f (l ++ m) = collect f l ++ collect f m.
Proof.
  induction l as [|x l IH]; [reflexivity|]. cbn. destruct (f x); cbn; now rewrite IH.
Qed.

Lemma collect_none {A B} (f : A -> option B) l :
  Forall (fun x => f x = None) l -> collect f l = [].
Proof.
  induction 1 as [|x l Hx _ IH]; [reflexivity|]. cbn. now rewrite Hx.
Qed.

Lemma created_framebuffer_calls images e :
  Permutation (created (framebuffer_calls images e))
              (map (fun fb => ResObject (ObjFramebuffer fb)) images ++
               map (fun v => ResObject (ObjSwapchainImageView v)) images).
Proof.
  induction images as [|i images IH]; [constructor|].
  cbn [framebuffer_calls flat_map map app].
  change (created ([EvCreateImageView (ObjSwapchainImageView i);
                    EvCreateFramebuffer i e] ++ framebuffer_calls images e))
    with (ResObject (ObjSwapchainImageView i) :: ResObject (ObjFramebuffer i)
            :: created (framebuffer_calls images e)).
  etransitivity; [apply perm_swap|]. constructor.
  apply Permutation_cons_app. exact IH.
Qed.

Lemma released_destroy {A} (f : A -> Object) l :
  released (map (fun x => EvDestroy (f x)) l) = map (fun x => ResObject (f x)) l.
Proof.
  unfold released. induction l as [|x l IH]; [reflexivity|]. cbn. now rewrite IH.
Qed.

Lemma released_notify m : released (notify m) = [].
Proof. reflexivity. Qed.

Lemma released_deeper_calls s : released (deeper_calls s) = [].
Proof.
  unfold deeper_calls.
  destruct (State_ge s SurfaceLost), (State_ge s DeviceLost), (State_ge s WindowLost);
    reflexivity.
Qed.

Lemma Permutation_rev3 {A} (a b c : list A) :
  Permutation (a ++ b ++ c) (c ++ b ++ a).
Proof.
  etransitivity; [apply Permutation_app_comm|]. rewrite <- app_assoc.
  etransitivity; [|apply Permutation_app_comm]. rewrite <- app_assoc.
  apply Permutation_app_head, Permutation_app_comm.
Qed.

Lemma released_teardown w d :
  _device w = Some d ->
  State_ge (state w) SwapchainLost = true ->
  released (trace (teardown w)) =
  [ResObject (ObjSemaphore renderFinishedSemaphore);
   ResObject (ObjSemaphore imageAvailableSemaphore);
   ResObject (ObjFence renderFinishedFence_h); ResCommandBuffer] ++
  (map (fun fb => ResObject (ObjFramebuffer fb)) (swapchainFramebuffers w) ++
   map (fun v => ResObject (ObjSwapchainImageView v)) (swapchainImageViews w)) ++
  [ResObject ObjDepthImageView; ResObject ObjColorImageView;
   ResObject ObjRenderPass; ResObject ObjSwapchain;
   ResImage depthImage; ResImage colorImage].
Proof.
  intros Hd Hs. rewrite (teardown_run w Hd Hs). cbn [trace].
  unfold released at 1. rewrite collect_app. fold (released (deeper_calls (state w))).
  rewrite released_deeper_calls, app_nil_r.
  unfold swapchain_level_calls, release_framebuffers. rewrite !collect_app.
  fold (released (map (fun fb => EvDestroy (ObjFramebuffer fb)) (swapchainFramebuffers w))).
  fold (released (map (fun v => EvDestroy (ObjSwapchainImageView v)) (swapchainImageViews w))).
  rewrite !released_destroy.
  replace (collect releases (wait_idle_calls w)) with (@nil Resource)
    by (unfold wait_idle_calls; destruct (renderFinishedFence w); reflexivity).
  cbn [collect releases notify map app release_sync release_command_buffer
       release_render_pass release_swapchain].
  rewrite <- !app_assoc. reflexivity.
Qed.

Lemma created_ready_trace prefix n e images :
  Forall keeps_objects prefix ->
  created (prefix ++
           (swapchain_creation_calls n e ++ [EvGetSurfaceCapabilitiesKHR]) ++
           finishing_calls images e) =
  [ResObject ObjSwapchain; ResImage depthImage; ResImage colorImage;
   ResObject ObjRenderPass; ResObject ObjDepthImageView;
   ResObject ObjColorImageView] ++
  created (framebuffer_calls images e) ++
  [ResCommandBuffer; ResObject (ObjSemaphore imageAvailableSemaphore);
   ResObject (ObjSemaphore renderFinishedSemaphore);
   ResObject (ObjFence renderFinishedFence_h)].
Proof.
  intros Hp. unfold created, finishing_calls. rewrite !collect_app.
  rewrite (@collect_none _ _ creates prefix)
    by (eapply Forall_impl; [|exact Hp]; intros ? [H _]; exact H).
  reflexivity.
Qed.

(** X3.  After a build that took the window to [ReadyToRender], a
    teardown for any loss releases the objects of the swapchain level that
    the build created: the swapchain, the two attachment images and their
    views, the render pass, one view and one framebuffer per swapchain
    image, the command buffer, the two semaphores and the fence, each
    once. *)
Theorem teardown_releases_what_build_created (env : Env) (w : Window) (lost : State)
    (Hstart : state w <> ReadyToRender)
    (Hready : state (window (build env w)) = ReadyToRender)
    (Hlost : is_lost_marker lost = true) :
  let w' := set_state lost (window (build env w)) in
  outcome (teardown w') = Returned tt /\
  Permutation (created (trace (build env w))) (released (trace (teardown w'))).
Proof.
  destruct (build_ready_form env w Hstart Hready)
    as (n & e & prefix & w0 & Hb & Hp & Hd & Hv & Hf).
  cbv zeta. rewrite Hb. cbn [window trace].
  destruct w0 as [st dev surf dflt nr ext imgs views fbs fence cur rsc rrs rl rr].
  cbn in Hv, Hf, Hd. subst views fbs. destruct dev as [d|]; [|discriminate Hd].
  split; [erewrite teardown_run by (first [reflexivity | exact Hlost]); reflexivity|].
  erewrite released_teardown by (first [reflexivity | exact Hlost]).
  rewrite (created_ready_trace n e (env_getSwapchainImagesKHR env) Hp).
  cbn [set_state set_renderFinishedFence with_framebuffers
       set_swapchainFramebuffers set_swapchainImageViews set_swapchainImages
       swapchainFramebuffers swapchainImageViews].
  etransitivity; [apply Permutation_rev3|].
  apply Permutation_app; [|apply Permutation_app; [apply created_framebuffer_calls|]].
  - apply (Permutation_cons_app [_; _; _] []). cbn.
    apply (Permutation_cons_app [_] [_]). cbn.
    apply (Permutation_cons_app [] [_]). cbn. apply Permutation_refl.
  - apply (Permutation_cons_app [_; _; _] [_; _]). cbn.
    apply (Permutation_cons_app [_; _; _] [_]). cbn.
    apply (Permutation_cons_app [_; _; _] []). cbn.
    apply (Permutation_cons_app [_; _] []). cbn.
    apply (Permutation_cons_app [] [_]). cbn. apply Permutation_refl.
Qed.

Lemma teardown_releases_what_build_created_witness :
  Permutation
    (created (trace (build calm_env fresh_window)))
    (released (trace (teardown (set_state SurfaceLost
                                  (window (build calm_env fresh_window)))))).
Proof.
  apply (@teardown_releases_what_build_created calm_env fresh_window SurfaceLost);
    [discriminate | vm_compute; reflexivity | reflexivity].
Defined.

(** ** The frame after the image has been acquired *)

Lemma teardown_returns w d :
  _device w = Some d -> outcome (teardown w) = Returned tt.
Proof.
  intros Hd. destruct (State_ge (state w) SwapchainLost) eqn:Hs.
  - now rewrite (teardown_run w Hd Hs).
  - now rewrite (teardown_below w Hs).
Qed.

(** [render_frame] when the acquire is answered with success. *)
(** The outcome of the present and the teardown that end a frame is
    never the exception of [std::vector::at]. *)
Lemma present_then_teardown_in_range env idx w d :
  _device w = Some d ->
  outcome (bind (presentImageToQueue env idx renderFinishedSemaphore)
                (fun _ => teardown) w) <> Raised (Thrown std_out_of_range).
Proof.
  intros Hd.
  destruct (present_run env w idx renderFinishedSemaphore Hd)
    as (_ & H1 & H2 & H3 & H4). cbv zeta in *.
  assert (Hw : forall s, outcome (teardown (set_state s w)) = Returned tt).
  { intros s. apply (@teardown_returns _ d). now destruct w. }
  destruct (bind_cases (presentImageToQueue env idx renderFinishedSemaphore)
              (fun _ => teardown) w) as [[a [Ho Hb]]|[f [Ho Hb]]]; rewrite Hb.
  - cbn [prepend outcome].
    destruct (Z.eq_dec (env_presentKHR env) vk.eSuccess) as [E|N1].
    { destruct (H1 E) as [_ ->]. rewrite (teardown_returns w Hd). discriminate. }
    destruct (Z.eq_dec (env_presentKHR env) vk.eSuboptimalKHR) as [E|N2].
    { destruct (H2 (or_introl E)) as [_ ->]. rewrite Hw. discriminate. }
    destruct (Z.eq_dec (env_presentKHR env) vk.eErrorOutOfDateKHR) as [E|N3].
    { destruct (H2 (or_intror E)) as [_ ->]. rewrite Hw. discriminate. }
    destruct (Z.eq_dec (env_presentKHR env) vk.eErrorSurfaceLostKHR) as [E|N4].
    { destruct (H3 E) as [_ ->]. rewrite Hw. discriminate. }
    destruct H4 as [H4 _]; [unfold present_handled; tauto|].
    rewrite Ho in H4. discriminate H4.
  - cbn [outcome]. destruct H4 as [H4 _].
    + unfold present_handled. intros [E|[E|[E|E]]].
      * destruct (H1 E) as [H _]. congruence.
      * destruct (H2 (or_introl E)) as [H _]. congruence.
      * destruct (H2 (or_intror E)) as [H _]. congruence.
      * destruct (H3 E) as [H _]. congruence.
    + rewrite Ho in H4. injection H4 as ->. discriminate.
Qed.

(** X4.  The index of the acquired image is checked against the
    framebuffers of the window.  An index past them ends the frame with
    the exception of [std::vector::at] right after the acquire: nothing is
    waited for, reset, recorded, submitted or presented, and the window is
    as before.  An index within them starts the frame on the framebuffer
    it names, and whatever the frame ends with, it is not that
    exception. *)
Theorem acquired_index_is_checked (env : Env) (w : Window)
    (Hdev : is_some (_device w) = true)
    (Hacq : fst (env_acquireNextImageKHR env) = vk.eSuccess)
    (Hidx : 0 <= snd (env_acquireNextImageKHR env)) :
  let idx := snd (env_acquireNextImageKHR env) in
  let n := Z.of_nat (List.length (swapchainFramebuffers w)) in
  (n <= idx ->
   render_frame env w =
     mkRun w [EvAcquireNextImageKHR 0 imageAvailableSemaphore]
           (Raised (Thrown std_out_of_range))) /\
  (idx < n ->
   outcome (render_frame env w) <> Raised (Thrown std_out_of_range) /\
   exists fb t',
     nth_error (swapchainFramebuffers w) (Z.to_nat idx) = Some fb /\
     trace (render_frame env w) =
       [EvAcquireNextImageKHR 0 imageAvailableSemaphore] ++ frame_calls fb idx ++ t').
Proof.
  destruct (_device w) as [d|] eqn:Hd; [|discriminate Hdev].
  cbv zeta. rewrite (render_frame_acquired env w Hd Hacq).
  set (idx := snd (env_acquireNextImageKHR env)) in *.
  split; intros Hn.
  - rewrite render_frame_body_out_of_range; [reflexivity|].
    apply nth_error_None. lia.
  - destruct (nth_error (swapchainFramebuffers w) (Z.to_nat idx)) as [fb|] eqn:Hfb.
    2:{ apply nth_error_None in Hfb. lia. }
    rewrite (render_frame_body_run env idx w Hd Hfb).
    cbn [prepend outcome trace window]. split.
    + now apply present_then_teardown_in_range with (d := d).
    + destruct (presented_shape env idx w Hd) as [t' [Hp _]].
      exists fb, t'. split; [reflexivity|]. rewrite Hp.
      unfold frame_calls. rewrite <- !app_assoc. reflexivity.
Qed.

Lemma acquired_index_is_checked_witness :
  render_frame (with_acquire (vk.eSuccess, 3) calm_env) ready_window =
    mkRun ready_window [EvAcquireNextImageKHR 0 imageAvailableSemaphore]
          (Raised (Thrown std_out_of_range)).
Proof.
  refine (proj1 (@acquired_index_is_checked (with_acquire (vk.eSuccess, 3) calm_env)
                   ready_window _ _ _) _).
  - reflexivity.
  - reflexivity.
  - cbn. lia.
  - vm_compute. discriminate.
Defined.

(** ** A lost surface while the swapchain is built *)

Lemma set_state_same w : set_state (state w) w = w.
Proof. now destruct w. Qed.

(** X5.  [build] treats the loss of the surface differently at its two
    reads of the surface capabilities.  Reported by the first read, before
    the swapchain is created, the loss leaves no mark: [build] returns
    with the window as it was, in [NoSwapchain], and the teardown of the
    next tick has nothing to do.  Reported by the second read, after the
    swapchain was created, the state becomes [SurfaceLost] and the
    swapchain and its two images are released again. *)
Theorem surface_loss_during_build (env : Env) (w : Window)
    (Hdev : is_some (_device w) = true)
    (Hst : state w = NoSwapchain) :
  (fst (env_capabilities_read env) = vk.eErrorSurfaceLostKHR ->
   build env w = mkRun w [EvGetSurfaceCapabilitiesKHR] (Returned tt) /\
   teardown (window (build env w)) = mkRun w [] (Returned tt)) /\
  (fst (env_capabilities_read env) = vk.eSuccess ->
   reportable (vk.currentExtent (snd (env_capabilities_read env))) ->
   ~ below_minimum (vk.currentExtent (snd (env_capabilities_read env)))
                   (env_preferred_size_build env) ->
   ~ above_maximum (vk.currentExtent (snd (env_capabilities_read env)))
                   (env_preferred_size_build env) ->
   env_createSwapchainKHR env = vk.eSuccess ->
   fst (env_capabilities_check env) = vk.eErrorSurfaceLostKHR ->
   outcome (build env w) = Returned tt /\
   state (window (build env w)) = SurfaceLost /\
   trace (build env w) =
     swapchain_creation_calls (image_count w (snd (env_capabilities_read env)))
                              (vk.currentExtent (snd (env_capabilities_read env))) ++
     [EvGetSurfaceCapabilitiesKHR] ++ release_swapchain).
Proof.
  destruct (_device w) as [d|] eqn:Hd; [|discriminate Hdev].
  rewrite !build_run. unfold build_result, swapchain_block_result.
  rewrite Hst, Hd. unfold swapchain_part_result. split.
  - intros Hlost.
    assert (Hc : capabilities_outcome (defaultNumberOfSwapchainImages w)
                   (env_capabilities_read env) =
                 Raised (Thrown (vk_SystemError vk.eErrorSurfaceLostKHR)))
      by (unfold capabilities_outcome; now rewrite Hlost).
    rewrite Hc.
    cbn [Z.eqb vk.eErrorSurfaceLostKHR vk.eSuccess is_SurfaceLostKHRError window].
    rewrite <- Hst, set_state_same. split; [reflexivity|].
    apply teardown_below. now rewrite Hst.
  - intros Hok Hrep Hmin Hmax Hcreate Hlost.
    rewrite (capabilities_outcome_ok _ _ Hok (reportable_is_set Hrep)).
    rewrite (extent_verdict_in_range Hrep Hmin Hmax).
    rewrite Hcreate. cbn [Z.eqb vk.eSuccess]. cbv iota.
    assert (Hc : capabilities_outcome (defaultNumberOfSwapchainImages w)
                   (env_capabilities_check env) =
                 Raised (Thrown (vk_SystemError vk.eErrorSurfaceLostKHR)))
      by (unfold capabilities_outcome; now rewrite Hlost).
    rewrite Hc.
    cbn [Z.eqb vk.eErrorSurfaceLostKHR vk.eSuccess is_SurfaceLostKHRError
         window outcome trace state set_state].
    unfold image_count. rewrite <- app_assoc. repeat split.
Qed.

Lemma surface_loss_during_build_witness :
  build (with_read (vk.eErrorSurfaceLostKHR, snd (env_capabilities_read calm_env))
                   calm_env)
        (set_state NoSwapchain fresh_window) =
  mkRun (set_state NoSwapchain fresh_window) [EvGetSurfaceCapabilitiesKHR]
        (Returned tt).
Proof.
  refine (proj1 (proj1 (@surface_loss_during_build
            (with_read (vk.eErrorSurfaceLostKHR, snd (env_capabilities_read calm_env))
                       calm_env)
            (set_state NoSwapchain fresh_window) _ _) _));
    reflexivity.
Defined.

(** ** The closed window *)

(** X6.  [NoWindow] is final: on a window in that state [teardown],
    [build] and a whole tick of [render] make no call, change nothing and
    return, whatever the outside world would answer. *)
Theorem closed_window_is_inert (env : Env) (w : Window)
    (Hst : state w = NoWindow) :
  teardown w = mkRun w [] (Returned tt) /\
  build env w = mkRun w [] (Returned tt) /\
  render env w = mkRun w [] (Returned tt).
Proof.
  assert (Ht : teardown w = mkRun w [] (Returned tt))
    by (apply teardown_below; now rewrite Hst).
  assert (Hb : build env w = mkRun w [] (Returned tt)).
  { rewrite build_run. unfold build_result. rewrite Hst. reflexivity. }
  split; [exact Ht|]. split; [exact Hb|].
  unfold render. erewrite bind_returned by exact Ht.
  erewrite bind_returned by exact Hb.
  rewrite render_when_built_run, Hst. reflexivity.
Qed.

Lemma closed_window_is_inert_witness :
  render calm_env (set_state NoWindow ready_window) =
  mkRun (set_state NoWindow ready_window) [] (Returned tt).
Proof.
  refine (proj2 (proj2 (@closed_window_is_inert calm_env
                          (set_state NoWindow ready_window) _))).
  reflexivity.
Defined.

(** ** A loss found when the frame is presented *)

Lemma swapchain_level_calls_state s w :
  swapchain_level_calls (set_state s w) = swapchain_level_calls w.
Proof. now destruct w. Qed.

(** [render_frame] on a window whose acquired image has the framebuffer
    [fb]. *)
Lemma render_frame_presented env w d fb :
  _device w = Some d ->
  fst (env_acquireNextImageKHR env) = vk.eSuccess ->
  nth_error (swapchainFramebuffers w) (Z.to_nat (snd (env_acquireNextImageKHR env))) =
    Some fb ->
  forall w1,
    presentImageToQueue env (snd (env_acquireNextImageKHR env))
                        renderFinishedSemaphore w =
      mkRun w1 [EvQueuePresent (snd (env_acquireNextImageKHR env))
                               [renderFinishedSemaphore]] (Returned tt) ->
    render_frame env w =
    prepend ([EvAcquireNextImageKHR 0 imageAvailableSemaphore] ++
             frame_calls fb (snd (env_acquireNextImageKHR env)))
            (teardown w1).
Proof.
  intros Hd Hacq Hfb w1 Hp.
  rewrite (render_frame_acquired env w Hd Hacq).
  rewrite (render_frame_body_run env _ w Hd Hfb).
  erewrite bind_returned by exact Hp.
  unfold prepend, frame_calls. destruct (teardown w1) as [w2 t2 o2].
  cbn [window trace outcome]. rewrite <- !app_assoc. reflexivity.
Qed.

Lemma present_returned env w d idx s :
  _device w = Some d ->
  outcome (presentImageToQueue env idx renderFinishedSemaphore w) = Returned tt ->
  window (presentImageToQueue env idx renderFinishedSemaphore w) = s ->
  presentImageToQueue env idx renderFinishedSemaphore w =
  mkRun s [EvQueuePresent idx [renderFinishedSemaphore]] (Returned tt).
Proof.
  intros Hd Ho Hw.
  destruct (present_run env w idx renderFinishedSemaphore Hd) as (Ht & _).
  cbv zeta in Ht.
  destruct (presentImageToQueue env idx renderFinishedSemaphore w) as [w1 t1 o1].
  cbn in *. now subst.
Qed.

(** X7.  A loss that the present of a frame reports is torn down before
    [render] returns.  On a window in [ReadyToRender] whose acquired image
    has a framebuffer: a successful present ends the tick after the frame
    with the window as it was; a suboptimal or out-of-date present is
    followed in the same tick by the release of the swapchain level, and
    the window is left in [NoSwapchain] with its surface and device; a
    present that reports the surface lost is followed by the release of
    the swapchain level and of the surface, and the window is left in
    [NoSurface]. *)
Theorem loss_at_present_is_torn_down_at_once (env : Env) (w : Window) (fb : Handle)
    (Hdev : is_some (_device w) = true)
    (Hst : state w = ReadyToRender)
    (Hacq : fst (env_acquireNextImageKHR env) = vk.eSuccess)
    (Hfb : nth_error (swapchainFramebuffers w)
                     (Z.to_nat (snd (env_acquireNextImageKHR env))) = Some fb) :
  let frame := [EvAcquireNextImageKHR 0 imageAvailableSemaphore] ++
               frame_calls fb (snd (env_acquireNextImageKHR env)) in
  (env_presentKHR env = vk.eSuccess ->
   render_frame env w = mkRun w frame (Returned tt)) /\
  (env_presentKHR env = vk.eSuboptimalKHR \/
   env_presentKHR env = vk.eErrorOutOfDateKHR ->
   render_frame env w =
     mkRun (torn_down (set_state SwapchainLost w))
           (frame ++ swapchain_level_calls w) (Returned tt) /\
   state (window (render_frame env w)) = NoSwapchain /\
   intrinsic (window (render_frame env w)) = intrinsic w /\
   _device (window (render_frame env w)) = _device w) /\
  (env_presentKHR env = vk.eErrorSurfaceLostKHR ->
   render_frame env w =
     mkRun (torn_down (set_state SurfaceLost w))
           (frame ++ swapchain_level_calls w ++
            notify teardownForSurfaceLost ++ [EvDestroySurfaceKHR])
           (Returned tt) /\
   state (window (render_frame env w)) = NoSurface /\
   _device (window (render_frame env w)) = _device w).
Proof.
  destruct (_device w) as [d|] eqn:Hd; [|discriminate Hdev].
  set (idx := snd (env_acquireNextImageKHR env)) in *.
  destruct (present_run env w idx renderFinishedSemaphore Hd)
    as (_ & H1 & H2 & H3 & _). cbv zeta in *.
  assert (Hds : forall s, _device (set_state s w) = Some d) by (now destruct w).
  split; [|split].
  - intros E. destruct (H1 E) as [Ho Hw].
    rewrite (@render_frame_presented env w d fb Hd Hacq Hfb _
               (@present_returned env w d idx _ Hd Ho Hw)).
    rewrite teardown_below by (now rewrite Hst).
    unfold prepend. cbn [window trace outcome]. now rewrite app_nil_r.
  - intros E. destruct (H2 E) as [Ho Hw].
    rewrite (@render_frame_presented env w d fb Hd Hacq Hfb _
               (@present_returned env w d idx _ Hd Ho Hw)).
    rewrite (teardown_run (set_state SwapchainLost w) (Hds _)) by (now destruct w).
    unfold prepend. cbn [window trace outcome].
    rewrite swapchain_level_calls_state.
    replace (deeper_calls (state (set_state SwapchainLost w))) with (@nil Event)
      by (now destruct w).
    rewrite app_nil_r. split; [reflexivity|]. now destruct w.
  - intros E. destruct (H3 E) as [Ho Hw].
    rewrite (@render_frame_presented env w d fb Hd Hacq Hfb _
               (@present_returned env w d idx _ Hd Ho Hw)).
    rewrite (teardown_run (set_state SurfaceLost w) (Hds _)) by (now destruct w).
    unfold prepend. cbn [window trace outcome].
    rewrite swapchain_level_calls_state.
    replace (deeper_calls (state (set_state SurfaceLost w)))
      with (notify teardownForSurfaceLost ++ [EvDestroySurfaceKHR])
      by (now destruct w).
    split; [reflexivity|]. now destruct w.
Qed.

Lemma loss_at_present_is_torn_down_at_once_witness :
  state (window (render_frame
                   (mkEnv 7%nat 10 (env_capabilities_read calm_env)
                          (env_capabilities_check calm_env)
                          (env_preferred_size_build calm_env) vk.eSuccess
                          [10; 11; 12]%nat (fun _ => false)
                          (env_preferred_size calm_env) (fun _ => false)
                          (vk.eSuccess, 1) vk.eErrorOutOfDateKHR)
                   ready_window)) = NoSwapchain.
Proof.
  refine (proj1 (proj2 (proj1 (proj2 (@loss_at_present_is_torn_down_at_once
            (mkEnv 7%nat 10 (env_capabilities_read calm_env)
                   (env_capabilities_check calm_env)
                   (env_preferred_size_build calm_env) vk.eSuccess
                   [10; 11; 12]%nat (fun _ => false)
                   (env_preferred_size calm_env) (fun _ => false)
                   (vk.eSuccess, 1) vk.eErrorOutOfDateKHR)
            ready_window 11%nat _ _ _ _)) _))).
  - reflexivity.
  - vm_compute. reflexivity.
  - reflexivity.
  - vm_compute. reflexivity.
  - right. reflexivity.
Defined.

(** ** Requests are taken up once *)

Lemma teardown_keeps_requests w :
  requests (window (teardown w)) = requests w.
Proof.
  destruct (State_ge (state w) SwapchainLost) eqn:Hs.
  - destruct (_device w) as [d|] eqn:Hd.
    + rewrite (teardown_run w Hd Hs). unfold torn_down. cbn [window].
      destruct w as [st dev surf dflt nr ext imgs views fbs fence cur rsc rrs rl rr].
      destruct st; reflexivity.
    + now rewrite (teardown_no_device w Hd Hs).
  - now rewrite (teardown_below w Hs).
Qed.

Lemma acquire_keeps_requests env w :
  requests (window (acquireNextImageFromSwapchain env w)) = requests w.
Proof.
  destruct (_device w) as [d|] eqn:Hd.
  - open_window w Hd. unfold acquireNextImageFromSwapchain.
    destruct (env_acquireNextImageKHR env) as [r i]. cbn [fst snd]. cbn zeta.
    unfold_monad; unfold_results; cbn; split_eqb; reflexivity.
  - unfold acquireNextImageFromSwapchain.
    erewrite bind_raised by (apply device_call_no_device; exact Hd). reflexivity.
Qed.

Lemma present_keeps_requests env idx sem w :
  requests (window (presentImageToQueue env idx sem w)) = requests w.
Proof.
  destruct w as [st dev surf dflt nr ext imgs views fbs fence cur rsc rrs rl rr].
  unfold presentImageToQueue. generalize (env_presentKHR env). intros r.
  destruct dev as [d|]; unfold_monad; unfold_results; cbn; [|reflexivity].
  split_eqb; reflexivity.
Qed.

Lemma render_frame_body_keeps_requests env idx w :
  requests (window (render_frame_body env idx w)) = requests w.
Proof.
  destruct (nth_error (swapchainFramebuffers w) (Z.to_nat idx)) as [fb|] eqn:Hfb.
  2:{ now rewrite (render_frame_body_out_of_range env idx w Hfb). }
  destruct (_device w) as [d|] eqn:Hd.
  - rewrite (render_frame_body_run env idx w Hd Hfb). cbn [prepend window].
    destruct (bind_cases (presentImageToQueue env idx renderFinishedSemaphore)
                (fun _ => teardown) w) as [[a [Ho Hb]]|[f [Ho Hb]]]; rewrite Hb;
      cbn [prepend window].
    + rewrite teardown_keeps_requests. apply present_keeps_requests.
    + apply present_keeps_requests.
  - unfold render_frame_body. erewrite bind_returned by reflexivity. cbv beta.
    rewrite Hfb. erewrite bind_returned by reflexivity.
    erewrite bind_raised by (apply device_call_no_device; exact Hd). reflexivity.
Qed.

Lemma render_frame_keeps_requests env w :
  requests (window (render_frame env w)) = requests w.
Proof.
  unfold render_frame.
  destruct (bind_cases (acquireNextImageFromSwapchain env)
              (fun o => match o with
                        | None => ret tt
                        | Some i => render_frame_body env i
                        end) w) as [[a [Ho Hb]]|[f [Ho Hb]]]; rewrite Hb;
    cbn [prepend window]; [|apply acquire_keeps_requests].
  destruct a as [i|].
  - rewrite render_frame_body_keeps_requests. apply acquire_keeps_requests.
  - apply acquire_keeps_requests.
Qed.

(** A tick that ends in [ReadyToRender] has been through the prologue of
    [render], which takes up every request. *)
Lemma render_ready_requests env w :
  state (window (render env w)) = ReadyToRender ->
  requests (window (render env w)) = (false, false, false, false).
Proof.
  unfold render.
  destruct (teardown w) as [w1 t1 [[]|f1]] eqn:H1.
  2:{ erewrite bind_raised by exact H1. cbn [window]. intros Hs.
      assert (Ht : state (window (teardown w)) = ReadyToRender)
        by (rewrite H1; exact Hs).
      rewrite (teardown_ready w Ht) in H1. discriminate H1. }
  erewrite bind_returned by exact H1.
  destruct (build env w1) as [w2 t2 [[]|f2]] eqn:H2.
  2:{ erewrite bind_raised by exact H2. cbn [window]. intros Hs.
      destruct (build_ready env w1) as [[_ Hb]|[Ho _]].
      - rewrite H2. exact Hs.
      - rewrite H2 in Hb. discriminate Hb.
      - rewrite H2 in Ho. discriminate Ho. }
  erewrite bind_returned by exact H2.
  rewrite render_when_built_run.
  destruct (State_eqb (state w2) ReadyToRender) eqn:Hs.
  2:{ cbn [window]. intros E. rewrite E in Hs. discriminate Hs. }
  intros _.
  destruct (need_redraw env w2).
  - pose proof (render_frame_keeps_requests env (after_prologue env w2)) as K.
    destruct (render_frame env (after_prologue env w2)) as [w3 t3 o3].
    cbn [prepend window] in *. rewrite K. reflexivity.
  - reflexivity.
Qed.

(** X8.  A request is served by one tick.  When a tick of [render] ends
    with the window in [ReadyToRender], the four requests (change of
    settings, resize, layout, redraw) have been taken up; if none is made
    before the next tick and the layout of the widget tree reports nothing
    to draw, that tick makes the calls of the first step and no other:
    it asks the widget tree for its constraints and preferred size, asks
    for a new window size when the window extent has left the preferred
    size, passes the layout parameters and asks for the layout.  It does
    no frame work: no image is acquired, nothing is recorded, submitted
    or presented. *)
Theorem request_is_served_by_one_tick (env env' : Env) (w : Window)
    (Hready : state (window (render env w)) = ReadyToRender)
    (Hcalm : forall need_layout, env_update_layout env' need_layout = false) :
  let w' := window (render env w) in
  requests w' = (false, false, false, false) /\
  render env' w' =
    mkRun (after_prologue env' w') (prologue_calls env' w') (Returned tt) /\
  Forall (fun e => is_frame_work e = false) (trace (render env' w')).
Proof.
  cbv zeta. pose proof (render_ready_requests env w Hready) as R.
  set (w' := window (render env w)) in *.
  assert (E : render env' w' =
              mkRun (after_prologue env' w') (prologue_calls env' w') (Returned tt)).
  { unfold render.
    erewrite bind_returned by (apply teardown_below; now rewrite Hready).
    erewrite bind_returned
      by (rewrite build_run; unfold build_result; now rewrite Hready).
    rewrite render_when_built_run, Hready. cbn [State_eqb State_ordinal Z.eqb].
    unfold need_redraw. rewrite Hcalm.
    unfold requests in R. injection R as _ _ _ ->.
    unfold prepend. cbn. now rewrite app_nil_r. }
  split; [exact R|]. split; [exact E|].
  rewrite E. apply prologue_calls_no_frame_work.
Qed.

Lemma request_is_served_by_one_tick_witness :
  Forall (fun e => is_frame_work e = false)
         (trace (render calm_env (window (render calm_env fresh_window)))).
Proof.
  refine (proj2 (proj2 (@request_is_served_by_one_tick calm_env calm_env
                          fresh_window _ _))).
  - vm_compute. reflexivity.
  - reflexivity.
Defined.

(** * The Win32 window *)

Import win32.

(** ** Runs of member functions *)

Lemma and_then_returned {S A B} (m : Act S A) (k : A -> Act S B) s s1 c1 a :
  m s = mkRan s1 c1 (Returned a) ->
  and_then m k s = match k a s1 with mkRan s2 c2 o => mkRan s2 (c1 ++ c2) o end.
Proof. intros H. unfold and_then. now rewrite H. Qed.

Lemma and_then_raised {S A B} (m : Act S A) (k : A -> Act S B) s s1 c1 f :
  m s = mkRan s1 c1 (Raised f) ->
  and_then m k s = mkRan s1 c1 (Raised f).
Proof. intros H. unfold and_then. now rewrite H. Qed.

Lemma and_then_assoc {S A B C} (m : Act S A) (k1 : A -> Act S B) (k2 : B -> Act S C) s :
  and_then (and_then m k1) k2 s = and_then m (fun a => and_then (k1 a) k2) s.
Proof.
  unfold and_then. destruct (m s) as [s1 c1 [a|f]]; [|reflexivity].
  destruct (k1 a s1) as [s2 c2 [b|f]]; [|reflexivity].
  destruct (k2 b s2) as [s3 c3 o]. now rewrite app_assoc.
Qed.

Lemma narrow_cast_fits {S} lo hi x (s : S) :
  lo <= x <= hi -> narrow_cast lo hi x s = mkRan s [] (Returned x).
Proof.
  intros H. unfold narrow_cast, assume, and_then, pure.
  replace ((lo <=? x) && (x <=? hi)) with true; [reflexivity|].
  symmetry. apply andb_true_iff. split; apply Z.leb_le; lia.
Qed.

(** Lay the sequencing of the member functions open. *)
Ltac unfold_acts :=
  unfold scoped_lock, assume_unlocked, lock, unlock, lock_count, narrow_cast,
    base_assign, base_member, assign, member, and_then, read, update, os_call,
    assume, pure, fail, tt_no_default in *.

Ltac open_self s :=
  let g := fresh "g" in
  let w := fresh "w" in
  destruct s as [g w];
  destruct g as [count table table_mutex registered opened cursors];
  destruct w as [vulkan hwnd sz rsz act dp os_rect cur high last tracking
                 dc_time dc_duration].

Lemma handleSuragates_run c s :
  unlocked s ->
  handleSuragates c s =
  mkRan (mkSelf (statics s)
           (set_highSurrogate (fst (surrogate_step (highSurrogate (this s)) c))
                              (this s)))
        [] (Returned (snd (surrogate_step (highSurrogate (this s)) c))).
Proof.
  unfold unlocked. intros H. open_self s. cbn in H. subst count.
  unfold handleSuragates, surrogate_step. unfold_acts. cbn.
  destruct ((55296 <=? c) && (c <=? 56319)); cbn; [reflexivity|].
  destruct ((56320 <=? c) && (c <=? 57343)); cbn; reflexivity.
Qed.

(** ** Surrogate pairs *)

Lemma lor_low_bits a b :
  0 <= b < 1024 -> Z.lor (a * 1024) b = a * 1024 + b.
Proof.
  intros Hb. rewrite Z.add_nocarry_lxor; [apply eq_sym, Z.lxor_lor|].
  all: change 1024 with (2 ^ 10); rewrite <- Z.shiftl_mul_pow2 by lia.
  all: apply Z.bits_inj'; intros n Hn; rewrite Z.land_spec, Z.bits_0.
  all: destruct (Z.ltb_spec n 10) as [L|G].
  all: try (rewrite Z.shiftl_spec_low by lia; reflexivity).
  all: rewrite (Z.bits_above_log2 b n), andb_false_r; try reflexivity; try lia.
  all: destruct (Z.eq_dec b 0) as [->|N]; [cbn; lia|].
  all: apply Z.log2_lt_pow2; try lia.
  all: apply Z.lt_le_trans with (2 ^ 10); [lia|].
  all: apply Z.pow_le_mono_r; lia.
Qed.

Lemma surrogate_step_high cp :
  65536 <= cp <= 1114111 ->
  forall high,
    surrogate_step high (high_surrogate cp) = (((cp - 65536) / 1024 + 64) * 1024, 0).
Proof.
  intros Hcp high. unfold surrogate_step, high_surrogate, wrap32.
  assert (0 <= (cp - 65536) / 1024 < 1024).
  { split; [apply Z.div_pos; lia|apply Z.div_lt_upper_bound; lia]. }
  replace ((55296 <=? 55296 + (cp - 65536) / 1024) &&
           (55296 + (cp - 65536) / 1024 <=? 56319)) with true
    by (symmetry; apply andb_true_iff; split; apply Z.leb_le; lia).
  rewrite Z.shiftl_mul_pow2 by lia. change (2 ^ 10) with 1024.
  replace (55296 + (cp - 65536) / 1024 - 55296) with ((cp - 65536) / 1024) by lia.
  rewrite (Z.mod_small ((cp - 65536) / 1024)) by lia.
  rewrite (Z.mod_small ((cp - 65536) / 1024 * 1024)) by lia.
  rewrite Z.mod_small by lia. f_equal. lia.
Qed.

Lemma surrogate_step_low cp :
  65536 <= cp <= 1114111 ->
  surrogate_step (((cp - 65536) / 1024 + 64) * 1024) (low_surrogate cp) = (0, cp).
Proof.
  intros Hcp. unfold surrogate_step, low_surrogate, wrap32.
  assert (0 <= (cp - 65536) / 1024 < 1024).
  { split; [apply Z.div_pos; lia|apply Z.div_lt_upper_bound; lia]. }
  pose proof (Z.mod_pos_bound (cp - 65536) 1024 ltac:(lia)) as Hm.
  replace ((55296 <=? 56320 + (cp - 65536) mod 1024) &&
           (56320 + (cp - 65536) mod 1024 <=? 56319)) with false
    by (symmetry; apply andb_false_iff; right; apply Z.leb_gt; lia).
  replace ((56320 <=? 56320 + (cp - 65536) mod 1024) &&
           (56320 + (cp - 65536) mod 1024 <=? 57343)) with true
    by (symmetry; apply andb_true_iff; split; apply Z.leb_le; lia).
  replace (((cp - 65536) / 1024 + 64) * 1024 =? 0) with false
    by (symmetry; apply Z.eqb_neq; lia).
  cbn [negb].
  replace (56320 + (cp - 65536) mod 1024 - 56320) with ((cp - 65536) mod 1024) by lia.
  rewrite (Z.mod_small ((cp - 65536) mod 1024)) by lia.
  rewrite lor_low_bits by lia. f_equal.
  pose proof (Z.div_mod (cp - 65536) 1024 ltac:(lia)). lia.
Qed.

Lemma windowProc_CHAR_run env wParam lParam s :
  unlocked s ->
  0 <= wParam <= char32_max ->
  windowProc env WM_CHAR wParam lParam s =
  mkRan (mkSelf (statics s)
           (set_highSurrogate (fst (surrogate_step (highSurrogate (this s)) wParam))
                              (this s)))
        (if 32 <=? snd (surrogate_step (highSurrogate (this s)) wParam)
         then [handle_keyboard_event_char
                 (snd (surrogate_step (highSurrogate (this s)) wParam)) None]
         else [])
        (Returned (-1)).
Proof.
  intros Hs Hw. unfold windowProc, windowProc_switch.
  rewrite !and_then_assoc.
  erewrite and_then_returned by (apply narrow_cast_fits; exact Hw).
  rewrite and_then_assoc.
  erewrite and_then_returned by (apply handleSuragates_run; exact Hs).
  unfold and_then, os_call, pure. cbn [app].
  destruct (32 <=? snd (surrogate_step (highSurrogate (this s)) wParam)); reflexivity.
Qed.

(** X9.  A character outside the basic plane, which arrives as two
    [WM_CHAR] messages carrying the high and the low surrogate of its
    UTF-16 form, reaches the keyboard handling as one character with the
    code point itself: the first message makes no call, the second hands
    the code point to [handle_keyboard_event], both are left to
    [DefWindowProc], and no surrogate stays pending. *)
Theorem surrogate_pair_is_one_character
    (env : Answers) (code_point lParam1 lParam2 : Z) (s : Self)
    (Hlock : unlocked s)
    (Hcp : 65536 <= code_point <= 1114111) :
  let first := windowProc env WM_CHAR (high_surrogate code_point) lParam1 s in
  let second := windowProc env WM_CHAR (low_surrogate code_point) lParam2 (after first) in
  calls first = [] /\ result first = Returned (-1) /\
  calls second = [handle_keyboard_event_char code_point None] /\
  result second = Returned (-1) /\
  highSurrogate (this (after second)) = 0 /\
  unlocked (after second).
Proof.
  assert (H1 : 0 <= (code_point - 65536) / 1024 < 1024).
  { split; [apply Z.div_pos; lia|apply Z.div_lt_upper_bound; lia]. }
  pose proof (Z.mod_pos_bound (code_point - 65536) 1024 ltac:(lia)) as H2.
  cbv zeta.
  rewrite (@windowProc_CHAR_run env (high_surrogate code_point) lParam1 s Hlock)
    by (unfold high_surrogate, char32_max; lia).
  rewrite (surrogate_step_high Hcp). cbn [fst snd after calls result Z.leb Z.compare].
  rewrite windowProc_CHAR_run;
    [|exact Hlock|unfold low_surrogate, char32_max; lia].
  cbn [this statics]. destruct s as [g w]. destruct w. cbn [highSurrogate set_highSurrogate].
  rewrite (surrogate_step_low Hcp). cbn [fst snd after calls result this].
  replace (32 <=? code_point) with true by (symmetry; apply Z.leb_le; lia).
  repeat split. exact Hlock.
Qed.

Lemma surrogate_pair_is_one_character_witness :
  calls (windowProc quiet_answers WM_CHAR (low_surrogate 128512) 0
           (after (windowProc quiet_answers WM_CHAR (high_surrogate 128512) 0 at_rest))) =
  [handle_keyboard_event_char 128512 None].
Proof.
  refine (proj1 (proj2 (proj2 (@surrogate_pair_is_one_character
                                 quiet_answers 128512 0 0 at_rest _ _)))).
  - reflexivity.
  - lia.
Defined.

Lemma surrogate_step_cases high c :
  (55296 <= c <= 56319 /\
   surrogate_step high c = (wrap32 (wrap32 (Z.shiftl (wrap32 (c - 55296)) 10) + 65536), 0)) \/
  (56320 <= c <= 57343 /\
   surrogate_step high c =
     (0, if negb (high =? 0) then Z.lor high (wrap32 (c - 56320)) else 65533)) \/
  ((c < 55296 \/ 57343 < c) /\ surrogate_step high c = (0, c)).
Proof.
  unfold surrogate_step.
  destruct (Z.leb_spec 55296 c), (Z.leb_spec c 56319); cbn [andb];
    try (left; split; [lia|reflexivity]);
    destruct (Z.leb_spec 56320 c), (Z.leb_spec c 57343); cbn [andb];
    try (right; left; split; [lia|reflexivity]);
    right; right; (split; [lia|reflexivity]).
Qed.

Lemma handleSuragates_values (c : Z) (s : Self)
    (Hlock : unlocked s) :
  exists v,
    handleSuragates c s =
      mkRan (mkSelf (statics s)
               (set_highSurrogate (highSurrogate (this (after (handleSuragates c s))))
                                  (this s)))
            [] (Returned v) /\
    pending_ok (highSurrogate (this (after (handleSuragates c s)))) /\
    (is_surrogate c = false ->
     v = c /\ highSurrogate (this (after (handleSuragates c s))) = 0) /\
    (56320 <= c <= 57343 -> highSurrogate (this s) = 0 -> v = 65533) /\
    (pending_ok (highSurrogate (this s)) ->
     is_surrogate v = false /\ (c <= 1114111 -> v <= 1114111)).
Proof.
  rewrite (handleSuragates_run c Hlock). cbn [after this highSurrogate].
  set (high := highSurrogate (this s)).
  exists (snd (surrogate_step high c)).
  replace (highSurrogate (set_highSurrogate (fst (surrogate_step high c)) (this s)))
    with (fst (surrogate_step high c)) by (now destruct (this s)).
  split; [reflexivity|].
  unfold pending_ok, is_surrogate.
  destruct (surrogate_step_cases high c) as [[Hc ->]|[[Hc ->]|[Hc ->]]];
    cbn [fst snd].
  - (* a high surrogate *)
    unfold wrap32. rewrite Z.shiftl_mul_pow2 by lia. change (2 ^ 10) with 1024.
    rewrite (Z.mod_small (c - 55296)) by lia.
    rewrite (Z.mod_small ((c - 55296) * 1024)) by lia.
    rewrite Z.mod_small by lia.
    split; [right; split; [lia|]|].
    { replace ((c - 55296) * 1024 + 65536) with ((c - 55296 + 64) * 1024) by lia.
      apply Z.mod_mul. lia. }
    split; [intros H; apply andb_false_iff in H;
            destruct H as [H|H]; apply Z.leb_gt in H; lia|].
    split; [lia|]. intros _. split; [reflexivity|lia].
  - (* a low surrogate *)
    split; [now left|].
    split; [intros H; apply andb_false_iff in H;
            destruct H as [H|H]; apply Z.leb_gt in H; lia|].
    split; [intros _ ->; reflexivity|].
    intros [->|[Hh Hm]]; [cbn; split; [reflexivity|lia]|].
    replace (high =? 0) with false by (symmetry; apply Z.eqb_neq; lia).
    cbn [negb]. unfold wrap32. rewrite (Z.mod_small (c - 56320)) by lia.
    apply Z.mod_divide in Hm; [|lia]. destruct Hm as [a ->].
    rewrite lor_low_bits by lia.
    split; [|lia]. apply andb_false_iff. right. apply Z.leb_gt. lia.
  - (* any other code unit *)
    split; [now left|].
    split; [intros _; split; reflexivity|].
    split; [lia|]. intros _.
    split; [|lia]. apply andb_false_iff.
    destruct Hc; [left|right]; apply Z.leb_gt; lia.
Qed.

(** X10.  [handleSuragates] makes no call and returns with the mutex
    released.  It keeps the surrogate it waits on well formed: after any
    call [highSurrogate] is zero or the upper bits of a code point outside
    the basic plane.  A high surrogate returns zero and leaves its ten
    bits, with the offset of the supplementary planes, in
    [highSurrogate]; a low surrogate returns the code point of the pair
    when the high surrogate of that code point is waiting, and U+FFFD
    when none is; every other code unit is returned as it is, dropping a
    high surrogate that was waiting.  While [highSurrogate] is well
    formed no surrogate is returned, and code units up to U+10FFFF give
    results up to U+10FFFF. *)
Theorem handleSuragates_returns_scalar_values (c : Z) (s : Self)
    (Hlock : unlocked s) :
  exists v,
    handleSuragates c s =
      mkRan (mkSelf (statics s)
               (set_highSurrogate (highSurrogate (this (after (handleSuragates c s))))
                                  (this s)))
            [] (Returned v) /\
    pending_ok (highSurrogate (this (after (handleSuragates c s)))) /\
    (is_surrogate c = false ->
     v = c /\ highSurrogate (this (after (handleSuragates c s))) = 0) /\
    (55296 <= c <= 56319 ->
     v = 0 /\
     highSurrogate (this (after (handleSuragates c s))) = (c - 55296 + 64) * 1024) /\
    (forall code_point,
       65536 <= code_point <= 1114111 ->
       c = low_surrogate code_point ->
       highSurrogate (this s) = ((code_point - 65536) / 1024 + 64) * 1024 ->
       v = code_point /\ highSurrogate (this (after (handleSuragates c s))) = 0) /\
    (56320 <= c <= 57343 -> highSurrogate (this s) = 0 -> v = 65533) /\
    (pending_ok (highSurrogate (this s)) ->
     is_surrogate v = false /\ (c <= 1114111 -> v <= 1114111)).
Proof.
  destruct (handleSuragates_values c Hlock) as (v & Hr & H1 & H2 & H3 & H4).
  exists v. split; [exact Hr|]. split; [exact H1|]. split; [exact H2|].
  assert (Hv : v = snd (surrogate_step (highSurrogate (this s)) c) /\
               highSurrogate (this (after (handleSuragates c s))) =
                 fst (surrogate_step (highSurrogate (this s)) c)).
  { revert Hr. rewrite (handleSuragates_run c Hlock). cbn [after this].
    intros Hr. injection Hr as Hr. split; [now symmetry|].
    now destruct (this s). }
  destruct Hv as [-> ->].
  split; [|split; [|split; [exact H3|exact H4]]].
  - intros Hc.
    destruct (surrogate_step_cases (highSurrogate (this s)) c)
      as [[_ ->]|[[Hc' _]|[Hc' _]]]; try lia.
    cbn [fst snd]. split; [reflexivity|].
    unfold wrap32. rewrite Z.shiftl_mul_pow2 by lia. change (2 ^ 10) with 1024.
    rewrite (Z.mod_small (c - 55296)) by lia.
    rewrite (Z.mod_small ((c - 55296) * 1024)) by lia.
    rewrite Z.mod_small by lia. lia.
  - intros code_point Hcp -> ->. now rewrite (surrogate_step_low Hcp).
Qed.

Lemma handleSuragates_returns_scalar_values_witness :
  exists v,
    handleSuragates 56832 at_rest =
      mkRan (mkSelf (statics at_rest)
               (set_highSurrogate
                  (highSurrogate (this (after (handleSuragates 56832 at_rest))))
                  (this at_rest)))
            [] (Returned v) /\
    v = 65533.
Proof.
  destruct (@handleSuragates_returns_scalar_values 56832 at_rest eq_refl)
    as (v & Hr & _ & _ & _ & _ & Hl & _).
  exists v. split; [exact Hr|]. apply Hl; [lia|reflexivity].
Defined.

(** ** The mutex *)

Section Steps.

Context {A B : Type}.

Lemma steps_and_then n n1 n2 (m : Act Self A) (k : A -> Act Self B) :
  steps n m n1 -> (forall a, steps n1 (k a) n2) -> steps n (and_then m k) n2.
Proof.
  intros Hm Hk s Hs. specialize (Hm s Hs). unfold and_then.
  destruct (m s) as [s1 c1 [a|f]]; cbn in *; [|exact Hm].
  specialize (Hk a s1 Hm). destruct (k a s1) as [s2 c2 o]. exact Hk.
Qed.

Lemma steps_pure n (a : A) : steps n (pure a) n.
Proof. intros s Hs. exact Hs. Qed.

Lemma steps_member n (f : Win32Window -> A) : steps n (member f) n.
Proof. intros s Hs. exact Hs. Qed.

Lemma steps_base_member n (f : Window -> A) : steps n (base_member f) n.
Proof. intros s Hs. exact Hs. Qed.

Lemma steps_read_statics n (f : Statics -> A) :
  steps n (read (fun s => f (statics s))) n.
Proof. intros s Hs. exact Hs. Qed.

Lemma steps_fail n n' (what : string) :
  what <> "gui_system_mutex.recurse_lock_count() == 0"%string ->
  what <> "gui_system_mutex is held"%string ->
  steps n (fail (A := A) (AssertionFailed what)) n'.
Proof.
  intros H1 H2 s Hs. cbn. intros [E|E]; injection E as E; contradiction.
Qed.

Lemma steps_fatal n n' (what : string) : steps n (fail (A := A) (Fatal what)) n'.
Proof. intros s Hs. cbn. intros [E|E]; discriminate E. Qed.

Lemma steps_if n n' (b : bool) (m1 m2 : Act Self A) :
  steps n m1 n' -> steps n m2 n' -> steps n (if b then m1 else m2) n'.
Proof. now destruct b. Qed.

End Steps.

Lemma steps_assign n f : steps n (assign f) n.
Proof. intros s Hs. exact Hs. Qed.

Lemma steps_base_assign n f : steps n (base_assign f) n.
Proof. intros s Hs. exact Hs. Qed.

Lemma steps_os_call n c : steps n (os_call c) n.
Proof. intros s Hs. exact Hs. Qed.

Lemma steps_lock n : steps n lock (Datatypes.S n).
Proof. intros s Hs. cbn. now rewrite Hs. Qed.

Lemma steps_unlock n : steps (Datatypes.S n) unlock n.
Proof.
  intros s Hs. unfold unlock, and_then, lock_count, read, assume, update.
  rewrite Hs. cbn. now rewrite Hs.
Qed.

Lemma steps_assume_unlocked : steps 0 assume_unlocked 0.
Proof.
  intros s Hs. unfold assume_unlocked, and_then, lock_count, read, assume.
  rewrite Hs. cbn. exact Hs.
Qed.

Lemma steps_narrow_cast n lo hi x : steps n (narrow_cast lo hi x) n.
Proof.
  intros s Hs. unfold narrow_cast, assume, and_then, pure.
  destruct ((lo <=? x) && (x <=? hi)); cbn; [exact Hs|].
  intros [E|E]; discriminate E.
Qed.

Lemma steps_scoped_lock {A} n (body : Act Self A) :
  steps (Datatypes.S n) body (Datatypes.S n) -> steps n (scoped_lock body) n.
Proof.
  intros H. unfold scoped_lock.
  eapply steps_and_then; [apply steps_lock|]. intros _.
  eapply steps_and_then; [exact H|]. intros r.
  eapply steps_and_then; [apply steps_unlock|]. intros _. apply steps_pure.
Qed.

Lemma steps_tt_no_default {A} n n' : steps n (tt_no_default (A := A)) n'.
Proof. apply steps_fail; discriminate. Qed.

Create HintDb steps discriminated.

(** Walk through a member function statement by statement. *)
Ltac steps_walk :=
  repeat lazymatch goal with
    | |- steps _ (and_then _ _) _ => eapply steps_and_then; [|intros ?]
    | |- steps _ (pure _) _ => apply steps_pure
    | |- steps _ (member _) _ => apply steps_member
    | |- steps _ (base_member _) _ => apply steps_base_member
    | |- steps _ (assign _) _ => apply steps_assign
    | |- steps _ (base_assign _) _ => apply steps_base_assign
    | |- steps _ (os_call _) _ => apply steps_os_call
    | |- steps _ lock _ => apply steps_lock
    | |- steps _ unlock _ => apply steps_unlock
    | |- steps _ assume_unlocked _ => apply steps_assume_unlocked
    | |- steps _ (narrow_cast _ _ _) _ => apply steps_narrow_cast
    | |- steps _ tt_no_default _ => apply steps_tt_no_default
    | |- steps _ (fail (Fatal _)) _ => apply steps_fatal
    | |- steps _ (fail (AssertionFailed _)) _ => apply steps_fail; discriminate
    | |- steps _ (scoped_lock _) _ => apply steps_scoped_lock
    | |- steps _ (if _ then _ else _) _ => apply steps_if
    | |- steps _ (match ?x with _ => _ end) _ => destruct x
    | |- steps _ _ _ => solve [auto with steps nocore]
    end.

Lemma steps_load_cursors n : steps n load_cursors n.
Proof.
  unfold load_cursors.
  eapply steps_and_then; [apply steps_read_statics|]. intros loaded.
  apply steps_if; [apply steps_pure|].
  repeat (eapply steps_and_then; [apply steps_os_call|]; intros _).
  intros s Hs. exact Hs.
Qed.
#[local] Hint Resolve steps_load_cursors : steps.

Lemma steps_setCursor cursor : steps 0 (setCursor cursor) 0.
Proof. unfold setCursor. steps_walk. Qed.
#[local] Hint Resolve steps_setCursor : steps.

Lemma steps_setOSWindowRectangleFromRECT n rect :
  steps n (setOSWindowRectangleFromRECT rect) n.
Proof. unfold setOSWindowRectangleFromRECT. steps_walk. Qed.
#[local] Hint Resolve steps_setOSWindowRectangleFromRECT : steps.

Lemma steps_handleSuragates c : steps 0 (handleSuragates c) 0.
Proof. unfold handleSuragates. steps_walk. Qed.
#[local] Hint Resolve steps_handleSuragates : steps.

Lemma steps_getKeyboardState env n : steps n (getKeyboardState env) n.
Proof. unfold getKeyboardState. steps_walk. Qed.
#[local] Hint Resolve steps_getKeyboardState : steps.

Lemma steps_getKeyboardModifiers env n : steps n (getKeyboardModifiers env) n.
Proof. unfold getKeyboardModifiers. steps_walk. Qed.
#[local] Hint Resolve steps_getKeyboardModifiers : steps.

Lemma steps_key_down env wParam lParam n : steps n (key_down env wParam lParam) n.
Proof. unfold key_down. steps_walk. Qed.
#[local] Hint Resolve steps_key_down : steps.

Lemma steps_mouse_cause uMsg wParam e : steps 1 (mouse_cause uMsg wParam e) 1.
Proof. unfold mouse_cause. destruct uMsg; steps_walk. Qed.
#[local] Hint Resolve steps_mouse_cause : steps.

Lemma steps_mouse_type env uMsg pressed e : steps 1 (mouse_type env uMsg pressed e) 1.
Proof. unfold mouse_type. destruct uMsg; steps_walk. Qed.
#[local] Hint Resolve steps_mouse_type : steps.

Lemma steps_createMouseEvent env uMsg wParam lParam :
  steps 0 (createMouseEvent env uMsg wParam lParam) 0.
Proof. unfold createMouseEvent. steps_walk. Qed.
#[local] Hint Resolve steps_createMouseEvent : steps.

Lemma steps_hit_test env lParam : steps 0 (hit_test env lParam) 0.
Proof. unfold hit_test. steps_walk. Qed.
#[local] Hint Resolve steps_hit_test : steps.

Lemma steps_windowProc env uMsg wParam lParam :
  steps 0 (windowProc env uMsg wParam lParam) 0.
Proof.
  unfold windowProc.
  eapply steps_and_then with (n1 := 0%nat).
  2:{ intros [v|]; apply steps_pure. }
  unfold windowProc_switch. destruct uMsg; steps_walk.
Qed.

(** X11.  The message handler keeps to the rule of the mutex.  Entered by
    a thread that does not hold [gui_system_mutex], [windowProc] fails
    none of the assumptions about the mutex that guard the calls into the
    operating system (setting the cursor, capturing and releasing the
    mouse, tracking the mouse) and its helpers, whatever the message, and
    when it returns the thread does not hold the mutex. *)
Theorem windowProc_releases_the_mutex
    (env : Answers) (uMsg : Message) (wParam lParam : Z) (s : Self)
    (Hlock : unlocked s) :
  match result (windowProc env uMsg wParam lParam s) with
  | Returned _ => unlocked (after (windowProc env uMsg wParam lParam s))
  | Raised f => ~ is_lock_failure f
  end.
Proof. exact (steps_windowProc env uMsg wParam lParam s Hlock). Qed.

Lemma windowProc_releases_the_mutex_witness :
  unlocked (after (windowProc quiet_answers WM_LBUTTONDOWN 1 6553700 at_rest)).
Proof.
  exact (@windowProc_releases_the_mutex quiet_answers WM_LBUTTONDOWN 1 6553700
           at_rest eq_refl).
Defined.

(** ** What the message handler changes and answers *)

Section Keeps.

Context {A B : Type}.

Lemma keeps_and_then (m : Act Self A) (k : A -> Act Self B) :
  keeps_lifecycle m -> (forall a, keeps_lifecycle (k a)) ->
  keeps_lifecycle (and_then m k).
Proof.
  intros Hm Hk s. specialize (Hm s). unfold and_then.
  destruct (m s) as [s1 c1 [a|f]]; cbn in *; [|exact Hm].
  specialize (Hk a s1). destruct (k a s1) as [s2 c2 o]. cbn in *.
  destruct Hm as [H1 H2], Hk as [H3 H4]. split; congruence.
Qed.

Lemma keeps_unchanged (m : Act Self A) :
  (forall s, this (after (m s)) = this s) -> keeps_lifecycle m.
Proof. intros H s. now rewrite H. Qed.

Lemma keeps_if (b : bool) (m1 m2 : Act Self A) :
  keeps_lifecycle m1 -> keeps_lifecycle m2 ->
  keeps_lifecycle (if b then m1 else m2).
Proof. now destruct b. Qed.

End Keeps.

Lemma keeps_assign f :
  (forall w, base (f w) = base w) -> keeps_lifecycle (assign f).
Proof. intros H s. cbn. now rewrite H. Qed.

Lemma keeps_base_assign f :
  (forall b, state (f b) = state b /\ vulkan_objects (f b) = vulkan_objects b) ->
  keeps_lifecycle (base_assign f).
Proof. intros H s. cbn. destruct (this s). cbn. apply H. Qed.

Lemma keeps_unlock : keeps_lifecycle unlock.
Proof.
  apply keeps_unchanged. intros s. unfold_acts.
  destruct (Nat.eqb (recurse_lock_count (statics s)) 0); reflexivity.
Qed.

Lemma keeps_assume_unlocked : keeps_lifecycle assume_unlocked.
Proof.
  apply keeps_unchanged. intros s. unfold_acts.
  destruct (Nat.eqb (recurse_lock_count (statics s)) 0); reflexivity.
Qed.

Lemma keeps_narrow_cast lo hi x : keeps_lifecycle (narrow_cast lo hi x).
Proof.
  apply keeps_unchanged. intros s. unfold_acts.
  destruct ((lo <=? x) && (x <=? hi)); reflexivity.
Qed.

Lemma keeps_scoped_lock {A} (body : Act Self A) :
  keeps_lifecycle body -> keeps_lifecycle (scoped_lock body).
Proof.
  intros H. unfold scoped_lock.
  apply keeps_and_then; [now apply keeps_unchanged|]. intros _.
  apply keeps_and_then; [exact H|]. intros r.
  apply keeps_and_then; [apply keeps_unlock|]. intros _.
  now apply keeps_unchanged.
Qed.

Create HintDb keeps discriminated.

Ltac keeps_walk :=
  repeat lazymatch goal with
    | |- keeps_lifecycle (and_then _ _) => apply keeps_and_then; [|intros ?]
    | |- keeps_lifecycle (pure _) => apply keeps_unchanged; reflexivity
    | |- keeps_lifecycle (member _) => apply keeps_unchanged; reflexivity
    | |- keeps_lifecycle (base_member _) => apply keeps_unchanged; reflexivity
    | |- keeps_lifecycle (read _) => apply keeps_unchanged; reflexivity
    | |- keeps_lifecycle (update _) => apply keeps_unchanged; reflexivity
    | |- keeps_lifecycle (os_call _) => apply keeps_unchanged; reflexivity
    | |- keeps_lifecycle (fail _) => apply keeps_unchanged; reflexivity
    | |- keeps_lifecycle tt_no_default => apply keeps_unchanged; reflexivity
    | |- keeps_lifecycle lock => apply keeps_unchanged; reflexivity
    | |- keeps_lifecycle unlock => apply keeps_unlock
    | |- keeps_lifecycle assume_unlocked => apply keeps_assume_unlocked
    | |- keeps_lifecycle (narrow_cast _ _ _) => apply keeps_narrow_cast
    | |- keeps_lifecycle (assign _) => apply keeps_assign; intros []; reflexivity
    | |- keeps_lifecycle (base_assign _) =>
        apply keeps_base_assign; intros []; split; reflexivity
    | |- keeps_lifecycle (scoped_lock _) => apply keeps_scoped_lock
    | |- keeps_lifecycle (if _ then _ else _) => apply keeps_if
    | |- keeps_lifecycle (match ?x with _ => _ end) => destruct x
    | |- keeps_lifecycle _ => solve [auto with keeps nocore]
    end.

Lemma keeps_load_cursors : keeps_lifecycle load_cursors.
Proof. unfold load_cursors. keeps_walk. Qed.
#[local] Hint Resolve keeps_load_cursors : keeps.

Lemma keeps_setCursor cursor : keeps_lifecycle (setCursor cursor).
Proof. unfold setCursor. keeps_walk. Qed.
#[local] Hint Resolve keeps_setCursor : keeps.

Lemma keeps_setOSWindowRectangleFromRECT rect :
  keeps_lifecycle (setOSWindowRectangleFromRECT rect).
Proof. unfold setOSWindowRectangleFromRECT. keeps_walk. Qed.
#[local] Hint Resolve keeps_setOSWindowRectangleFromRECT : keeps.

Lemma keeps_handleSuragates c : keeps_lifecycle (handleSuragates c).
Proof. unfold handleSuragates. keeps_walk. Qed.
#[local] Hint Resolve keeps_handleSuragates : keeps.

Lemma keeps_getKeyboardState env : keeps_lifecycle (getKeyboardState env).
Proof. unfold getKeyboardState. keeps_walk. Qed.
#[local] Hint Resolve keeps_getKeyboardState : keeps.

Lemma keeps_getKeyboardModifiers env : keeps_lifecycle (getKeyboardModifiers env).
Proof. unfold getKeyboardModifiers. keeps_walk. Qed.
#[local] Hint Resolve keeps_getKeyboardModifiers : keeps.

Lemma keeps_key_down env wParam lParam : keeps_lifecycle (key_down env wParam lParam).
Proof. unfold key_down. keeps_walk. Qed.
#[local] Hint Resolve keeps_key_down : keeps.

Lemma keeps_mouse_cause uMsg wParam e : keeps_lifecycle (mouse_cause uMsg wParam e).
Proof. unfold mouse_cause. destruct uMsg; keeps_walk. Qed.
#[local] Hint Resolve keeps_mouse_cause : keeps.

Lemma keeps_mouse_type env uMsg pressed e :
  keeps_lifecycle (mouse_type env uMsg pressed e).
Proof. unfold mouse_type. destruct uMsg; keeps_walk. Qed.
#[local] Hint Resolve keeps_mouse_type : keeps.

Lemma keeps_createMouseEvent env uMsg wParam lParam :
  keeps_lifecycle (createMouseEvent env uMsg wParam lParam).
Proof. unfold createMouseEvent. keeps_walk. Qed.
#[local] Hint Resolve keeps_createMouseEvent : keeps.

Lemma keeps_hit_test env lParam : keeps_lifecycle (hit_test env lParam).
Proof. unfold hit_test. keeps_walk. Qed.
#[local] Hint Resolve keeps_hit_test : keeps.

Lemma windowProc_DESTROY_run env wParam lParam s :
  unlocked s ->
  windowProc env WM_DESTROY wParam lParam s =
  mkRan (mkSelf (statics s)
           (set_base (set_state WindowLost (base (this s)))
                     (set_win32Window None (this s))))
        [] (Returned (-1)).
Proof.
  unfold unlocked. intros H. open_self s. cbn in H. subst count. reflexivity.
Qed.

(** X12.  Of all messages only [WM_DESTROY] touches the lifecycle of the
    window.  Every other message leaves the lifecycle state where it is,
    and no message changes the device, the surface, the swapchain images,
    views and framebuffers, the fence or the window extent.  [WM_DESTROY],
    handled by a thread that does not hold the mutex, clears the window
    handle, sets the state to [WindowLost] whatever it was, makes no call
    and leaves the rest to [DefWindowProc]. *)
Theorem only_WM_DESTROY_changes_the_lifecycle
    (env : Answers) (uMsg : Message) (wParam lParam : Z) (s : Self) :
  let r := windowProc env uMsg wParam lParam s in
  vulkan_objects (base (this (after r))) = vulkan_objects (base (this s)) /\
  (uMsg <> WM_DESTROY -> state (base (this (after r))) = state (base (this s))) /\
  (uMsg = WM_DESTROY -> unlocked s ->
   state (base (this (after r))) = WindowLost /\
   win32Window (this (after r)) = None /\
   calls r = [] /\ result r = Returned (-1)).
Proof.
  cbv zeta. destruct (uMsg) eqn:E.
  2:{ (* WM_DESTROY *)
      split; [|split; [congruence|]].
      - unfold windowProc, windowProc_switch. unfold_acts.
        open_self s. cbn. now destruct vulkan.
      - intros _ Hs. rewrite (windowProc_DESTROY_run env wParam lParam Hs).
        cbn. destruct (this s) as [b]. destruct b. repeat split. }
  all: assert (K : keeps_lifecycle (windowProc env uMsg wParam lParam))
    by (subst uMsg; unfold windowProc, windowProc_switch; keeps_walk).
  all: rewrite <- E; destruct (K s) as [K1 K2].
  all: split; [exact K2|]; split; [intros _; exact K1|].
  all: intros E'; rewrite E' in E; discriminate E.
Qed.

Section Yields.

Context {S A B : Type}.

Lemma yields_and_then (P : B -> Prop) (m : Act S A) (k : A -> Act S B) :
  (forall a, yields P (k a)) -> yields P (and_then m k).
Proof.
  intros Hk s v. unfold and_then.
  destruct (m s) as [s1 c1 [a|f]]; cbn; [|discriminate].
  specialize (Hk a s1 v). destruct (k a s1) as [s2 c2 o]. exact Hk.
Qed.

Lemma yields_after (Q : A -> Prop) (P : B -> Prop) (m : Act S A) (k : A -> Act S B) :
  yields Q m -> (forall a, Q a -> yields P (k a)) -> yields P (and_then m k).
Proof.
  intros Hm Hk s v. unfold and_then. specialize (Hm s).
  destruct (m s) as [s1 c1 [a|f]]; cbn in *; [|discriminate].
  specialize (Hk a (Hm a eq_refl) s1 v). destruct (k a s1) as [s2 c2 o]. exact Hk.
Qed.

Lemma yields_pure (P : A -> Prop) (a : A) : P a -> yields P (pure (S := S) a).
Proof. intros H s v E. cbn in E. now injection E as <-. Qed.

Lemma yields_fail (P : A -> Prop) f : yields P (fail (S := S) f).
Proof. intros s v E. discriminate E. Qed.

Lemma yields_if (P : A -> Prop) (b : bool) (m1 m2 : Act S A) :
  yields P m1 -> yields P m2 -> yields P (if b then m1 else m2).
Proof. now destruct b. Qed.

End Yields.

Lemma yields_narrow_cast {S} lo hi x :
  yields (fun v => v = x) (narrow_cast (S := S) lo hi x).
Proof.
  unfold narrow_cast. apply yields_and_then. intros _. now apply yields_pure.
Qed.

(** Statements whose value is not looked at, up to the value that is
    returned. *)
Ltac yields_walk :=
  repeat lazymatch goal with
    | |- yields _ (and_then _ _) => apply yields_and_then; intros ?
    | |- yields _ (if _ then _ else _) => apply yields_if
    | |- yields _ (fail _) => apply yields_fail
    | |- yields _ tt_no_default => apply yields_fail
    end.

Lemma yields_hit_test env lParam :
  yields (fun v => In v hit_test_codes) (hit_test env lParam).
Proof.
  unfold hit_test, hit_test_codes. yields_walk.
  destruct (env_hitbox_test env _); yields_walk;
    try (apply yields_pure; cbn; tauto).
Qed.

(** X13.  [windowProc] answers four kinds of message itself: the erasing
    of the background (1), the probe [WM_UNICHAR] with [UNICODE_NOCHAR]
    (1), [WM_NCCALCSIZE] with a true [wParam] (0), and the hit test, with
    one of the hit-test codes.  Whatever else it returns is -1, which
    leaves the message to [DefWindowProc]; and the first three are
    answered in this way whenever they arrive. *)
Theorem windowProc_answers
    (env : Answers) (uMsg : Message) (wParam lParam : Z) (s : Self) :
  (forall v, result (windowProc env uMsg wParam lParam s) = Returned v ->
             v = -1 \/ answered uMsg wParam v) /\
  result (windowProc env WM_ERASEBKGND wParam lParam s) = Returned 1 /\
  result (windowProc env WM_UNICHAR UNICODE_NOCHAR lParam s) = Returned 1 /\
  result (windowProc env WM_NCCALCSIZE TRUE lParam s) = Returned 0.
Proof.
  split; [|repeat split; reflexivity].
  assert (Y : yields (fun v => v = -1 \/ answered uMsg wParam v)
                     (windowProc env uMsg wParam lParam)).
  2:{ intros v. apply Y. }
  unfold windowProc.
  apply yields_after with
    (Q := fun r => match r with
                   | Some v => v = -1 \/ answered uMsg wParam v
                   | None => True
                   end).
  2:{ intros [v|] H; apply yields_pure; [exact H|now left]. }
  unfold windowProc_switch, answered.
  destruct uMsg; try solve [yields_walk; apply yields_pure; exact I].
  - (* WM_ERASEBKGND *) apply yields_pure. right. left. now split.
  - (* WM_UNICHAR *)
    eapply yields_after; [apply yields_narrow_cast|]. intros c ->.
    destruct (Z.eqb_spec wParam UNICODE_NOCHAR) as [E|N].
    + apply yields_pure. right. right. left. now repeat split.
    + yields_walk; apply yields_pure; exact I.
  - (* WM_SYSKEYDOWN *)
    yields_walk; apply yields_pure; [now left|exact I].
  - (* WM_NCCALCSIZE *)
    destruct (Z.eqb_spec wParam TRUE) as [E|N]; apply yields_pure; [|exact I].
    right. right. right. left. now repeat split.
  - (* WM_NCHITTEST *)
    eapply yields_after; [apply yields_hit_test|]. intros v Hv.
    apply yields_pure. right. right. right. right. now split.
Qed.

(** ** From the destruction of the window to its closing *)

Lemma render_lost_window env w d :
  _device w = Some d ->
  state w = WindowLost ->
  render env w =
  mkRun (torn_down w) (swapchain_level_calls w ++ deeper_calls WindowLost)
        (Returned tt) /\
  state (torn_down w) = NoWindow.
Proof.
  intros Hd Hs.
  assert (Hn : state (torn_down w) = NoWindow)
    by (unfold torn_down; rewrite Hs; reflexivity).
  split; [|exact Hn]. unfold render.
  erewrite bind_returned by (apply (teardown_run w Hd); now rewrite Hs).
  erewrite bind_returned
    by (rewrite build_run; unfold build_result; now rewrite Hn).
  rewrite render_when_built_run, Hn, Hs. cbn. now rewrite !app_nil_r.
Qed.

(** X14.  The destruction of the operating-system window closes the
    window at the next tick.  After [WM_DESTROY] has been handled for a
    window with its device attached, the next [render] runs the whole
    teardown cascade and nothing else: it returns, calls the delegate's
    [closingWindow] exactly once, as its last call, and leaves the state
    at [NoWindow]; every tick after that does nothing. *)
Theorem destroyed_window_closes_at_the_next_tick
    (env : Answers) (tick tick' : Env) (wParam lParam : Z) (s : Self)
    (Hlock : unlocked s)
    (Hdev : is_some (_device (base (this s))) = true) :
  let w := base (this (after (windowProc env WM_DESTROY wParam lParam s))) in
  outcome (render tick w) = Returned tt /\
  state (window (render tick w)) = NoWindow /\
  List.length (filter is_closingWindow (trace (render tick w))) = 1%nat /\
  (exists t, trace (render tick w) = t ++ [EvClosingWindow]) /\
  render tick' (window (render tick w)) =
    mkRun (window (render tick w)) [] (Returned tt).
Proof.
  cbv zeta. rewrite (windowProc_DESTROY_run env wParam lParam Hlock).
  cbn [after this].
  set (w := base (set_base (set_state WindowLost (base (this s)))
                           (set_win32Window None (this s)))).
  assert (Hs : state w = WindowLost) by (subst w; destruct (this s) as [b]; now destruct b).
  destruct (_device w) as [d|] eqn:Hd.
  2:{ subst w. destruct (this s) as [b]. destruct b. cbn in Hdev, Hd.
      rewrite Hd in Hdev. discriminate Hdev. }
  destruct (render_lost_window tick w Hd Hs) as [Hr Hn].
  rewrite Hr. cbn [outcome window trace].
  split; [reflexivity|]. split; [exact Hn|]. split; [|split].
  - pose proof (closingWindow_count w) as C. rewrite Hs in C. exact C.
  - exists (swapchain_level_calls w ++ notify teardownForSurfaceLost ++
            [EvDestroySurfaceKHR] ++ notify teardownForDeviceLost ++
            notify teardownForWindowLost).
    rewrite <- !app_assoc. reflexivity.
  - unfold render.
    erewrite bind_returned by (apply teardown_below; now rewrite Hn).
    erewrite bind_returned
      by (rewrite build_run; unfold build_result; now rewrite Hn).
    rewrite render_when_built_run, Hn. reflexivity.
Qed.

Lemma destroyed_window_closes_at_the_next_tick_witness :
  state (window (render calm_env
    (base (this (after (windowProc quiet_answers WM_DESTROY 0 0 at_rest)))))) = NoWindow.
Proof.
  refine (proj1 (proj2 (@destroyed_window_closes_at_the_next_tick
            quiet_answers calm_env calm_env 0 0 at_rest _ _))).
  - reflexivity.
  - vm_compute. reflexivity.
Defined.

(** ** The table of windows *)

Lemma map_find_erase handle handle' m :
  map_find handle' (map_erase handle m) =
  if handle' =? handle then None else map_find handle' m.
Proof.
  induction m as [|[h p] m IH]; cbn.
  - now destruct (handle' =? handle).
  - destruct (Z.eqb_spec h handle) as [->|N].
    + rewrite IH. destruct (Z.eqb_spec handle' handle) as [->|N']; [reflexivity|].
      destruct (Z.eqb_spec handle handle'); [congruence|reflexivity].
    + cbn. rewrite IH. destruct (Z.eqb_spec h handle') as [->|N'].
      * destruct (Z.eqb_spec handle' handle); [congruence|reflexivity].
      * reflexivity.
Qed.

Lemma map_find_assign handle handle' p m :
  map_find handle' (map_assign handle p m) =
  if handle' =? handle then Some p else map_find handle' m.
Proof.
  unfold map_assign. cbn. rewrite map_find_erase.
  rewrite (Z.eqb_sym handle handle'). now destruct (handle' =? handle).
Qed.

Lemma map_erase_absent handle m :
  map_find handle m = None -> map_erase handle m = m.
Proof.
  induction m as [|[h p] m IH]; [reflexivity|]. cbn.
  destruct (h =? handle); [discriminate|]. intros F. now rewrite IH.
Qed.

Lemma add_win32_window_run handle window g :
  win32_window_map_mutex g = false ->
  add_win32_window handle window g =
  mkRan (set_win32_window_map (map_assign handle window (win32_window_map g)) g)
        [] (Returned tt).
Proof.
  intros H. destruct g. cbn in H. subst. reflexivity.
Qed.

Lemma find_win32_window_run handle g :
  win32_window_map_mutex g = false ->
  find_win32_window handle g =
  mkRan g [] (Returned (map_find handle (win32_window_map g))).
Proof.
  intros H. destruct g. cbn in H. subst. reflexivity.
Qed.

Lemma erase_win32_window_run handle g :
  win32_window_map_mutex g = false ->
  erase_win32_window handle g =
  mkRan (set_win32_window_map (map_erase handle (win32_window_map g)) g)
        [] (Returned tt).
Proof.
  intros H. destruct g as [count table table_mutex registered opened cursors].
  cbn in H. subst.
  unfold erase_win32_window, map_locked, and_then, read, update, pure. cbn.
  destruct (map_find handle table) eqn:F; cbn; [reflexivity|].
  now rewrite (map_erase_absent handle table F).
Qed.

Lemma on_statics_run {A} (m : Act Statics A) p g c o :
  m (globals p) = mkRan g c o ->
  on_statics m p = mkRan (mkProcess g (objects p)) c o.
Proof. intros H. unfold on_statics. now rewrite H. Qed.

Lemma object_at_store address address' w os :
  object_at address' (store_at address w os) =
  if address' =? address
  then match object_at address os with Some _ => Some w | None => None end
  else object_at address' os.
Proof.
  induction os as [|[a w0] os IH]; cbn.
  - now destruct (address' =? address).
  - destruct (Z.eqb_spec a address) as [->|N]; cbn.
    + rewrite (Z.eqb_sym address address').
      now destruct (address' =? address).
    + rewrite IH. destruct (Z.eqb_spec a address') as [->|N'].
      * destruct (Z.eqb_spec address' address); [congruence|reflexivity].
      * reflexivity.
Qed.


Lemma process_eta p : mkProcess (globals p) (objects p) = p.
Proof. now destruct p. Qed.

Lemma find_on_statics hwnd p :
  idle p ->
  on_statics (find_win32_window hwnd) p = mkRan p [] (Returned (routed p hwnd)).
Proof.
  intros [_ Hm]. erewrite on_statics_run by (apply find_win32_window_run; exact Hm).
  now rewrite process_eta.
Qed.

(** What [deliver] does once the table has been looked up. *)
Lemma deliver_run env hwnd uMsg wParam lParam p :
  idle p ->
  deliver env hwnd uMsg wParam lParam p =
  match routed p hwnd with
  | Some window =>
      and_then (on_object window (windowProc env uMsg wParam lParam))
        (fun r =>
           and_then (match uMsg with
                     | WM_DESTROY => on_statics (erase_win32_window hwnd)
                     | _ => pure tt
                     end)
             (fun _ =>
                if r =? -1
                then and_then (os_call (DefWindowProc hwnd uMsg wParam lParam))
                              (fun _ => pure (env_DefWindowProc env))
                else pure r)) p
  | None =>
      mkRan p [DefWindowProc hwnd uMsg wParam lParam] (Returned (env_DefWindowProc env))
  end.
Proof.
  intros Hi. unfold deliver.
  erewrite and_then_returned by (apply find_on_statics; exact Hi).
  cbn [app]. destruct (routed p hwnd) as [window|].
  - destruct Hi as [Hc _].
    unfold and_then at 1 2. unfold lock_count, read, assume. rewrite Hc. cbn.
    match goal with |- _ = ?r => now destruct r end.
  - reflexivity.
Qed.

(** [_WindowProc] for a message that registers nothing. *)
Lemma WindowProc_plain env hwnd uMsg wParam lParam p :
  registers env uMsg lParam = false ->
  idle p ->
  _WindowProc env hwnd uMsg wParam lParam p =
  match deliver env hwnd uMsg wParam lParam p with
  | mkRan p' c o => mkRan p' c o
  end.
Proof.
  intros Hr Hi. unfold _WindowProc.
  assert (Hp : register_created env hwnd uMsg lParam p = mkRan p [] (Returned tt)).
  { unfold register_created. destruct uMsg; try reflexivity. cbn in Hr.
    destruct (negb (lParam =? 0)); [|reflexivity].
    cbn in Hr. now rewrite Hr. }
  erewrite and_then_returned by exact Hp. reflexivity.
Qed.

(** X15.  A message for a handle that is not in the table, and that does
    not register a window, reaches no window object: [_WindowProc] hands
    it to [DefWindowProc], returns what that answers and leaves the table
    and every window object as they are. *)
Theorem unknown_handle_goes_to_DefWindowProc
    (env : Answers) (hwnd : Z) (uMsg : Message) (wParam lParam : Z) (p : Process)
    (Hidle : idle p)
    (Hunknown : routed p hwnd = None)
    (Hplain : registers env uMsg lParam = false) :
  _WindowProc env hwnd uMsg wParam lParam p =
  mkRan p [DefWindowProc hwnd uMsg wParam lParam] (Returned (env_DefWindowProc env)).
Proof.
  rewrite (@WindowProc_plain env hwnd uMsg wParam lParam p Hplain Hidle).
  rewrite (deliver_run env hwnd uMsg wParam lParam Hidle). now rewrite Hunknown.
Qed.

Lemma unknown_handle_goes_to_DefWindowProc_witness :
  _WindowProc quiet_answers 4660 WM_PAINT 0 0
              (mkProcess (statics at_rest) [(100, plain_window)]) =
  mkRan (mkProcess (statics at_rest) [(100, plain_window)])
        [DefWindowProc 4660 WM_PAINT 0 0] (Returned 0).
Proof.
  apply (@unknown_handle_goes_to_DefWindowProc quiet_answers 4660 WM_PAINT 0 0
           (mkProcess (statics at_rest) [(100, plain_window)]));
    [split; reflexivity | reflexivity | reflexivity].
Defined.

Lemma on_object_run {A} address (m : Act Self A) p w s c o :
  object_at address (objects p) = Some w ->
  m (mkSelf (globals p) w) = mkRan s c o ->
  on_object address m p =
  mkRan (mkProcess (statics s) (store_at address (this s) (objects p))) c o.
Proof. intros Ho Hm. unfold on_object. now rewrite Ho, Hm. Qed.

(** X16.  [WM_DESTROY] takes the window out of the table after the window
    has handled it.  For a handle routed to a live window object, with no
    mutex held, [_WindowProc] lets the window handle the message (state
    [WindowLost], window handle cleared), removes the handle from the
    table, leaves the other handles routed as they were and gives the
    message to [DefWindowProc]; a later message for the handle that does
    not register a window no longer reaches the window object. *)
Theorem destroyed_window_leaves_the_table
    (env env' : Answers) (hwnd address : Z) (w : Win32Window)
    (wParam lParam : Z) (uMsg' : Message) (wParam' lParam' : Z) (p : Process)
    (Hidle : idle p)
    (Hrouted : routed p hwnd = Some address)
    (Hlive : object_at address (objects p) = Some w)
    (Hplain : registers env' uMsg' lParam' = false) :
  let r := _WindowProc env hwnd WM_DESTROY wParam lParam p in
  calls r = [DefWindowProc hwnd WM_DESTROY wParam lParam] /\
  result r = Returned (env_DefWindowProc env) /\
  routed (after r) hwnd = None /\
  (forall other, other <> hwnd -> routed (after r) other = routed p other) /\
  object_at address (objects (after r)) =
    Some (set_base (set_state WindowLost (base w)) (set_win32Window None w)) /\
  idle (after r) /\
  _WindowProc env' hwnd uMsg' wParam' lParam' (after r) =
    mkRan (after r) [DefWindowProc hwnd uMsg' wParam' lParam']
          (Returned (env_DefWindowProc env')).
Proof.
  cbv zeta. destruct Hidle as [Hc Hm].
  rewrite (@WindowProc_plain env hwnd WM_DESTROY wParam lParam p eq_refl (conj Hc Hm)).
  rewrite (deliver_run env hwnd WM_DESTROY wParam lParam (conj Hc Hm)).
  rewrite Hrouted.
  erewrite and_then_returned
    by (eapply on_object_run; [exact Hlive|apply windowProc_DESTROY_run; exact Hc]).
  cbn [statics this].
  erewrite and_then_returned
    by (apply on_statics_run; apply erase_win32_window_run; exact Hm).
  cbn [Z.eqb Pos.eqb]. unfold and_then, os_call, pure.
  cbn [after calls result app globals objects].
  assert (Hr : routed (mkProcess
                         (set_win32_window_map
                            (map_erase hwnd (win32_window_map (globals p))) (globals p))
                         (store_at address
                            (set_base (set_state WindowLost (base w))
                                      (set_win32Window None w)) (objects p))) hwnd = None).
  { unfold routed. destruct (globals p). cbn. rewrite map_find_erase.
    now rewrite Z.eqb_refl. }
  assert (Hi : idle (mkProcess
                       (set_win32_window_map
                          (map_erase hwnd (win32_window_map (globals p))) (globals p))
                       (store_at address
                          (set_base (set_state WindowLost (base w))
                                    (set_win32Window None w)) (objects p)))).
  { unfold idle. destruct (globals p). cbn in *. now split. }
  split; [reflexivity|]. split; [reflexivity|]. split; [exact Hr|].
  split.
  { intros other Ho. unfold routed. destruct (globals p). cbn.
    rewrite map_find_erase. destruct (Z.eqb_spec other hwnd); [contradiction|reflexivity]. }
  split; [rewrite object_at_store, Z.eqb_refl, Hlive; reflexivity|].
  split; [exact Hi|].
  rewrite (@WindowProc_plain env' hwnd uMsg' wParam' lParam' _ Hplain Hi).
  rewrite (deliver_run env' hwnd uMsg' wParam' lParam' Hi). now rewrite Hr.
Qed.

Lemma destroyed_window_leaves_the_table_witness :
  routed (after (_WindowProc quiet_answers 4660 WM_DESTROY 0 0
                   (mkProcess (mkStatics 0 [(4660, 100)] false true true false)
                              [(100, plain_window)])))
         4660 = None.
Proof.
  refine (proj1 (proj2 (proj2 (@destroyed_window_leaves_the_table
            quiet_answers quiet_answers 4660 100 plain_window 0 0 WM_PAINT 0 0
            (mkProcess (mkStatics 0 [(4660, 100)] false true true false)
                       [(100, plain_window)]) _ _ _ _))));
    [split; reflexivity | reflexivity | reflexivity | reflexivity].
Defined.

(** X17.  [WM_NCCREATE] puts the window into the table before the window
    sees a message.  When the message carries the address of a live
    window object, [_WindowProc] routes the handle to that object,
    replacing whatever the handle was routed to, leaves the other handles
    as they were, and lets the window handle this very message; the
    window leaves it to [DefWindowProc] and is not changed by it. *)
Theorem created_window_enters_the_table
    (env : Answers) (hwnd : Z) (w : Win32Window) (wParam lParam : Z) (p : Process)
    (Hidle : idle p)
    (Hregisters : registers env WM_NCCREATE lParam = true)
    (Hlive : object_at (cs_lpCreateParams (mem_CREATESTRUCT env lParam)) (objects p) =
             Some w) :
  let address := cs_lpCreateParams (mem_CREATESTRUCT env lParam) in
  let r := _WindowProc env hwnd WM_NCCREATE wParam lParam p in
  calls r = [DefWindowProc hwnd WM_NCCREATE wParam lParam] /\
  result r = Returned (env_DefWindowProc env) /\
  routed (after r) hwnd = Some address /\
  (forall other, other <> hwnd -> routed (after r) other = routed p other) /\
  object_at address (objects (after r)) = Some w /\
  idle (after r).
Proof.
  cbv zeta. destruct Hidle as [Hc Hm]. unfold _WindowProc, register_created.
  cbn in Hregisters. apply andb_true_iff in Hregisters. destruct Hregisters as [H1 H2].
  rewrite H1, H2.
  erewrite and_then_returned
    by (apply on_statics_run; apply add_win32_window_run; exact Hm).
  set (a := cs_lpCreateParams (mem_CREATESTRUCT env lParam)) in *.
  set (p1 := mkProcess (set_win32_window_map
                          (map_assign hwnd a (win32_window_map (globals p))) (globals p))
                       (objects p)).
  assert (Hi : idle p1) by (subst p1; unfold idle; destruct (globals p); now split).
  assert (Hr : routed p1 hwnd = Some a).
  { subst p1. unfold routed. destruct (globals p). cbn -[map_assign].
    now rewrite map_find_assign, Z.eqb_refl. }
  rewrite (deliver_run env hwnd WM_NCCREATE wParam lParam Hi), Hr.
  assert (Hw : windowProc env WM_NCCREATE wParam lParam (mkSelf (globals p1) w) =
               mkRan (mkSelf (globals p1) w) [] (Returned (-1))) by reflexivity.
  erewrite and_then_returned by (eapply on_object_run; [exact Hlive|exact Hw]).
  cbn [statics this Z.eqb Pos.eqb app]. unfold and_then, os_call, pure.
  cbn [after calls result app globals objects].
  split; [reflexivity|]. split; [reflexivity|].
  split; [exact Hr|]. split.
  { intros other Ho. unfold routed. subst p1. destruct (globals p). cbn -[map_assign].
    rewrite map_find_assign. destruct (Z.eqb_spec other hwnd); [contradiction|reflexivity]. }
  split; [cbn [objects]; rewrite object_at_store, Z.eqb_refl; subst p1; cbn [objects];
          now rewrite Hlive|].
  exact Hi.
Qed.

Lemma created_window_enters_the_table_witness :
  routed (after (_WindowProc
                   (mkAnswers (fun _ => Build_CREATESTRUCT 100 0 0 800 600)
                      (mem_RECT quiet_answers) (mem_WINDOWPOS quiet_answers)
                      (env_rcPaint quiet_answers)
                      (env_widget_preferred_size quiet_answers)
                      (env_hitbox_test quiet_answers) (env_GetKeyState quiet_answers)
                      (env_GetAsyncKeyState quiet_answers)
                      (env_to_KeyboardVirtualKey quiet_answers) 500 0 0 still_mouse 0)
                   4660 WM_NCCREATE 0 8192
                   (mkProcess (statics at_rest) [(100, plain_window)])))
         4660 = Some 100.
Proof.
  refine (proj1 (proj2 (proj2 (@created_window_enters_the_table
            (mkAnswers (fun _ => Build_CREATESTRUCT 100 0 0 800 600)
               (mem_RECT quiet_answers) (mem_WINDOWPOS quiet_answers)
               (env_rcPaint quiet_answers)
               (env_widget_preferred_size quiet_answers)
               (env_hitbox_test quiet_answers) (env_GetKeyState quiet_answers)
               (env_GetAsyncKeyState quiet_answers)
               (env_to_KeyboardVirtualKey quiet_answers) 500 0 0 still_mouse 0)
            4660 plain_window 0 8192
            (mkProcess (statics at_rest) [(100, plain_window)]) _ _ _))));
    [split; reflexivity | reflexivity | reflexivity].
Defined.

(** ** The cursor *)

Lemma Cursor_eqb_eq a b : Cursor_eqb a b = true <-> a = b.
Proof. destruct a, b; cbn; split; intros H; try reflexivity; discriminate H. Qed.

(** X18.  [setCursor] talks to the operating system only when the cursor
    changes.  Called by a thread that does not hold the mutex: for the
    cursor the window already has it makes no call and changes nothing;
    for another cursor it records the cursor and, unless that is the
    cursor [None], shows the matching system cursor with one call of
    [SetCursor], which is its last call and is preceded only by the
    loading of the system cursors on the first pass.  Called again with
    the same cursor it makes no call. *)
Theorem setCursor_acts_on_change (cursor : Cursor) (idc : CursorResource) (s : Self)
    (Hlock : unlocked s)
    (Hidc : cursor = Cursor_None \/ cursor_resource cursor = Some idc) :
  let r := setCursor cursor s in
  result r = Returned tt /\
  currentCursor (this (after r)) = cursor /\
  unlocked (after r) /\
  calls r =
    (if Cursor_eqb (currentCursor (this s)) cursor then []
     else match cursor with
          | Cursor_None => []
          | _ => cursor_loading s ++ [SetCursor idc]
          end) /\
  (currentCursor (this s) = cursor -> after r = s) /\
  calls (setCursor cursor (after r)) = [].
Proof.
  cbv zeta. unfold unlocked in *. open_self s. cbn in Hlock. subst count.
  unfold cursor_loading. cbn [statics this currentCursor setCursor_statics].
  destruct Hidc as [->|Hidc].
  - destruct cur; cbn; repeat split; intros; discriminate.
  - destruct cursor; try discriminate Hidc; injection Hidc as <-;
      destruct cur, cursors; cbn; repeat split; intros; discriminate.
Qed.

Lemma setCursor_acts_on_change_witness :
  calls (setCursor Cursor_Button at_rest) =
  [LoadCursorW IDC_APPSTARTING; LoadCursorW IDC_ARROW; LoadCursorW IDC_HAND;
   LoadCursorW IDC_IBEAM; LoadCursorW IDC_NO; SetCursor IDC_HAND].
Proof.
  exact (proj1 (proj2 (proj2 (proj2 (@setCursor_acts_on_change
           Cursor_Button IDC_HAND at_rest eq_refl (or_intror eq_refl)))))).
Defined.

(** ** Mouse events *)

(** X19.  The mouse is captured while a button is held.  For every mouse
    message, handled by a thread that does not hold the mutex in a window
    that has its handle, [createMouseEvent] returns an event of the type
    of the message (a move with a button held is a drag), with the
    position counted from the bottom of the window; it captures the mouse
    for the window exactly on a button-down message, releases the capture
    exactly on a button-up message at which no button remains held, and
    asks the system to track the mouse leaving the window exactly when
    that is not being tracked and the message is not the leaving itself. *)
Theorem mouse_is_captured_while_a_button_is_held
    (env : Answers) (uMsg : Message) (wParam lParam : Z) (s : Self) (handle : Z)
    (Hlock : unlocked s)
    (Hmsg : is_mouse_message uMsg = true)
    (Hwnd : win32Window (this s) = Some handle) :
  let r := createMouseEvent env uMsg wParam lParam s in
  exists e,
    result r = Returned e /\
    type e = event_type uMsg wParam /\
    position e = (GET_X_LPARAM lParam,
                  vk.height (currentWindowExtent (base (this s))) - GET_Y_LPARAM lParam) /\
    filter is_SetCapture (calls r) =
      (if is_button_down uMsg then [SetCapture handle] else []) /\
    filter is_ReleaseCapture (calls r) =
      (if is_button_up uMsg && negb (a_button_is_held wParam)
       then [ReleaseCapture] else []) /\
    (In TrackMouseEvent (calls r) <->
     trackingMouseLeaveEvent (this s) = false /\ uMsg <> WM_MOUSELEAVE) /\
    unlocked (after r).
Proof.
  cbv zeta. unfold unlocked in *. open_self s. cbn in Hlock, Hwnd. subst count hwnd.
  unfold event_type.
  assert (Hheld : keystate_has wParam MK_LBUTTON || keystate_has wParam MK_MBUTTON ||
                  keystate_has wParam MK_RBUTTON || keystate_has wParam MK_XBUTTON1 ||
                  keystate_has wParam MK_XBUTTON2 = a_button_is_held wParam)
    by reflexivity.
  destruct uMsg; try discriminate Hmsg; clear Hmsg;
    unfold createMouseEvent, mouse_cause, mouse_type; unfold_acts;
    cbn -[keystate_has GET_X_LPARAM GET_Y_LPARAM GET_WHEEL_DELTA_WPARAM
          GET_XBUTTON_WPARAM Z.sub Z.add Z.ltb Z.land orb a_button_is_held].
  all: repeat match goal with
         | |- context [MouseEventType_eqb (type ?x) ButtonDown] =>
             destruct (MouseEventType_eqb (type x) ButtonDown)
         end.
  all: destruct tracking.
  all: cbn -[keystate_has GET_X_LPARAM GET_Y_LPARAM GET_WHEEL_DELTA_WPARAM
             GET_XBUTTON_WPARAM Z.sub Z.add Z.ltb Z.land orb a_button_is_held].
  all: rewrite ?Hheld; clear Hheld.
  all: destruct (a_button_is_held wParam).
  all: cbn -[GET_X_LPARAM GET_Y_LPARAM GET_WHEEL_DELTA_WPARAM GET_XBUTTON_WPARAM
             Z.sub Z.add Z.ltb Z.land keystate_has].
  all: eexists; split; [reflexivity|].
  all: cbn -[GET_X_LPARAM GET_Y_LPARAM GET_WHEEL_DELTA_WPARAM GET_XBUTTON_WPARAM
             Z.sub Z.add Z.ltb Z.land keystate_has].
  all: repeat split; intros.
  all: repeat match goal with
         | H : _ \/ _ |- _ => destruct H
         | H : _ /\ _ |- _ => destruct H
         | H : False |- _ => contradiction H
         end.
  all: try discriminate; try congruence; try tauto.
Qed.

Lemma mouse_is_captured_while_a_button_is_held_witness :
  exists e,
    result (createMouseEvent quiet_answers WM_LBUTTONUP 0 6553700 at_rest) = Returned e /\
    type e = ButtonUp /\
    position e = (100, 500) /\
    filter is_SetCapture
           (calls (createMouseEvent quiet_answers WM_LBUTTONUP 0 6553700 at_rest)) = [] /\
    filter is_ReleaseCapture
           (calls (createMouseEvent quiet_answers WM_LBUTTONUP 0 6553700 at_rest)) =
      [ReleaseCapture].
Proof.
  destruct (@mouse_is_captured_while_a_button_is_held quiet_answers WM_LBUTTONUP
              0 6553700 at_rest 4660 eq_refl eq_refl eq_refl)
    as (e & H1 & H2 & H3 & H4 & H5 & _).
  exists e. repeat split; assumption.
Defined.

(** What [createMouseEvent] returns and leaves behind. *)
Lemma createMouseEvent_effects env uMsg wParam lParam s handle :
  unlocked s ->
  is_mouse_message uMsg = true ->
  win32Window (this s) = Some handle ->
  exists e,
    result (createMouseEvent env uMsg wParam lParam s) = Returned e /\
    after (createMouseEvent env uMsg wParam lParam s) =
      mkSelf (statics s) (after_mouse_event env uMsg e (this s)) /\
    type e = event_type uMsg wParam /\
    timePoint e = env_now env /\
    position e = (GET_X_LPARAM lParam,
                  vk.height (currentWindowExtent (base (this s))) - GET_Y_LPARAM lParam) /\
    (is_button_down uMsg = true ->
     downPosition e = position e /\
     clickCount e =
       (if env_now env <? doubleClickTimePoint (this s) +
                          doubleClickMaximumDuration (this s)
        then 3 else 1)) /\
    (is_double_click uMsg = true -> downPosition e = position e /\ clickCount e = 2) /\
    (uMsg = WM_MOUSEMOVE ->
     downPosition e = downPosition (mouseButtonEvent (this s)) /\
     clickCount e = clickCount (mouseButtonEvent (this s)) /\
     (type (mouseButtonEvent (this s)) = ButtonDown ->
      cause e = cause (mouseButtonEvent (this s)))).
Proof.
  unfold unlocked. intros Hlock Hmsg Hwnd.
  open_self s. cbn in Hlock, Hwnd. subst count hwnd.
  unfold event_type, after_mouse_event, is_remembered.
  assert (Hheld : keystate_has wParam MK_LBUTTON || keystate_has wParam MK_MBUTTON ||
                  keystate_has wParam MK_RBUTTON || keystate_has wParam MK_XBUTTON1 ||
                  keystate_has wParam MK_XBUTTON2 = a_button_is_held wParam)
    by reflexivity.
  destruct uMsg; try discriminate Hmsg; clear Hmsg;
    unfold createMouseEvent, mouse_cause, mouse_type; unfold_acts;
    cbn -[keystate_has GET_X_LPARAM GET_Y_LPARAM GET_WHEEL_DELTA_WPARAM
          GET_XBUTTON_WPARAM Z.sub Z.add Z.ltb Z.land orb a_button_is_held].
  all: destruct tracking.
  all: try (destruct last as [last_type ? ? ? ? ? ? ?]; destruct last_type).
  all: cbn -[keystate_has GET_X_LPARAM GET_Y_LPARAM GET_WHEEL_DELTA_WPARAM
             GET_XBUTTON_WPARAM Z.sub Z.add Z.ltb Z.land orb a_button_is_held].
  all: rewrite ?Hheld; clear Hheld.
  all: destruct (a_button_is_held wParam).
  all: cbn -[GET_X_LPARAM GET_Y_LPARAM GET_WHEEL_DELTA_WPARAM GET_XBUTTON_WPARAM
             Z.sub Z.add Z.ltb Z.land keystate_has].
  all: eexists; split; [reflexivity|].
  all: cbn -[GET_X_LPARAM GET_Y_LPARAM GET_WHEEL_DELTA_WPARAM GET_XBUTTON_WPARAM
             Z.sub Z.add Z.ltb Z.land keystate_has].
  all: repeat split; intros; try discriminate; try congruence.
Qed.

Lemma after_mouse_event_keeps env uMsg e w :
  win32Window (after_mouse_event env uMsg e w) = win32Window w /\
  base (after_mouse_event env uMsg e w) = base w /\
  doubleClickMaximumDuration (after_mouse_event env uMsg e w) =
    doubleClickMaximumDuration w.
Proof. repeat split. Qed.

(** X20.  A drag remembers where the button went down.  After a
    button-down message, a [WM_MOUSEMOVE] is reported with the position
    of the button-down event as [downPosition], with its click count and
    with its cause; it is a drag when the key state of the move holds a
    button and a plain move otherwise.  The move does not replace the
    remembered button event, so that the moves after it are reported in
    the same way. *)
Theorem drag_remembers_the_button_down
    (env1 env2 : Answers) (uMsg : Message) (wParam1 lParam1 wParam2 lParam2 : Z)
    (s : Self) (handle : Z)
    (Hlock : unlocked s)
    (Hdown : is_button_down uMsg = true)
    (Hwnd : win32Window (this s) = Some handle) :
  let pressed := createMouseEvent env1 uMsg wParam1 lParam1 s in
  let moved := createMouseEvent env2 WM_MOUSEMOVE wParam2 lParam2 (after pressed) in
  exists e1 e2,
    result pressed = Returned e1 /\
    result moved = Returned e2 /\
    type e1 = ButtonDown /\
    type e2 = (if a_button_is_held wParam2 then Drag else Move) /\
    downPosition e2 = position e1 /\
    clickCount e2 = clickCount e1 /\
    cause e2 = cause e1 /\
    mouseButtonEvent (this (after moved)) = e1.
Proof.
  cbv zeta.
  assert (Hm : is_mouse_message uMsg = true) by (destruct uMsg; try discriminate; reflexivity).
  destruct (@createMouseEvent_effects env1 uMsg wParam1 lParam1 s handle Hlock Hm Hwnd)
    as (e1 & Hr1 & Ha1 & Ht1 & _ & _ & Hd1 & _).
  assert (Ht : type e1 = ButtonDown).
  { rewrite Ht1. unfold event_type. rewrite Hdown.
    destruct uMsg; try discriminate Hdown; reflexivity. }
  destruct (Hd1 Hdown) as [Hp1 _].
  rewrite Ha1.
  assert (Hl : mouseButtonEvent (after_mouse_event env1 uMsg e1 (this s)) = e1).
  { unfold after_mouse_event, is_remembered. cbn. now rewrite Ht. }
  destruct (@createMouseEvent_effects env2 WM_MOUSEMOVE wParam2 lParam2
              (mkSelf (statics s) (after_mouse_event env1 uMsg e1 (this s))) handle
              Hlock eq_refl Hwnd)
    as (e2 & Hr2 & Ha2 & Ht2 & _ & _ & _ & _ & Hm2).
  destruct (Hm2 eq_refl) as (Hdp & Hcc & Hca).
  cbn [this] in Hdp, Hcc, Hca. rewrite Hl in Hdp, Hcc, Hca.
  exists e1, e2. repeat split; try assumption.
  - congruence.
  - now apply Hca.
  - rewrite Ha2. cbn [this].
    remember (after_mouse_event env1 uMsg e1 (this s)) as w1 eqn:Hw1.
    unfold after_mouse_event. cbn [mouseButtonEvent].
    rewrite Ht2. unfold event_type, is_remembered. cbn.
    now destruct (a_button_is_held wParam2).
Qed.

Lemma drag_remembers_the_button_down_witness :
  exists e1 e2,
    result (createMouseEvent quiet_answers WM_LBUTTONDOWN 1 6553700 at_rest) =
      Returned e1 /\
    result (createMouseEvent quiet_answers WM_MOUSEMOVE 1 9830550
              (after (createMouseEvent quiet_answers WM_LBUTTONDOWN 1 6553700 at_rest))) =
      Returned e2 /\
    type e2 = Drag /\ downPosition e2 = position e1.
Proof.
  destruct (@drag_remembers_the_button_down quiet_answers quiet_answers
              WM_LBUTTONDOWN 1 6553700 1 9830550 at_rest 4660 eq_refl eq_refl eq_refl)
    as (e1 & e2 & H1 & H2 & _ & H4 & H5 & _).
  exists e1, e2. repeat split; assumption.
Defined.

(** X21.  The click count follows the double click.  A double-click
    message is a button-down event with click count 2 and notes the time
    of the clock; a button-down message after it has click count 3 when
    its own time lies before that time plus the double-click duration of
    the window, and click count 1 otherwise. *)
Theorem click_count_follows_the_double_click
    (env1 env2 : Answers) (uMsg1 uMsg2 : Message)
    (wParam1 lParam1 wParam2 lParam2 : Z) (s : Self) (handle : Z)
    (Hlock : unlocked s)
    (Hdouble : is_double_click uMsg1 = true)
    (Hdown : is_button_down uMsg2 = true)
    (Hwnd : win32Window (this s) = Some handle) :
  let double := createMouseEvent env1 uMsg1 wParam1 lParam1 s in
  let third := createMouseEvent env2 uMsg2 wParam2 lParam2 (after double) in
  exists e1 e2,
    result double = Returned e1 /\
    result third = Returned e2 /\
    type e1 = ButtonDown /\ clickCount e1 = 2 /\
    type e2 = ButtonDown /\
    clickCount e2 =
      (if env_now env2 <? env_now_double_click env1 +
                          doubleClickMaximumDuration (this s)
       then 3 else 1).
Proof.
  cbv zeta.
  assert (Hm1 : is_mouse_message uMsg1 = true)
    by (destruct uMsg1; try discriminate; reflexivity).
  assert (Hm2 : is_mouse_message uMsg2 = true)
    by (destruct uMsg2; try discriminate; reflexivity).
  destruct (@createMouseEvent_effects env1 uMsg1 wParam1 lParam1 s handle Hlock Hm1 Hwnd)
    as (e1 & Hr1 & Ha1 & Ht1 & _ & _ & _ & Hd1 & _).
  destruct (Hd1 Hdouble) as [_ Hc1]. rewrite Ha1.
  destruct (@createMouseEvent_effects env2 uMsg2 wParam2 lParam2
              (mkSelf (statics s) (after_mouse_event env1 uMsg1 e1 (this s))) handle
              Hlock Hm2 Hwnd)
    as (e2 & Hr2 & _ & Ht2 & Hn2 & _ & Hd2 & _).
  destruct (Hd2 Hdown) as [_ Hc2].
  exists e1, e2. repeat split; try assumption.
  - rewrite Ht1. unfold event_type.
    destruct uMsg1; try discriminate Hdouble; reflexivity.
  - rewrite Ht2. unfold event_type.
    destruct uMsg2; try discriminate Hdown; reflexivity.
  - rewrite Hc2. cbn [this after_mouse_event doubleClickTimePoint
                      doubleClickMaximumDuration].
    now rewrite Hdouble.
Qed.

Lemma click_count_follows_the_double_click_witness :
  exists e1 e2,
    result (createMouseEvent quiet_answers WM_LBUTTONDBLCLK 1 6553700 at_rest) =
      Returned e1 /\
    result (createMouseEvent quiet_answers WM_LBUTTONDOWN 1 6553700
              (after (createMouseEvent quiet_answers WM_LBUTTONDBLCLK 1 6553700
                        at_rest))) = Returned e2 /\
    clickCount e1 = 2 /\ clickCount e2 = 3.
Proof.
  destruct (@click_count_follows_the_double_click quiet_answers quiet_answers
              WM_LBUTTONDBLCLK WM_LBUTTONDOWN 1 6553700 1 6553700 at_rest 4660
              eq_refl eq_refl eq_refl eq_refl)
    as (e1 & e2 & H1 & H2 & _ & H4 & _ & H6).
  exists e1, e2. repeat split; assumption.
Defined.

Lemma render_ready_trace env w :
  state w = ReadyToRender ->
  exists rest, trace (render env w) = prologue_calls env w ++ rest.
Proof.
  intros Hready. unfold render.
  erewrite bind_returned by (apply teardown_below; now rewrite Hready).
  erewrite bind_returned
    by (rewrite build_run; unfold build_result; now rewrite Hready).
  rewrite render_when_built_run, Hready. cbn [State_eqb State_ordinal Z.eqb].
  unfold prepend.
  destruct (need_redraw env w).
  - destruct (render_frame env (after_prologue env w)) as [w1 t1 o1].
    cbn. now exists t1.
  - cbn. now exists [].
Qed.

Lemma layout_request_run env uMsg wParam lParam s :
  unlocked s ->
  uMsg = WM_DPICHANGED \/ uMsg = WM_ACTIVATE ->
  state (base (this (after (windowProc env uMsg wParam lParam s)))) =
    state (base (this s)) /\
  requestLayout (base (this (after (windowProc env uMsg wParam lParam s)))) = true.
Proof.
  unfold unlocked. intros Hlock H. open_self s. cbn in Hlock. subst count.
  destruct H as [-> | ->]; unfold windowProc, windowProc_switch; unfold_acts; cbn.
  - now destruct vulkan.
  - destruct ((wParam =? 1) || (wParam =? 2)); [|destruct (wParam =? 0)];
      cbn; now destruct vulkan.
Qed.

Lemma setting_request_run env uMsg wParam lParam s :
  unlocked s ->
  uMsg = WM_SETTINGCHANGE \/ uMsg = WM_WIN_LANGUAGE_CHANGE ->
  state (base (this (after (windowProc env uMsg wParam lParam s)))) =
    state (base (this s)) /\
  _request_setting_change
    (base (this (after (windowProc env uMsg wParam lParam s)))) = true.
Proof.
  unfold unlocked. intros Hlock H. open_self s. cbn in Hlock. subst count.
  destruct H as [-> | ->]; unfold windowProc, windowProc_switch; unfold_acts; cbn;
    now destruct vulkan.
Qed.

(** X22.  What a message asks of the window reaches the next tick.  On a
    window in [ReadyToRender], handled by a thread that does not hold the
    mutex: after [WM_DPICHANGED] or [WM_ACTIVATE] the next [render] asks
    the widget tree to update its layout with the need for it set; after
    [WM_SETTINGCHANGE] or [WM_WIN_LANGUAGE_CHANGE] it asks the widget tree
    to update its constraints with the need for it set. *)
Theorem message_request_reaches_the_next_tick
    (env : Answers) (uMsg : Message) (wParam lParam : Z) (env' : Env) (s : Self)
    (Hlock : unlocked s)
    (Hready : state (base (this s)) = ReadyToRender) :
  let w' := base (this (after (windowProc env uMsg wParam lParam s))) in
  (uMsg = WM_DPICHANGED \/ uMsg = WM_ACTIVATE ->
   In (EvWidgetUpdateLayout true) (trace (render env' w'))) /\
  (uMsg = WM_SETTINGCHANGE \/ uMsg = WM_WIN_LANGUAGE_CHANGE ->
   In (EvWidgetUpdateConstraints true) (trace (render env' w'))).
Proof.
  cbv zeta. split; intros H.
  - destruct (@layout_request_run env uMsg wParam lParam s Hlock H) as [Hst Hflag].
    rewrite Hready in Hst.
    destruct (render_ready_trace env' _ Hst) as [rest ->].
    apply in_or_app. left. unfold prologue_calls.
    apply in_or_app. right. apply in_or_app. right. right. left.
    unfold need_layout. now rewrite Hflag.
  - destruct (@setting_request_run env uMsg wParam lParam s Hlock H) as [Hst Hflag].
    rewrite Hready in Hst.
    destruct (render_ready_trace env' _ Hst) as [rest ->].
    apply in_or_app. left. unfold prologue_calls. left. now rewrite Hflag.
Qed.

Lemma message_request_reaches_the_next_tick_witness :
  In (EvWidgetUpdateLayout true)
     (trace (render calm_env
               (base (this (after (windowProc quiet_answers WM_DPICHANGED 96 0
                                     at_rest)))))).
Proof.
  refine (proj1 (@message_request_reaches_the_next_tick quiet_answers WM_DPICHANGED
                   96 0 calm_env at_rest eq_refl eq_refl) _).
  now left.
Defined.

(** * The clipboard *)

Lemma eqb_other (a b : Z) : a <> b -> (b =? a) = false.
Proof. intros H. apply Z.eqb_neq. congruence. Qed.

(** X23.  [setTextOnClipboard] frees the memory it allocates or gives it
    to the clipboard, never both.  It always returns and leaves the
    window as it was.  [CloseClipboard] is called exactly when
    [OpenClipboard] succeeded, and then as the last call.  Memory is
    allocated at most once; when [GlobalAlloc] answers a handle, the
    allocation is matched by one [GlobalFree] of that handle or by its
    being accepted by [SetClipboardData], and no other handle is freed or
    passed on; when it answers none, nothing is freed or passed on. *)
Theorem setTextOnClipboard_frees_or_hands_over
    (cb : Clipboard) (str : list Z) (s : Self) :
  let r := setTextOnClipboard cb str s in
  result r = Returned tt /\
  after r = s /\
  number_of is_CloseClipboard (calls r) =
    (if env_OpenClipboard cb then 1 else 0)%nat /\
  (env_OpenClipboard cb = true -> last (calls r) GetLastError = CloseClipboard) /\
  (number_of is_GlobalAlloc (calls r) <= 1)%nat /\
  match env_GlobalAlloc cb with
  | Some h =>
      (number_of (is_GlobalFree h) (calls r) +
       (if answered_some (env_SetClipboardData cb)
        then number_of (gives_to_clipboard h) (calls r) else 0) =
       number_of is_GlobalAlloc (calls r))%nat /\
      forall h', h' <> h ->
        number_of (is_GlobalFree h') (calls r) = 0%nat /\
        number_of (gives_to_clipboard h') (calls r) = 0%nat
  | None =>
      forall h',
        number_of (is_GlobalFree h') (calls r) = 0%nat /\
        number_of (gives_to_clipboard h') (calls r) = 0%nat
  end.
Proof.
  cbv zeta. destruct s as [g w].
  destruct cb as [opened emptied formats data alloc locked text unlocked_ok
                  unlock_error set u8 w16].
  unfold setTextOnClipboard, set_unicode_text, number_of. unfold_acts.
  cbn -[Z.mul Z.add Z.eqb].
  destruct opened; cbn -[Z.mul Z.add Z.eqb];
    [|repeat split; try lia; try discriminate; destruct alloc; repeat split;
      now destruct set].
  destruct emptied; cbn -[Z.mul Z.add Z.eqb];
    [|repeat split; try lia; destruct alloc; repeat split; now destruct set].
  destruct alloc as [h|]; cbn -[Z.mul Z.add Z.eqb];
    [|repeat split; lia].
  destruct locked as [p|]; [destruct unlocked_ok; [|destruct (unlock_error =? ERROR_SUCCESS)]|];
    cbn -[Z.mul Z.add Z.eqb];
    destruct set; cbn -[Z.mul Z.add Z.eqb]; rewrite ?Z.eqb_refl;
    cbn -[Z.mul Z.add Z.eqb]; repeat split; try lia;
    match goal with
    | H : _ <> _ |- _ => rewrite ?(eqb_other H); reflexivity
    end.
Qed.

Lemma number_of_app p (a b : list Call) :
  number_of p (a ++ b) = (number_of p a + number_of p b)%nat.
Proof. unfold number_of. now rewrite filter_app, length_app. Qed.

Lemma read_unicode_text_run cb r s :
  exists cs,
    read_unicode_text cb r s =
      mkRan s cs
        (Returned (if answered_some (env_GetClipboardData cb) &&
                      answered_some (env_GlobalLock cb)
                   then to_u8string cb (env_locked_text cb) else r)) /\
    number_of is_CloseClipboard cs = 0%nat /\
    number_of is_GlobalUnlock cs =
      (if answered_some (env_GlobalLock cb) then number_of is_GlobalLock cs else 0%nat).
Proof.
  unfold read_unicode_text. unfold_acts.
  destruct (env_GetClipboardData cb) as [d|]; cbn.
  - destruct (env_GlobalLock cb) as [p|]; cbn.
    + destruct (env_GlobalUnlock cb); cbn; eexists; repeat split.
    + eexists; repeat split.
  - destruct (env_GlobalLock cb); eexists; repeat split.
Qed.

Lemma enumerate_formats_run cb answers : forall format r s,
  exists cs,
    enumerate_formats cb answers format r s =
      mkRan s cs
        (Returned (if offers_text answers &&
                      answered_some (env_GetClipboardData cb) &&
                      answered_some (env_GlobalLock cb)
                   then to_u8string cb (env_locked_text cb) else r)) /\
    number_of is_CloseClipboard cs = 0%nat /\
    number_of is_GlobalUnlock cs =
      (if answered_some (env_GlobalLock cb) then number_of is_GlobalLock cs else 0%nat).
Proof.
  induction answers as [|format' answers' IH]; intros format r s.
  - cbn. unfold_acts. cbn. eexists. repeat split.
    now destruct (answered_some (env_GlobalLock cb)).
  - cbn [enumerate_formats offers_text]. unfold and_then at 1.
    unfold os_call at 1. cbn [after calls result].
    destruct (format' =? 0).
    + unfold_acts. cbn. eexists. repeat split.
      now destruct (answered_some (env_GlobalLock cb)).
    + destruct (is_text_format format').
      * destruct (read_unicode_text_run cb r s) as (cs & -> & Hc & Hu).
        cbn. eexists. repeat split; assumption.
      * destruct (IH format' r s) as (cs & -> & Hc & Hu).
        cbn. eexists. repeat split; assumption.
Qed.

(** X24.  [getTextFromClipboard] reads the text behind the first text
    format.  It always returns, with the mutex as it found it.  The
    result is the converted text that [GlobalLock] points to when the
    clipboard could be opened, a text format ([CF_TEXT], [CF_OEMTEXT] or
    [CF_UNICODETEXT]) is enumerated before the end of the formats, and
    both [GetClipboardData] and [GlobalLock] answer; in every other case
    it is the empty string.  [CloseClipboard] is called exactly when
    [OpenClipboard] succeeded, and then as the last call; the data is
    unlocked as often as it was locked with success. *)
Theorem getTextFromClipboard_reads_the_first_text (cb : Clipboard) (s : Self) :
  let r := getTextFromClipboard cb s in
  result r =
    Returned (if env_OpenClipboard cb &&
                 offers_text (env_EnumClipboardFormats cb) &&
                 answered_some (env_GetClipboardData cb) &&
                 answered_some (env_GlobalLock cb)
              then to_u8string cb (env_locked_text cb) else []) /\
  after r = s /\
  number_of is_CloseClipboard (calls r) =
    (if env_OpenClipboard cb then 1 else 0)%nat /\
  (env_OpenClipboard cb = true -> last (calls r) GetLastError = CloseClipboard) /\
  number_of is_GlobalUnlock (calls r) =
    (if answered_some (env_GlobalLock cb)
     then number_of is_GlobalLock (calls r) else 0%nat).
Proof.
  cbv zeta. open_self s. unfold getTextFromClipboard. unfold_acts.
  cbn -[enumerate_formats].
  destruct (env_OpenClipboard cb); cbn -[enumerate_formats].
  - match goal with
    | |- context [enumerate_formats cb ?a ?f ?r ?s] =>
        destruct (enumerate_formats_run cb a f r s) as (cs & E & Hc & Hu)
    end.
    rewrite E. cbn [after calls result app].
    repeat split.
    + change (?x :: cs ++ [CloseClipboard]) with ((x :: cs) ++ [CloseClipboard]).
      rewrite number_of_app. unfold number_of at 1. cbn [filter is_CloseClipboard].
      fold (number_of is_CloseClipboard cs). rewrite Hc. reflexivity.
    + intros _.
      change (?x :: cs ++ [CloseClipboard]) with ((x :: cs) ++ [CloseClipboard]).
      apply last_last.
    + change (?x :: cs ++ [CloseClipboard]) with ((x :: cs) ++ [CloseClipboard]).
      rewrite !number_of_app. unfold number_of at 1 3 4. cbn.
      fold (number_of is_GlobalUnlock cs). fold (number_of is_GlobalLock cs).
      rewrite Hu. destruct (answered_some (env_GlobalLock cb)); lia.
  - repeat split; try discriminate.
    now destruct (answered_some (env_GlobalLock cb)).
Qed.

(** * The input a message hands to the widgets *)

Section Emits.

Context {S A B : Type} (P : Call -> Prop).

Lemma emits_and_then (m : Act S A) (k : A -> Act S B) :
  emits P m -> (forall a, emits P (k a)) -> emits P (and_then m k).
Proof.
  intros Hm Hk s. specialize (Hm s). unfold and_then.
  destruct (m s) as [s1 c1 [a|f]]; cbn in *; [|exact Hm].
  specialize (Hk a s1). destruct (k a s1) as [s2 c2 o]. cbn in *.
  apply Forall_app. now split.
Qed.

Lemma emits_quiet (m : Act S A) : (forall s, calls (m s) = []) -> emits P m.
Proof. intros H s. rewrite H. constructor. Qed.

Lemma emits_os_call (c : Call) : P c -> emits P (os_call (S := S) c).
Proof. intros H s. cbn. now constructor. Qed.

Lemma emits_if (b : bool) (m1 m2 : Act S A) :
  emits P m1 -> emits P m2 -> emits P (if b then m1 else m2).
Proof. now destruct b. Qed.

Lemma emits_after (Q : A -> Prop) (m : Act S A) (k : A -> Act S B) :
  yields Q m -> emits P m -> (forall a, Q a -> emits P (k a)) ->
  emits P (and_then m k).
Proof.
  intros Hq Hm Hk s. specialize (Hm s). specialize (Hq s). unfold and_then.
  destruct (m s) as [s1 c1 [a|f]]; cbn in *; [|exact Hm].
  specialize (Hk a (Hq a eq_refl) s1). destruct (k a s1) as [s2 c2 o]. cbn in *.
  apply Forall_app. now split.
Qed.

End Emits.

Lemma emits_unlock P : emits P unlock.
Proof.
  apply emits_quiet. intros s. unfold_acts.
  destruct (Nat.eqb (recurse_lock_count (statics s)) 0); reflexivity.
Qed.

Lemma emits_assume_unlocked P : emits P assume_unlocked.
Proof.
  apply emits_quiet. intros s. unfold_acts.
  destruct (Nat.eqb (recurse_lock_count (statics s)) 0); reflexivity.
Qed.

Lemma emits_narrow_cast {S} P lo hi x : emits P (narrow_cast (S := S) lo hi x).
Proof.
  apply emits_quiet. intros s. unfold_acts.
  destruct ((lo <=? x) && (x <=? hi)); reflexivity.
Qed.

Lemma emits_scoped_lock {A} P (body : Act Self A) :
  emits P body -> emits P (scoped_lock body).
Proof.
  intros H. unfold scoped_lock.
  apply emits_and_then; [now apply emits_quiet|]. intros _.
  apply emits_and_then; [exact H|]. intros r.
  apply emits_and_then; [apply emits_unlock|]. intros _.
  now apply emits_quiet.
Qed.

Create HintDb emits discriminated.

Ltac emits_call :=
  first
    [ match goal with
      | H : forall c, is_input c = false -> _ |- _ => apply H; reflexivity
      end
    | cbn; tauto
    | unfold input_of; tauto ].

Ltac emits_walk :=
  repeat lazymatch goal with
    | |- emits _ (and_then _ _) => apply emits_and_then; [|intros ?]
    | |- emits _ (pure _) => apply emits_quiet; reflexivity
    | |- emits _ (member _) => apply emits_quiet; reflexivity
    | |- emits _ (base_member _) => apply emits_quiet; reflexivity
    | |- emits _ (read _) => apply emits_quiet; reflexivity
    | |- emits _ (update _) => apply emits_quiet; reflexivity
    | |- emits _ (fail _) => apply emits_quiet; reflexivity
    | |- emits _ tt_no_default => apply emits_quiet; reflexivity
    | |- emits _ lock => apply emits_quiet; reflexivity
    | |- emits _ (assign _) => apply emits_quiet; reflexivity
    | |- emits _ (base_assign _) => apply emits_quiet; reflexivity
    | |- emits _ unlock => apply emits_unlock
    | |- emits _ assume_unlocked => apply emits_assume_unlocked
    | |- emits _ (narrow_cast _ _ _) => apply emits_narrow_cast
    | |- emits _ (os_call _) => apply emits_os_call; emits_call
    | |- emits _ (scoped_lock _) => apply emits_scoped_lock
    | |- emits _ (if _ then _ else _) => apply emits_if
    | |- emits _ (match ?x with _ => _ end) => destruct x
    | |- emits _ _ => solve [eauto with emits nocore]
    end.

Section Helpers.

Variable P : Call -> Prop.
Hypothesis HP : forall c, is_input c = false -> P c.

Lemma emits_load_cursors : emits P load_cursors.
Proof using HP. unfold load_cursors. emits_walk. Qed.
Hint Resolve emits_load_cursors : emits.

Lemma emits_setCursor cursor : emits P (setCursor cursor).
Proof using HP. unfold setCursor. emits_walk. Qed.
Hint Resolve emits_setCursor : emits.

Lemma emits_setOSWindowRectangleFromRECT rect :
  emits P (setOSWindowRectangleFromRECT rect).
Proof using HP. unfold setOSWindowRectangleFromRECT. emits_walk. Qed.

Lemma emits_handleSuragates c : emits P (handleSuragates c).
Proof using HP. unfold handleSuragates. emits_walk. Qed.

Lemma emits_getKeyboardState env : emits P (getKeyboardState env).
Proof using HP. unfold getKeyboardState. emits_walk. Qed.
Hint Resolve emits_getKeyboardState : emits.

Lemma emits_getKeyboardModifiers env : emits P (getKeyboardModifiers env).
Proof using HP. unfold getKeyboardModifiers. emits_walk. Qed.
Hint Resolve emits_getKeyboardModifiers : emits.

Lemma emits_key_down env wParam lParam :
  (forall s m k, P (handle_keyboard_event_key s m k)) ->
  emits P (key_down env wParam lParam).
Proof using HP.
  intros Hkey. unfold key_down. emits_walk. apply emits_os_call, Hkey.
Qed.

Lemma emits_mouse_cause uMsg wParam e : emits P (mouse_cause uMsg wParam e).
Proof using HP. unfold mouse_cause. destruct uMsg; emits_walk. Qed.
Hint Resolve emits_mouse_cause : emits.

Lemma emits_mouse_type env uMsg pressed e : emits P (mouse_type env uMsg pressed e).
Proof using HP. unfold mouse_type. destruct uMsg; emits_walk. Qed.
Hint Resolve emits_mouse_type : emits.

Lemma emits_createMouseEvent env uMsg wParam lParam :
  emits P (createMouseEvent env uMsg wParam lParam).
Proof using HP. unfold createMouseEvent. emits_walk. Qed.

Lemma emits_hit_test env lParam : emits P (hit_test env lParam).
Proof using HP. unfold hit_test. emits_walk. Qed.

End Helpers.

#[local] Hint Resolve emits_setOSWindowRectangleFromRECT emits_handleSuragates
  emits_createMouseEvent emits_hit_test : emits.

(** X25.  Each kind of input reaches the widgets only from its own
    messages.  Of the calls [windowProc] makes for a message, a character
    is handed to the keyboard handling only by [WM_CHAR], and then it is
    32 or more, by [WM_DEADCHAR], and then it is not zero and marked as
    not full, and by [WM_UNICHAR], and then it is the [wParam], 32 or
    more and not the probe value [UNICODE_NOCHAR]; a key event only by
    [WM_KEYDOWN] and [WM_SYSKEYDOWN]; a mouse event only by the mouse
    messages. *)
Theorem input_comes_from_its_own_messages
    (env : Answers) (uMsg : Message) (wParam lParam : Z) (s : Self) :
  Forall (input_of uMsg wParam) (calls (windowProc env uMsg wParam lParam s)).
Proof.
  revert s. change (emits (input_of uMsg wParam) (windowProc env uMsg wParam lParam)).
  assert (HP : forall c, is_input c = false -> input_of uMsg wParam c)
    by (intros []; cbn; (discriminate || trivial)).
  unfold windowProc. apply emits_and_then.
  2:{ intros [v|]; emits_walk. }
  unfold windowProc_switch.
  destruct uMsg; try solve [emits_walk].
  - (* WM_UNICHAR *)
    eapply emits_after; [apply yields_narrow_cast|apply emits_narrow_cast|].
    intros c ->.
    destruct (Z.eqb_spec wParam UNICODE_NOCHAR) as [E|N]; [emits_walk|].
    destruct (Z.leb_spec 32 wParam) as [L|L]; cbv iota; emits_walk.
  - (* WM_DEADCHAR *)
    apply emits_and_then; [apply emits_narrow_cast|]. intros c0.
    apply emits_and_then; [apply emits_handleSuragates, HP|]. intros c.
    destruct (Z.eqb_spec c 0) as [E|N]; cbn [negb]; cbv iota; emits_walk.
  - (* WM_CHAR *)
    apply emits_and_then; [apply emits_narrow_cast|]. intros c0.
    apply emits_and_then; [apply emits_handleSuragates, HP|]. intros c.
    destruct (Z.leb_spec 32 c) as [L|L]; cbv iota; emits_walk.
  - (* WM_SYSKEYDOWN *)
    emits_walk. apply emits_key_down; [exact HP|]. intros; cbn; tauto.
  - (* WM_KEYDOWN *)
    emits_walk. apply emits_key_down; [exact HP|]. intros; cbn; tauto.
Qed.

(** * The window class *)

Lemma createWindowClass_run g :
  createWindowClass g =
  mkRan (set_win32WindowClassIsRegistered true g)
        (if win32WindowClassIsRegistered g then [] else [RegisterClassW])
        (Returned tt).
Proof.
  unfold createWindowClass. unfold_acts.
  destruct g as [n table table_mutex [] opened cursors]; reflexivity.
Qed.

Lemma times_createWindowClass_registered n : forall g,
  win32WindowClassIsRegistered g = true ->
  times n createWindowClass g = mkRan g [] (Returned tt).
Proof.
  induction n as [|n IH]; intros g Hg; [reflexivity|].
  cbn [times]. unfold and_then. rewrite createWindowClass_run, Hg.
  replace (set_win32WindowClassIsRegistered true g) with g
    by (destruct g; cbn in Hg; now subst).
  now rewrite (IH g Hg).
Qed.

(** X26.  The window class is registered once.  However often
    [createWindowClass] runs, once or more, it returns with the class
    marked as registered, and [RegisterClassW] is called once in all when
    the class was not registered before and not at all when it was. *)
Theorem window_class_is_registered_once (n : nat) (g : Statics) :
  let r := times (S n) createWindowClass g in
  result r = Returned tt /\
  after r = set_win32WindowClassIsRegistered true g /\
  number_of is_RegisterClassW (calls r) =
    (if win32WindowClassIsRegistered g then 0 else 1)%nat.
Proof.
  cbv zeta. cbn [times]. unfold and_then. rewrite createWindowClass_run.
  rewrite times_createWindowClass_registered by (now destruct g).
  rewrite app_nil_r. repeat split.
  now destruct (win32WindowClassIsRegistered g).
Qed.
